(** * Flipkart Minutes tool facade (src/mcp-server/mcp_server.py)

    A shallow embedding of the facade operations of [mcp_server.py] and
    of the recommendation deriver, with the properties the specification
    states about them.

    Layout:
    - [Py]: the fragment of Python's data model the module computes with
      (JSON values as parsed by [res.json()], truthiness, [dict.get],
      subscripting, comparison, arithmetic, [round], string helpers);
    - [Http]: requests, responses and the remote service as a transition
      function on an abstract remote state; the facade's computations are
      written in a state-and-exception monad that records every request;
    - [Facade]: the functions of the source, under their own names;
    - [Obs]: what the statements observe of a run, and the notions of the
      specification (discount formula, co-occurrence counts);
    - [Scenario]: concrete remote services on which the facade is run;
    - the properties, one module per component ([Binary64] holds the
      rounding lemmas the discount needs): first those the
      specification states, then (from [Exchange] on) further properties
      of the session, the pass-through tools, the product tools, the cart
      view and the deriver.

    Conventions of the embedding:
    - an exception is a value [Raise e] of the monad; only exceptions
      derived from [Exception] are modelled, which is what the [except]
      clauses of the source catch;
    - [print] is ignored;
    - the remote service is arbitrary: every theorem holds for every
      transition function [handle], a reply being a transport failure
      ([None]) or a response whose body may or may not parse as JSON;
    - redirects and time-outs happen inside the transport: a request that
      times out is a transport failure, a redirected GET is one exchange;
    - the text Python prints for floats and containers is a parameter
      ([py_repr], [grouped_of_float]); everything else is computed. *)

From Stdlib Require Import ZArith List String Ascii Bool Lia.
From Stdlib Require Import SpecFloat DecimalString.
Import ListNotations.

Set Warnings "-register-all".

Local Open Scope string_scope.
Local Open Scope list_scope.
Local Open Scope Z_scope.

(** ** Python values and builtins *)

Module Py.

(** A value produced by [json.loads]: [None], [bool], [int], [float]
    (binary64, in the Standard Library's specification format), [str],
    [list], and [dict] as an association list in insertion order. *)
Inductive json : Type :=
| JNull
| JBool (b : bool)
| JInt (n : Z)
| JFloat (f : spec_float)
| JStr (s : string)
| JArr (l : list json)
| JObj (kv : list (string * json)).

(** The exceptions the module can meet; all derive from [Exception]. *)
Inductive exn : Type :=
| HTTPError            (* httpx transport failure *)
| JSONDecodeError      (* res.json() on a body that is not JSON *)
| AttributeError
| KeyError
| TypeError
| ValueError
| IndexError
| ZeroDivisionError
| OverflowError.

Inductive result (A : Type) : Type :=
| Ok (a : A)
| Raise (e : exn).
Arguments Ok {A} a.
Arguments Raise {A} e.

Definition rbind {A B} (r : result A) (k : A -> result B) : result B :=
  match r with
  | Ok a => k a
  | Raise e => Raise e
  end.

Declare Scope res_scope.
Delimit Scope res_scope with res.
Notation "x <-? c ;; k" := (rbind c (fun x => k))
  (at level 61, c at next level, right associativity) : res_scope.

(** *** Numbers *)

Definition prec : Z := 53.
Definition emax : Z := 1024.

Inductive num : Type :=
| NInt (n : Z)
| NFloat (f : spec_float).

(** [bool] is a subclass of [int]. *)
Definition as_num (j : json) : option num :=
  match j with
  | JBool b => Some (NInt (if b then 1 else 0))
  | JInt n => Some (NInt n)
  | JFloat f => Some (NFloat f)
  | _ => None
  end.

(** [float(n)]: round to nearest even, [OverflowError] beyond the range. *)
Definition float_of_int (n : Z) : result spec_float :=
  match binary_normalize prec emax n 0 false with
  | S754_infinity _ => Raise OverflowError
  | f => Ok f
  end.

Definition to_float (x : num) : result spec_float :=
  match x with
  | NInt n => float_of_int n
  | NFloat f => Ok f
  end.

(** Python compares an [int] with a [float] exactly. *)
Definition cmp_int_float (n : Z) (f : spec_float) : option comparison :=
  match f with
  | S754_nan => None
  | S754_infinity s => Some (if s then Gt else Lt)
  | S754_zero _ => Some (n ?= 0)
  | S754_finite s m e =>
      let v := if s then Zneg m else Zpos m in
      Some (if 0 <=? e then n ?= v * 2 ^ e else n * 2 ^ (- e) ?= v)
  end.

Definition num_compare (x y : num) : option comparison :=
  match x, y with
  | NInt a, NInt b => Some (a ?= b)
  | NFloat a, NFloat b => SFcompare a b
  | NInt a, NFloat b => cmp_int_float a b
  | NFloat a, NInt b => option_map CompOpp (cmp_int_float b a)
  end.

Definition num_eqb (x y : num) : bool :=
  match num_compare x y with Some Eq => true | _ => false end.

Definition num_gtb (x y : num) : bool :=
  match num_compare x y with Some Gt => true | _ => false end.

Definition is_zero_float (f : spec_float) : bool :=
  match f with S754_zero _ => true | _ => false end.

(** [x - y]. *)
Definition num_sub (x y : num) : result num :=
  match x, y with
  | NInt a, NInt b => Ok (NInt (a - b))
  | _, _ =>
      (a <-? to_float x ;; b <-? to_float y ;;
       Ok (NFloat (SFsub prec emax a b)))%res
  end.

(** [x * y]. *)
Definition num_mul (x y : num) : result num :=
  match x, y with
  | NInt a, NInt b => Ok (NInt (a * b))
  | _, _ =>
      (a <-? to_float x ;; b <-? to_float y ;;
       Ok (NFloat (SFmul prec emax a b)))%res
  end.

(** The integer [n] as an exact (unrounded) significand with exponent 0. *)
Definition exact_of_int (n : Z) : spec_float :=
  match n with
  | Z0 => S754_zero false
  | Zpos p => S754_finite false p 0
  | Zneg p => S754_finite true p 0
  end.

(** [x / y]: true division.  Between two [int]s the quotient is rounded
    once, to nearest even; a zero divisor raises. *)
Definition num_truediv (x y : num) : result num :=
  match x, y with
  | NInt a, NInt b =>
      if b =? 0 then Raise ZeroDivisionError
      else match SFdiv prec emax (exact_of_int a) (exact_of_int b) with
           | S754_infinity _ => Raise OverflowError
           | q => Ok (NFloat q)
           end
  | _, _ =>
      (a <-? to_float x ;; b <-? to_float y ;;
       if is_zero_float b then Raise ZeroDivisionError
       else Ok (NFloat (SFdiv prec emax a b)))%res
  end.

(** Round half to even of [m / 2^k], for [k > 0]. *)
Definition round_half_even_shift (m : Z) (k : Z) : Z :=
  let d := 2 ^ k in
  let q := m / d in
  let r := m mod d in
  match 2 * r ?= d with
  | Lt => q
  | Gt => q + 1
  | Eq => if Z.even q then q else q + 1
  end.

(** [round(x)] with one argument: an [int], ties to even. *)
Definition num_round (x : num) : result Z :=
  match x with
  | NInt n => Ok n
  | NFloat S754_nan => Raise ValueError
  | NFloat (S754_infinity _) => Raise OverflowError
  | NFloat (S754_zero _) => Ok 0
  | NFloat (S754_finite s m e) =>
      let a := if 0 <=? e then Zpos m * 2 ^ e
               else round_half_even_shift (Zpos m) (- e) in
      Ok (if s then - a else a)
  end.

Definition json_of_num (x : num) : json :=
  match x with
  | NInt n => JInt n
  | NFloat f => JFloat f
  end.

(** *** Truthiness, dictionaries, subscripting *)

Definition truthy (j : json) : bool :=
  match j with
  | JNull => false
  | JBool b => b
  | JInt n => negb (n =? 0)
  | JFloat f => negb (is_zero_float f)
  | JStr s => negb (String.eqb s "")
  | JArr l => match l with [] => false | _ => true end
  | JObj kv => match kv with [] => false | _ => true end
  end.

Fixpoint dict_get (kv : list (string * json)) (k : string) : option json :=
  match kv with
  | [] => None
  | (k', v) :: rest => if String.eqb k' k then Some v else dict_get rest k
  end.

(** [d[k] = v]: an existing key keeps its position. *)
Fixpoint dict_set (kv : list (string * json)) (k : string) (v : json)
  : list (string * json) :=
  match kv with
  | [] => [(k, v)]
  | (k', v') :: rest =>
      if String.eqb k' k then (k', v) :: rest
      else (k', v') :: dict_set rest k v
  end.

(** [x.get(k, d)]: only a [dict] has the method. *)
Definition get_default (x : json) (k : string) (d : json) : result json :=
  match x with
  | JObj kv => Ok (match dict_get kv k with Some v => v | None => d end)
  | _ => Raise AttributeError
  end.

(** [x.get(k)]. *)
Definition get (x : json) (k : string) : result json :=
  get_default x k JNull.

(** [x[k]] with a string key. *)
Definition index (x : json) (k : string) : result json :=
  match x with
  | JObj kv => match dict_get kv k with
               | Some v => Ok v
               | None => Raise KeyError
               end
  | _ => Raise TypeError
  end.

(** [x[k] = v] on a [dict]. *)
Definition set_item (x : json) (k : string) (v : json) : result json :=
  match x with
  | JObj kv => Ok (JObj (dict_set kv k v))
  | _ => Raise TypeError
  end.

(** *** Strings as UTF-8 byte sequences *)

(** A continuation byte [10xxxxxx] does not start a character. *)
Definition is_continuation (c : ascii) : bool :=
  match c with
  | Ascii _ _ _ _ _ _ false true => true
  | _ => false
  end.

Fixpoint take_continuation (s : string) : string * string :=
  match s with
  | String c rest =>
      if is_continuation c
      then let (h, t) := take_continuation rest in (String c h, t)
      else (EmptyString, s)
  | EmptyString => (EmptyString, EmptyString)
  end.

Fixpoint chars_fuel (fuel : nat) (s : string) : list string :=
  match fuel, s with
  | S fuel', String c rest =>
      let (h, t) := take_continuation rest in
      String c h :: chars_fuel fuel' t
  | _, _ => []
  end.

(** The characters of a [str], one string per code point. *)
Definition chars (s : string) : list string :=
  chars_fuel (String.length s) s.

(** *** Iteration and length *)

(** [for x in j]: a list yields its elements, a dict its keys, a string
    its characters; nothing else is iterable. *)
Definition iter (j : json) : result (list json) :=
  match j with
  | JArr l => Ok l
  | JObj kv => Ok (map (fun p => JStr (fst p)) kv)
  | JStr s => Ok (map JStr (chars s))
  | _ => Raise TypeError
  end.

Definition len (j : json) : result Z :=
  match j with
  | JArr l => Ok (Z.of_nat (List.length l))
  | JObj kv => Ok (Z.of_nat (List.length kv))
  | JStr s => Ok (Z.of_nat (List.length (chars s)))
  | _ => Raise TypeError
  end.

(** *** Equality and ordering *)

Definition is_nan (j : json) : bool :=
  match j with
  | JFloat S754_nan => true
  | _ => false
  end.

(** [a == b].  Containers compare their elements with "identical or
    equal"; the only value unequal to itself is NaN, and [json.loads]
    returns one shared NaN object. *)
Fixpoint py_eq (a b : json) : bool :=
  match a, b with
  | JNull, JNull => true
  | JStr s, JStr t => String.eqb s t
  | JArr l, JArr m =>
      (fix go (l m : list json) : bool :=
         match l, m with
         | [], [] => true
         | x :: l', y :: m' =>
             ((is_nan x && is_nan y) || py_eq x y) && go l' m'
         | _, _ => false
         end) l m
  | JObj p, JObj q =>
      Nat.eqb (List.length p) (List.length q) &&
      (fix all (p : list (string * json)) : bool :=
         match p with
         | [] => true
         | (k, v) :: p' =>
             match dict_get q k with
             | Some w => ((is_nan v && is_nan w) || py_eq v w) && all p'
             | None => false
             end
         end) p
  | _, _ =>
      match as_num a, as_num b with
      | Some x, Some y => num_eqb x y
      | _, _ => false
      end
  end.

Definition same_or_eq (a b : json) : bool :=
  (is_nan a && is_nan b) || py_eq a b.

(** [a > b]: numbers with numbers, strings with strings (code point
    order is byte order in UTF-8), lists lexicographically; anything else
    is a [TypeError]. *)
Fixpoint py_gt (a b : json) : result bool :=
  match a, b with
  | JStr s, JStr t => Ok (String.ltb t s)
  | JArr l, JArr m =>
      (fix go (l m : list json) : result bool :=
         match l, m with
         | x :: l', y :: m' =>
             if same_or_eq x y then go l' m' else py_gt x y
         | _ :: _, [] => Ok true
         | [], _ => Ok false
         end) l m
  | _, _ =>
      match as_num a, as_num b with
      | Some x, Some y => Ok (num_gtb x y)
      | _, _ => Raise TypeError
      end
  end.

(** *** Arithmetic on values *)

Definition as_int (j : json) : option Z :=
  match j with
  | JBool b => Some (if b then 1 else 0)
  | JInt n => Some n
  | _ => None
  end.

Fixpoint repeat_string (n : nat) (s : string) : string :=
  match n with
  | O => EmptyString
  | S n' => (s ++ repeat_string n' s)%string
  end.

Fixpoint repeat_list {A} (n : nat) (l : list A) : list A :=
  match n with
  | O => []
  | S n' => l ++ repeat_list n' l
  end.

Definition arith (op : num -> num -> result num) (a b : json) : result json :=
  match as_num a, as_num b with
  | Some x, Some y => (r <-? op x y ;; Ok (json_of_num r))%res
  | _, _ => Raise TypeError
  end.

Definition py_sub : json -> json -> result json := arith num_sub.
Definition py_truediv : json -> json -> result json := arith num_truediv.

(** [a * b]: numbers multiply, a sequence is repeated by an [int]. *)
Definition py_mul (a b : json) : result json :=
  match a, b with
  | JStr s, _ =>
      match as_int b with
      | Some n => Ok (JStr (repeat_string (Z.to_nat n) s))
      | None => Raise TypeError
      end
  | _, JStr s =>
      match as_int a with
      | Some n => Ok (JStr (repeat_string (Z.to_nat n) s))
      | None => Raise TypeError
      end
  | JArr l, _ =>
      match as_int b with
      | Some n => Ok (JArr (repeat_list (Z.to_nat n) l))
      | None => Raise TypeError
      end
  | _, JArr l =>
      match as_int a with
      | Some n => Ok (JArr (repeat_list (Z.to_nat n) l))
      | None => Raise TypeError
      end
  | _, _ => arith num_mul a b
  end.

Definition py_round (a : json) : result json :=
  match as_num a with
  | Some x => (n <-? num_round x ;; Ok (JInt n))%res
  | None => Raise TypeError
  end.

(** *** Text *)

(** [str(n)] for an [int]. *)
Definition string_of_Z (n : Z) : string :=
  NilZero.string_of_int (Z.to_int n).

Fixpoint group3 (k : nat) (rev_digits : list ascii) : list ascii :=
  match rev_digits with
  | [] => []
  | d :: rest =>
      match k, rest with
      | S (S O), _ :: _ => d :: ","%char :: group3 O rest
      | _, _ => d :: group3 (S k) rest
      end
  end.

(** [format(n, ',')] for an [int]: thousands separated by commas. *)
Definition grouped_of_Z (n : Z) : string :=
  let digits := list_ascii_of_string (string_of_Z (Z.abs n)) in
  let body := string_of_list_ascii (rev (group3 O (rev digits))) in
  if n <? 0 then String "-"%char body else body.

Section Text.

(** The text Python prints for a [float], a [list] or a [dict], and a
    [float] with thousands separators: builtins of the interpreter, taken
    as given. *)
Variable py_repr : json -> string.
Variable grouped_of_float : spec_float -> string.

(** [str(x)], which is what an f-string field without a format does. *)
Definition py_str (x : json) : string :=
  match x with
  | JStr s => s
  | JNull => "None"
  | JBool true => "True"
  | JBool false => "False"
  | JInt n => string_of_Z n
  | _ => py_repr x
  end.

(** [format(x, ',')], the f-string field [{x:,}]. *)
Definition py_format_grouped (x : json) : result string :=
  match x with
  | JInt n => Ok (grouped_of_Z n)
  | JBool b => Ok (if b then "1" else "0")
  | JFloat f => Ok (grouped_of_float f)
  | JStr _ => Raise ValueError
  | _ => Raise TypeError
  end.

End Text.

(** [c in s] for a one-character [c]. *)
Fixpoint contains_char (c : ascii) (s : string) : bool :=
  match s with
  | EmptyString => false
  | String c' rest => Ascii.eqb c' c || contains_char c rest
  end.

(** [s.split(c)[0]]: the text before the first [c]. *)
Fixpoint before_char (c : ascii) (s : string) : string :=
  match s with
  | EmptyString => EmptyString
  | String c' rest =>
      if Ascii.eqb c' c then EmptyString else String c' (before_char c rest)
  end.

(** White space, as [str.strip()] removes it: the code points on which
    [str.isspace] holds, each given by the bytes of its UTF-8 encoding.
    They are U+0009 to U+000D, U+001C to U+0020, U+0085, U+00A0, U+1680,
    U+2000 to U+200A, U+2028, U+2029, U+202F, U+205F and U+3000. *)
Definition is_space (c : string) : bool :=
  match map N_of_ascii (list_ascii_of_string c) with
  | [n] => ((9 <=? n) && (n <=? 13) || (28 <=? n) && (n <=? 32))%N
  | [b; n] => ((b =? 194) && ((n =? 133) || (n =? 160)))%N
  | [a; b; n] =>
      ((a =? 225) && (b =? 154) && (n =? 128)
       || (a =? 226) && (b =? 128)
            && ((128 <=? n) && (n <=? 138)
                || (n =? 168) || (n =? 169) || (n =? 175))
       || (a =? 226) && (b =? 129) && (n =? 159)
       || (a =? 227) && (b =? 128) && (n =? 128))%N
  | _ => false
  end.

(** [s.lstrip()], on the characters of [s]. *)
Fixpoint lstrip (cs : list string) : list string :=
  match cs with
  | c :: rest => if is_space c then lstrip rest else cs
  | [] => []
  end.

Definition strip (s : string) : string :=
  String.concat "" (rev (lstrip (rev (lstrip (chars s))))).

Definition startswith (s p : string) : bool := String.prefix p s.

(** *** Base64, the standard alphabet with padding *)

Definition b64_alphabet : string :=
  "ABCDEFGHIJKLMNOPQRSTUVWXYZabcdefghijklmnopqrstuvwxyz0123456789+/".

Definition b64_char (n : N) : ascii :=
  match String.get (N.to_nat (n mod 64)%N) b64_alphabet with
  | Some c => c
  | None => "="%char
  end.

Fixpoint b64_bytes (fuel : nat) (s : string) : string :=
  match fuel with
  | O => EmptyString
  | S fuel' =>
      match s with
      | EmptyString => EmptyString
      | String a EmptyString =>
          let n := (N_of_ascii a * 65536)%N in
          String (b64_char (n / 262144)) (String (b64_char (n / 4096)) "==")
      | String a (String b EmptyString) =>
          let n := (N_of_ascii a * 65536 + N_of_ascii b * 256)%N in
          String (b64_char (n / 262144)) (String (b64_char (n / 4096))
            (String (b64_char (n / 64)) "="))
      | String a (String b (String c rest)) =>
          let n := (N_of_ascii a * 65536 + N_of_ascii b * 256
                    + N_of_ascii c)%N in
          String (b64_char (n / 262144)) (String (b64_char (n / 4096))
            (String (b64_char (n / 64)) (String (b64_char n)
              (b64_bytes fuel' rest))))
      end
  end.

(** [base64.b64encode(data).decode("utf-8")]. *)
Definition b64encode (data : string) : string :=
  b64_bytes (String.length data) data.

End Py.

(** ** The remote service and the monad of facade computations *)

Module Http.
Import Py.

Inductive method : Type := GET | POST | PUT | DELETE.

(** What [client.get] / [client.post] is called with. *)
Record request : Type := mkRequest {
  req_method : method;
  req_url : string;
  req_params : list (string * json);
  req_headers : list (string * string);
  req_json : option json
}.

(** What the facade reads of a response: [res.status_code],
    [res.headers.get("content-type")], [res.content] and [res.json()]
    ([None] when the body is not JSON). *)
Record response : Type := mkResponse {
  status_code : Z;
  content_type : option string;
  content : string;
  parsed : option json
}.

Definition mutating (r : request) : bool :=
  match req_method r with
  | GET => false
  | _ => true
  end.

Section Monad.

(** The remote service: an abstract state [W] and the effect of one
    request on it; [None] is a transport failure. *)
Context {W : Type}.
Variable handle : request -> W -> option response * W.

(** The remote state, the requests issued so far (oldest first) and the
    module's global [_auth_token]. *)
Record state : Type := mkState {
  remote : W;
  issued : list request;
  _auth_token : json
}.

Definition M (A : Type) : Type := state -> result A * state.

Definition ret {A} (a : A) : M A := fun s => (Ok a, s).

Definition raise {A} (e : exn) : M A := fun s => (Raise e, s).

Definition bind {A B} (c : M A) (k : A -> M B) : M B :=
  fun s =>
    match c s with
    | (Ok a, s') => k a s'
    | (Raise e, s') => (Raise e, s')
    end.

(** A pure step that may raise. *)
Definition lift {A} (r : result A) : M A := fun s => (r, s).

(** [try: body except Exception: handler]. *)
Definition try_except {A} (body : M A) (handler : exn -> M A) : M A :=
  fun s =>
    match body s with
    | (Ok a, s') => (Ok a, s')
    | (Raise e, s') => handler e s'
    end.

Definition read_token : M json := fun s => (Ok (_auth_token s), s).

(** One HTTP exchange: the request is recorded, the service moves. *)
Definition send (r : request) : M response :=
  fun s =>
    let (reply, w') := handle r (remote s) in
    let s' := mkState w' (issued s ++ [r]) (_auth_token s) in
    match reply with
    | Some res => (Ok res, s')
    | None => (Raise HTTPError, s')
    end.

(** [res.json()]. *)
Definition json_of (res : response) : result json :=
  match parsed res with
  | Some j => Ok j
  | None => Raise JSONDecodeError
  end.

End Monad.

Arguments state W : clear implicits.
Arguments M W A : clear implicits.

Declare Scope http_scope.
Delimit Scope http_scope with http.
Notation "x <- c ;; k" := (bind c (fun x => k))
  (at level 61, c at next level, right associativity) : http_scope.
Notation "x <~ r ;; k" := (bind (lift r) (fun x => k))
  (at level 61, r at next level, right associativity) : http_scope.

End Http.

(** ** The facade *)

Module Facade.
Import Py Http.
Local Open Scope http_scope.

Definition BASE_URL : string := "http://localhost:5000/api".

(** The non-ASCII prefixes of the message literals, as the bytes of the
    source file. *)
Definition glyph (codes : list nat) : string :=
  string_of_list_ascii (map ascii_of_nat codes).

Definition sym_cart : string :=
  glyph [195; 176; 197; 184; 226; 128; 186; 226; 128; 153]%nat.
Definition sym_rupee : string :=
  glyph [195; 162; 226; 128; 154; 194; 185]%nat.
Definition sym_warning : string :=
  glyph [195; 162; 197; 161; 194; 160; 195; 175; 194; 184]%nat.
Definition sym_check : string :=
  glyph [195; 162; 197; 147; 226; 128; 166]%nat.
Definition sym_money : string :=
  glyph [195; 176; 197; 184; 226; 128; 153; 194; 176]%nat.
Definition sym_star : string :=
  glyph [195; 162; 194; 173]%nat.
Definition sym_truck : string :=
  glyph [195; 176; 197; 184; 197; 161; 197; 161]%nat.
Definition nl : string := glyph [10%nat].

(** [mcp.types.ImageContent]. *)
Record ImageContent : Type := mkImageContent {
  type : string;
  data : string;
  mimeType : string
}.

(** An element of a mixed return value, and what a tool returns: a
    dict, or a list of images followed by a dict. *)
Inductive content_item : Type :=
| CImage (i : ImageContent)
| CJson (j : json).

Inductive tool_result : Type :=
| RDict (j : json)
| RList (l : list content_item).

Section Tools.

Context {W : Type}.
Variable handle : request -> W -> option response * W.
Variable py_repr : json -> string.
Variable grouped_of_float : spec_float -> string.

Local Abbreviation M := (Http.M W).
Local Abbreviation send := (Http.send handle).
Local Abbreviation str := (py_str py_repr).

Definition _get_headers : M (list (string * string)) :=
  tok <- read_token ;;
  let headers := [("Content-Type", "application/json")] in
  ret (if truthy tok
       then headers ++ [("Authorization", ("Bearer " ++ str tok)%string)]
       else headers).

(** A bare GET, as [client.get(url)]. *)
Definition get_request (url : string) : request :=
  mkRequest GET url [] [] None.

Definition _fetch_image_as_content (image_url : json)
  : M (option ImageContent) :=
  if negb (truthy image_url) then ret None
  else
    try_except
      (url <~ match image_url with
              | JStr u => Ok u
              | _ => Raise TypeError      (* httpx rejects a non-string URL *)
              end ;;
       res <- send (get_request url) ;;
       if negb (status_code res =? 200) then ret None
       else
         let content_type :=
           match content_type res with
           | Some c => c
           | None => "image/jpeg"
           end in
         let content_type :=
           if contains_char ";" content_type
           then strip (before_char ";" content_type)
           else content_type in
         let content_type :=
           if negb (startswith content_type "image/") then "image/jpeg"
           else content_type in
         if Z.of_nat (String.length (content res)) >? 1048576 then ret None
         else
           let b64 := b64encode (content res) in
           ret (Some (mkImageContent "image" b64 content_type)))
      (fun _ => ret None).

(** The discount computation of [search_products] and of the deriver:
    [p.get('mrp', 0) > p.get('price', 0)] guards
    [round(((p['mrp'] - p['price']) / p['mrp']) * 100)]. *)
Definition discount_with_defaults (p : json) : result json :=
  (m0 <-? get_default p "mrp" (JInt 0) ;;
   p0 <-? get_default p "price" (JInt 0) ;;
   gt <-? py_gt m0 p0 ;;
   if (gt : bool) then
     m1 <-? index p "mrp" ;;
     p1 <-? index p "price" ;;
     d <-? py_sub m1 p1 ;;
     m2 <-? index p "mrp" ;;
     q <-? py_truediv d m2 ;;
     c <-? py_mul q (JInt 100) ;;
     py_round c
   else Ok (JInt 0))%res.

(** The discount computation of [add_to_cart]:
    [product['mrp'] > product['price']] guards the same expression. *)
Definition discount_indexed (product : json) : result json :=
  (m0 <-? index product "mrp" ;;
   p0 <-? index product "price" ;;
   gt <-? py_gt m0 p0 ;;
   if (gt : bool) then
     m1 <-? index product "mrp" ;;
     p1 <-? index product "price" ;;
     d <-? py_sub m1 p1 ;;
     m2 <-? index product "mrp" ;;
     q <-? py_truediv d m2 ;;
     c <-? py_mul q (JInt 100) ;;
     py_round c
   else Ok (JInt 0))%res.

(** *** The recommendation deriver *)

(** One value of [co_purchased]: the count and the first-seen snapshot. *)
Record entry : Type := mkEntry {
  count : Z;
  name : json;
  price : json;
  image : json;
  unit : json
}.

(** [co_purchased]: a dict keyed by product identifier, in insertion
    order. *)
Definition co_table : Type := list (json * entry).

(** Lists and dicts cannot be dict keys. *)
Definition hashable (j : json) : bool :=
  match j with
  | JArr _ | JObj _ => false
  | _ => true
  end.

(** [k in co]: keys match when identical or equal. *)
Definition co_mem (co : co_table) (k : json) : bool :=
  existsb (fun p => same_or_eq (fst p) k) co.

(** [co[k]["count"] += 1]. *)
Fixpoint co_incr (co : co_table) (k : json) : co_table :=
  match co with
  | [] => []
  | (k', e) :: rest =>
      if same_or_eq k' k
      then (k', mkEntry (count e + 1) (name e) (price e) (image e) (unit e))
           :: rest
      else (k', e) :: co_incr rest k
  end.

(** [item.get(k) or item.get("product", {}).get(k')]. *)
Definition item_field (item : json) (k k' : string) : result json :=
  (a <-? get item k ;;
   if truthy a then Ok a
   else p <-? get_default item "product" (JObj []) ;; get p k')%res.

(** The generator inside [any(...)]: stops at the first match. *)
Fixpoint order_has_product (added_product_id : string) (items : list json)
  : result bool :=
  match items with
  | [] => Ok false
  | item :: rest =>
      (a <-? get item "productId" ;;
       if py_eq a (JStr added_product_id) then Ok true
       else
         p <-? get_default item "product" (JObj []) ;;
         b <-? get p "_id" ;;
         if py_eq b (JStr added_product_id) then Ok true
         else order_has_product added_product_id rest)%res
  end.

(** The inner loop: record all other products of a retained order. *)
Fixpoint record_items (added_product_id : string) (items : list json)
  (co_purchased : co_table) : result co_table :=
  match items with
  | [] => Ok co_purchased
  | item :: rest =>
      (item_product_id <-? item_field item "productId" "_id" ;;
       if py_eq item_product_id (JStr added_product_id)
       then record_items added_product_id rest co_purchased
       else if negb (hashable item_product_id) then Raise TypeError
       else
         co1 <-? (if co_mem co_purchased item_product_id
                  then Ok co_purchased
                  else
                    n <-? item_field item "name" "name" ;;
                    p <-? item_field item "price" "price" ;;
                    i <-? item_field item "image" "image" ;;
                    u <-? item_field item "unit" "unit" ;;
                    Ok (co_purchased
                          ++ [(item_product_id, mkEntry 0 n p i u)])) ;;
         record_items added_product_id rest (co_incr co1 item_product_id))%res
  end.

(** The outer loop over the retrieved orders. *)
Fixpoint scan_orders (added_product_id : string) (orders : list json)
  (co_purchased : co_table) : result co_table :=
  match orders with
  | [] => Ok co_purchased
  | order :: rest =>
      (items <-? get_default order "items" (JArr []) ;;
       its <-? iter items ;;
       has <-? order_has_product added_product_id its ;;
       if (has : bool) then
         co' <-? record_items added_product_id its co_purchased ;;
         scan_orders added_product_id rest co'
       else scan_orders added_product_id rest co_purchased)%res
  end.

(** [sorted(co_purchased.items(), key=count, reverse=True)]: a stable
    sort, entries of equal count keep their order. *)
Fixpoint insert_desc (x : json * entry) (l : co_table) : co_table :=
  match l with
  | [] => [x]
  | y :: l' =>
      if count (snd x) <? count (snd y) then y :: insert_desc x l'
      else x :: l
  end.

Definition sorted_products (co_purchased : co_table) : co_table :=
  fold_right insert_desc [] co_purchased.

Definition is_empty {A} (l : list A) : bool :=
  match l with
  | [] => true
  | _ => false
  end.

Definition teaser (added_product_name : json) : string :=
  (sym_cart ++ " Customers who bought **" ++ str added_product_name
   ++ "** also frequently bought:")%string.

Definition add_prompt (product_name product_price : json) : string :=
  ("Would you like to add **" ++ str product_name ++ "** (" ++ sym_rupee
   ++ str product_price ++ ") to your cart as well?")%string.

(** The history request of the deriver. *)
Definition orders_request (headers : list (string * string)) : request :=
  mkRequest GET (BASE_URL ++ "/orders")%string
    [("page", JInt 1); ("limit", JInt 50)] headers None.

(** First part of the deriver's [try]: the order history, [None] for
    the early [return None] (no success, or no orders). *)
Definition fetch_orders : M (option (list json)) :=
  headers <- _get_headers ;;
  res <- send (orders_request headers) ;;
  data <~ json_of res ;;
  success <~ get data "success" ;;
  if negb (truthy success) then ret None
  else
    d <~ index data "data" ;;
    orders <~ get_default d "orders" (JArr []) ;;
    if negb (truthy orders) then ret None
    else os <~ iter orders ;; ret (Some os).

(** The request that refreshes the selected product. *)
Definition refresh_request (top_product_id : json) : request :=
  get_request (BASE_URL ++ "/products/" ++ str top_product_id)%string.

(** The recommendation built from the refreshed product. *)
Definition fresh_recommendation (added_product_name top_product_id : json)
  (top_product_data : entry) (product : json) : result json :=
  (discount <-? discount_with_defaults product ;;
   p_name <-? get product "name" ;;
   p_price <-? get product "price" ;;
   p_mrp <-? get product "mrp" ;;
   p_unit <-? get product "unit" ;;
   p_image <-? get product "image" ;;
   stock <-? get_default product "stock" (JInt 0) ;;
   in_stock <-? py_gt stock (JInt 0) ;;
   eta <-? get_default product "estimatedDeliveryMins" (JInt 15) ;;
   Ok (JObj
     [("type", JStr "frequently_bought_together");
      ("message", JStr (teaser added_product_name));
      ("product", JObj
         [("id", top_product_id);
          ("name", p_name);
          ("price", p_price);
          ("mrp", p_mrp);
          ("discount_percent", discount);
          ("unit", p_unit);
          ("image", p_image);
          ("in_stock", JBool in_stock);
          ("estimated_delivery_mins", eta)]);
      ("times_bought_together", JInt (count top_product_data));
      ("prompt", JStr (add_prompt p_name p_price))]))%res.

(** The recommendation built from the cached snapshot. *)
Definition cached_recommendation (added_product_name top_product_id : json)
  (top_product_data : entry) : json :=
  JObj
    [("type", JStr "frequently_bought_together");
     ("message", JStr (teaser added_product_name));
     ("product", JObj
        [("id", top_product_id);
         ("name", name top_product_data);
         ("price", price top_product_data);
         ("unit", unit top_product_data);
         ("image", image top_product_data)]);
     ("times_bought_together", JInt (count top_product_data));
     ("prompt", JStr (add_prompt (name top_product_data)
                                 (price top_product_data)))].

(** Last part of the deriver's [try]: selection of the top entry, the
    refresh and the returned dict. *)
Definition recommend_top (added_product_name : json) (co_purchased : co_table)
  : M (option json) :=
  match sorted_products co_purchased with
  | [] => raise IndexError
  | (top_product_id, top_product_data) :: _ =>
      product_res <- send (refresh_request top_product_id) ;;
      product_data <~ json_of product_res ;;
      ok <~ get product_data "success" ;;
      if truthy ok then
        pd <~ index product_data "data" ;;
        product <~ index pd "product" ;;
        r <~ fresh_recommendation added_product_name top_product_id
               top_product_data product ;;
        ret (Some r)
      else
        ret (Some (cached_recommendation added_product_name top_product_id
                     top_product_data))
  end.

(** The body of the deriver's [try]. *)
Definition recommendation_body (added_product_id : string)
  (added_product_name : json) : M (option json) :=
  history <- fetch_orders ;;
  match history with
  | None => ret None
  | Some os =>
      co_purchased <~ scan_orders added_product_id os [] ;;
      if is_empty co_purchased then ret None
      else recommend_top added_product_name co_purchased
  end.

(** [except Exception: return None] around the whole body. *)
Definition _get_recommendation_from_history (added_product_id : string)
  (added_product_name : json) : M (option json) :=
  try_except (recommendation_body added_product_id added_product_name)
             (fun _ => ret None).

(** *** Product discovery *)

(** [a.get(k) or a.get(k')]. *)
Definition get_or (a : json) (k k' : string) : result json :=
  (x <-? get a k ;; if truthy x then Ok x else get a k')%res.

(** [products[:3]]: lists and strings can be sliced. *)
Definition slice3 (products : json) : result json :=
  match products with
  | JArr l => Ok (JArr (firstn 3 l))
  | JStr s => Ok (JStr (String.concat "" (firstn 3 (chars s))))
  | _ => Raise TypeError
  end.

(** One element of [formatted_products]. *)
Definition format_product (p : json) : result json :=
  (discount <-? discount_with_defaults p ;;
   id <-? get_or p "_id" "id" ;;
   p_name <-? get p "name" ;;
   p_price <-? get p "price" ;;
   p_mrp <-? get p "mrp" ;;
   p_unit <-? get p "unit" ;;
   rating <-? get p "rating" ;;
   review_count <-? get_default p "reviewCount" (JInt 0) ;;
   eta <-? get_default p "estimatedDeliveryMins" (JInt 15) ;;
   stock <-? get_default p "stock" (JInt 0) ;;
   in_stock <-? py_gt stock (JInt 0) ;;
   dietary <-? get_default p "dietaryPreference" (JStr "veg") ;;
   brand <-? get_default p "brand" (JStr "") ;;
   image_url <-? get p "image" ;;
   Ok (JObj
     [("id", id);
      ("name", p_name);
      ("price", p_price);
      ("mrp", p_mrp);
      ("discount_percent", discount);
      ("unit", p_unit);
      ("rating", rating);
      ("review_count", review_count);
      ("estimated_delivery_mins", eta);
      ("in_stock", JBool in_stock);
      ("dietary", dietary);
      ("brand", brand);
      ("image_url", image_url)]))%res.

Fixpoint format_products (products : list json) : result (list json) :=
  match products with
  | [] => Ok []
  | p :: rest =>
      (x <-? format_product p ;;
       xs <-? format_products rest ;;
       Ok (x :: xs))%res
  end.

(** The image loop: one fetch per product, failures skipped. *)
Fixpoint fetch_images (products : list json) : M (list ImageContent) :=
  match products with
  | [] => ret []
  | product :: rest =>
      url <~ get product "image" ;;
      image_content <- _fetch_image_as_content url ;;
      images <- fetch_images rest ;;
      ret (match image_content with
           | Some i => i :: images
           | None => images
           end)
  end.

(** [images + [data]] when there is an image, [data] otherwise. *)
Definition with_images (images : list ImageContent) (data : json)
  : tool_result :=
  if is_empty images then RDict data
  else RList (map CImage images ++ [CJson data]).

Definition search_products (query : string) (page limit : Z)
  (show_images : bool) : M tool_result :=
  let params := [("q", JStr query); ("page", JInt page);
                 ("limit", JInt limit)] in
  res <- send (mkRequest GET (BASE_URL ++ "/products/search")%string
                 params [] None) ;;
  data <~ json_of res ;;
  ok <~ get data "success" ;;
  if truthy ok then
    d <~ index data "data" ;;
    products <~ get_default d "products" (JArr []) ;;
    ps <~ iter products ;;
    formatted_products <~ format_products ps ;;
    d' <~ set_item d "formatted_products" (JArr formatted_products) ;;
    data <~ set_item data "data" d' ;;
    if show_images then
      top_products <~ slice3 products ;;
      tops <~ iter top_products ;;
      images <- fetch_images tops ;;
      ret (with_images images data)
    else ret (RDict data)
  else ret (RDict data).

(** The block shared, word for word, by [get_products_by_category],
    [filter_products] and [get_featured_products]:
    [if show_images and data.get("success"): ...; return data]. *)
Definition attach_images (show_images : bool) (data : json) : M tool_result :=
  if show_images then
    ok <~ get data "success" ;;
    if truthy ok then
      d <~ index data "data" ;;
      all_products <~ get_default d "products" (JArr []) ;;
      products <~ slice3 all_products ;;
      ps <~ iter products ;;
      images <- fetch_images ps ;;
      ret (with_images images data)
    else ret (RDict data)
  else ret (RDict data).

Definition get_products_by_category (category_id : string) (page limit : Z)
  (show_images : bool) : M tool_result :=
  let params := [("page", JInt page); ("limit", JInt limit)] in
  res <- send (mkRequest GET
                 (BASE_URL ++ "/products/category/" ++ category_id)%string
                 params [] None) ;;
  data <~ json_of res ;;
  attach_images show_images data.

(** [params[k] = v] when the optional argument is given. *)
Definition with_param {A} (k : string) (f : A -> json) (given : A -> bool)
  (arg : option A) (params : list (string * json)) : list (string * json) :=
  match arg with
  | Some a => if given a then dict_set params k (f a) else params
  | None => params
  end.

Definition nonempty (s : string) : bool := negb (String.eqb s "").

Definition filter_products (category : option string)
  (min_price max_price : option spec_float) (dietary brand : option string)
  (in_stock : bool) (sort_by : string) (page limit : Z) (show_images : bool)
  : M tool_result :=
  let params := [("page", JInt page); ("limit", JInt limit);
                 ("sortBy", JStr sort_by)] in
  let params := with_param "category" JStr nonempty category params in
  let params := with_param "minPrice" JFloat (fun _ => true) min_price params in
  let params := with_param "maxPrice" JFloat (fun _ => true) max_price params in
  let params := with_param "dietary" JStr nonempty dietary params in
  let params := with_param "brand" JStr nonempty brand params in
  let params := if in_stock then dict_set params "inStock" (JStr "true")
                else params in
  res <- send (mkRequest GET (BASE_URL ++ "/products/filter")%string
                 params [] None) ;;
  data <~ json_of res ;;
  attach_images show_images data.

Definition get_featured_products (limit : Z) (show_images : bool)
  : M tool_result :=
  let params := [("limit", JInt limit)] in
  res <- send (mkRequest GET (BASE_URL ++ "/products/featured")%string
                 params [] None) ;;
  data <~ json_of res ;;
  attach_images show_images data.

(** *** The cart view *)

Definition is_none (j : json) : bool :=
  match j with
  | JNull => true
  | _ => false
  end.

(** The loop that selects the default address: the first address whose
    [isDefault] is true, reshaped; [None] when there is none. *)
Fixpoint find_default (addresses : list json) : result json :=
  match addresses with
  | [] => Ok JNull
  | addr :: rest =>
      (flag <-? get addr "isDefault" ;;
       if truthy flag then
         id <-? get_or addr "_id" "id" ;;
         a_name <-? get addr "name" ;;
         phone <-? get addr "phone" ;;
         line1 <-? get addr "addressLine1" ;;
         line2 <-? get addr "addressLine2" ;;
         landmark <-? get addr "landmark" ;;
         city <-? get addr "city" ;;
         a_state <-? get addr "state" ;;
         pincode <-? get addr "pincode" ;;
         a_type <-? get addr "type" ;;
         serviceable <-? get_default addr "isServiceable" (JBool true) ;;
         Ok (JObj
           [("id", id);
            ("name", a_name);
            ("phone", phone);
            ("address_line1", line1);
            ("address_line2", line2);
            ("landmark", landmark);
            ("city", city);
            ("state", a_state);
            ("pincode", pincode);
            ("type", a_type);
            ("is_serviceable", serviceable)])
       else find_default rest)%res
  end.

Fixpoint format_items (cart_items : list json) : result (list json) :=
  match cart_items with
  | [] => Ok []
  | item :: rest =>
      (product_id <-? get item "productId" ;;
       i_name <-? get item "name" ;;
       quantity <-? get item "quantity" ;;
       price_per_unit <-? get item "price" ;;
       p0 <-? get_default item "price" (JInt 0) ;;
       q1 <-? get_default item "quantity" (JInt 1) ;;
       total_price <-? py_mul p0 q1 ;;
       i_unit <-? get item "unit" ;;
       i_image <-? get item "image" ;;
       xs <-? format_items rest ;;
       Ok (JObj
             [("product_id", product_id);
              ("name", i_name);
              ("quantity", quantity);
              ("price_per_unit", price_per_unit);
              ("total_price", total_price);
              ("unit", i_unit);
              ("image", i_image)] :: xs))%res
  end.

(** The literal status messages. *)
Definition msg_no_address : string :=
  (sym_warning ++ " No delivery address set."
   ++ " Please add an address before checkout.")%string.
Definition msg_unserviceable : string :=
  (sym_warning ++ " Delivery not available at selected address.")%string.
Definition msg_empty_cart : string :=
  (sym_cart ++ " Your cart is empty.")%string.

(** The four-way status message. *)
Definition cart_message (default_address : json) (item_count : Z)
  (max_delivery_mins : Z) : result string :=
  if negb (truthy default_address) then Ok msg_no_address
  else
    (serviceable <-? get default_address "is_serviceable" ;;
     if negb (truthy serviceable) then Ok msg_unserviceable
     else if item_count =? 0 then Ok msg_empty_cart
     else
       city <-? index default_address "city" ;;
       Ok (sym_check ++ " Ready for checkout! Delivery to " ++ str city
           ++ " in ~" ++ string_of_Z max_delivery_mins ++ " mins.")%string)%res.

Definition view_cart : M json :=
  headers <- _get_headers ;;
  cart_res <-
    send (mkRequest GET (BASE_URL ++ "/cart")%string [] headers None) ;;
  cart_data <~ json_of cart_res ;;
  ok <~ get cart_data "success" ;;
  if negb (truthy ok) then ret cart_data
  else
    headers <- _get_headers ;;
    address_res <-
      send (mkRequest GET (BASE_URL ++ "/addresses")%string [] headers None) ;;
    address_data <~ json_of address_res ;;
    a_ok <~ get address_data "success" ;;
    default_address <~
      (if truthy a_ok then
         (ad <-? index address_data "data" ;;
          addresses <-? get_default ad "addresses" (JArr []) ;;
          addrs <-? iter addresses ;;
          find_default addrs)%res
       else Ok JNull) ;;
    cd <~ index cart_data "data" ;;
    cart <~ index cd "cart" ;;
    cart_items <~ get_default cart "items" (JArr []) ;;
    let max_delivery_mins := 15 in
    its <~ iter cart_items ;;
    formatted_items <~ format_items its ;;
    item_count <~ len cart_items ;;
    total_items <~ get_default cart "totalItems" (JInt item_count) ;;
    bill <~ get_default cd "bill" (JObj []) ;;
    bill' <~ index cd "bill" ;;
    threshold <~ get_default bill' "freeDeliveryThreshold" (JInt 199) ;;
    to_free <~ get_default bill' "amountToFreeDelivery" (JInt 0) ;;
    message <~ cart_message default_address item_count max_delivery_mins ;;
    ret (JObj
      [("success", JBool true);
       ("data", JObj
          [("cart", JObj
              [("items", JArr formatted_items);
               ("total_items", total_items);
               ("item_count", JInt item_count)]);
           ("bill", bill);
           ("delivery", JObj
              [("estimated_mins", JInt max_delivery_mins);
               ("estimated_time",
                JStr ("~" ++ string_of_Z max_delivery_mins
                      ++ " minutes")%string);
               ("free_delivery_threshold", threshold);
               ("amount_to_free_delivery", to_free)]);
           ("selected_address", default_address);
           ("has_address", JBool (negb (is_none default_address)));
           ("ready_for_checkout",
            JBool (negb (is_none default_address) && (item_count >? 0)));
           ("message", JStr message)])]).

(** *** Adding to the cart *)

(** The proposal text of an unconfirmed call. *)
Definition proposal_message (product discount : json) (quantity : Z)
  : result string :=
  (p_name <-? index product "name" ;;
   p_unit <-? index product "unit" ;;
   p_price <-? index product "price" ;;
   p_mrp <-? index product "mrp" ;;
   rating <-? index product "rating" ;;
   reviews <-? get_default product "reviewCount" (JInt 0) ;;
   reviews_text <-? py_format_grouped grouped_of_float reviews ;;
   eta <-? get_default product "estimatedDeliveryMins" (JInt 15) ;;
   Ok ("**" ++ str p_name ++ "** (" ++ str p_unit ++ ")" ++ nl ++ nl
       ++ sym_money ++ " Price: " ++ sym_rupee ++ str p_price
       ++ " (MRP: " ++ sym_rupee ++ str p_mrp ++ ", " ++ str discount
       ++ "% off)" ++ nl
       ++ sym_star ++ " Rating: " ++ str rating ++ "/5 (" ++ reviews_text
       ++ " reviews)" ++ nl
       ++ sym_truck ++ " Delivery: ~" ++ str eta ++ " minutes" ++ nl ++ nl
       ++ "Shall I add " ++ string_of_Z quantity
       ++ " item(s) to your cart? (Say 'Yes' to confirm)")%string)%res.

Definition proposal (product_id : string) (message : string) (product : json)
  : json :=
  JObj [("awaiting_confirmation", JBool true);
        ("message", JStr message);
        ("product_id", JStr product_id);
        ("product", product)].

(** The branch [if not confirmed]. *)
Definition add_to_cart_proposed (product_id : string) (quantity : Z)
  : M tool_result :=
  res <- send (get_request (BASE_URL ++ "/products/" ++ product_id)%string) ;;
  data <~ json_of res ;;
  ok <~ get data "success" ;;
  if truthy ok then
    d <~ index data "data" ;;
    product <~ index d "product" ;;
    discount <~ discount_indexed product ;;
    url <~ get product "image" ;;
    image_content <- _fetch_image_as_content url ;;
    message <~ proposal_message product discount quantity ;;
    match image_content with
    | Some i =>
        ret (RList [CImage i; CJson (proposal product_id message product)])
    | None => ret (RDict (proposal product_id message product))
    end
  else ret (RDict data).

(** The first [try] of a confirmed call: the product name, [None] when
    the lookup answers without success, ["this item"] when it raises. *)
Definition lookup_product_name (product_id : string) : M json :=
  try_except
    (product_res <-
       send (get_request (BASE_URL ++ "/products/" ++ product_id)%string) ;;
     product_data <~ json_of product_res ;;
     ok <~ get product_data "success" ;;
     if truthy ok then
       d <~ index product_data "data" ;;
       product <~ index d "product" ;;
       n <~ get_default product "name" (JStr "this item") ;;
       ret n
     else ret JNull)
    (fun _ => ret (JStr "this item")).

Definition add_item_request (product_id : string) (quantity : Z)
  (headers : list (string * string)) : request :=
  mkRequest POST (BASE_URL ++ "/cart/items")%string [] headers
    (Some (JObj [("productId", JStr product_id);
                 ("quantity", JInt quantity)])).

(** The branch taken when [confirmed] is set. *)
Definition add_to_cart_confirmed (product_id : string) (quantity : Z)
  : M tool_result :=
  product_name <- lookup_product_name product_id ;;
  headers <- _get_headers ;;
  res <- send (add_item_request product_id quantity headers) ;;
  result <~ json_of res ;;
  ok <~ get result "success" ;;
  if truthy ok && truthy product_name then
    recommendation <-
      _get_recommendation_from_history product_id product_name ;;
    match recommendation with
    | Some r =>
        result <~ set_item result "recommendation" r ;;
        result <~ set_item result "has_recommendation" (JBool true) ;;
        ret (RDict result)
    | None =>
        result <~ set_item result "has_recommendation" (JBool false) ;;
        ret (RDict result)
    end
  else ret (RDict result).

Definition add_to_cart (product_id : string) (quantity : Z) (confirmed : bool)
  : M tool_result :=
  if negb confirmed then add_to_cart_proposed product_id quantity
  else add_to_cart_confirmed product_id quantity.

End Tools.

(** *** Session, pass-through tools and the health check *)

(** What [show_product_image] returns: an image or a dict. *)
Inductive image_or_dict : Type :=
| IImage (i : ImageContent)
| IDict (j : json).

(** The [payload] of [create_address]: the eight fixed keys, then the
    optional ones that are given and not empty. *)
Definition create_address_payload (a_name phone address_line1 city a_state
  pincode address_type : string) (address_line2 landmark : option string)
  (is_default : bool) : list (string * json) :=
  let payload := [("type", JStr address_type);
                  ("name", JStr a_name);
                  ("phone", JStr phone);
                  ("addressLine1", JStr address_line1);
                  ("city", JStr city);
                  ("state", JStr a_state);
                  ("pincode", JStr pincode);
                  ("isDefault", JBool is_default)] in
  let payload := with_param "addressLine2" JStr nonempty address_line2
                   payload in
  with_param "landmark" JStr nonempty landmark payload.

(** The [payload] of [cancel_order]. *)
Definition cancel_order_payload (reason : option string)
  : list (string * json) :=
  with_param "reason" JStr nonempty reason [].

(** The dict [check_api_health] returns when it cannot connect. *)
Definition unavailable : json :=
  JObj [("success", JBool false);
        ("message", JStr "Cannot connect to Flipkart Minutes API server")].

Section Session.

Context {W : Type}.
Variable handle : request -> W -> option response * W.
Variable py_repr : json -> string.

(** Which transport failures are [httpx.ConnectError]: the others (time
    out, broken connection) are different exceptions. *)
Variable connect_error : request -> W -> bool.

Local Abbreviation M := (Http.M W).
Local Abbreviation send := (Http.send handle).
Local Abbreviation headers := (_get_headers (W:=W) py_repr).

(** [global _auth_token; _auth_token = tok]. *)
Definition write_token (tok : json) : M Datatypes.unit :=
  fun s => (Ok tt, mkState (remote s) (issued s) tok).

Definition login (email password : string) : M json :=
  res <- send (mkRequest POST (BASE_URL ++ "/auth/login")%string [] []
                 (Some (JObj [("email", JStr email);
                              ("password", JStr password)]))) ;;
  data <~ json_of res ;;
  ok <~ get data "success" ;;
  if truthy ok then
    d <~ get_default data "data" (JObj []) ;;
    tok <~ get d "token" ;;
    if truthy tok then
      d' <~ index data "data" ;;
      tok' <~ index d' "token" ;;
      _ <- write_token tok' ;;
      ret data
    else ret data
  else ret data.

Definition register (email password r_name phone : string) : M json :=
  res <- send (mkRequest POST (BASE_URL ++ "/auth/register")%string [] []
                 (Some (JObj [("email", JStr email);
                              ("password", JStr password);
                              ("name", JStr r_name);
                              ("phone", JStr phone)]))) ;;
  data <~ json_of res ;;
  ok <~ get data "success" ;;
  if truthy ok then
    d <~ get_default data "data" (JObj []) ;;
    tok <~ get d "token" ;;
    if truthy tok then
      d' <~ index data "data" ;;
      tok' <~ index d' "token" ;;
      _ <- write_token tok' ;;
      ret data
    else ret data
  else ret data.

Definition get_current_user : M json :=
  h <- headers ;;
  res <- send (mkRequest GET (BASE_URL ++ "/auth/me")%string [] h None) ;;
  lift (json_of res).

Definition get_categories : M json :=
  res <- send (get_request (BASE_URL ++ "/products/categories")%string) ;;
  lift (json_of res).

Definition get_product_details (product_id : string) (show_image : bool)
  : M tool_result :=
  res <- send (get_request (BASE_URL ++ "/products/" ++ product_id)%string) ;;
  data <~ json_of res ;;
  if show_image then
    ok <~ get data "success" ;;
    if truthy ok then
      d <~ index data "data" ;;
      product <~ index d "product" ;;
      url <~ get product "image" ;;
      image_content <- _fetch_image_as_content handle url ;;
      match image_content with
      | Some i => ret (RList [CImage i; CJson data])
      | None => ret (RDict data)
      end
    else ret (RDict data)
  else ret (RDict data).

Definition show_product_image (product_id : string) : M image_or_dict :=
  res <- send (get_request (BASE_URL ++ "/products/" ++ product_id)%string) ;;
  data <~ json_of res ;;
  ok <~ get data "success" ;;
  if truthy ok then
    d <~ index data "data" ;;
    product <~ index d "product" ;;
    url <~ get product "image" ;;
    image_content <- _fetch_image_as_content handle url ;;
    match image_content with
    | Some i => ret (IImage i)
    | None =>
        url' <~ get product "image" ;;
        ret (IDict (JObj [("error", JStr "Could not load product image");
                          ("image_url", url')]))
    end
  else ret (IDict (JObj [("error", JStr "Product not found")])).

Definition get_alternative_products (product_id : string) : M json :=
  res <- send (get_request
                 (BASE_URL ++ "/products/" ++ product_id
                  ++ "/alternatives")%string) ;;
  lift (json_of res).

Definition update_cart_item (product_id : string) (quantity : Z) : M json :=
  h <- headers ;;
  res <- send (mkRequest PUT (BASE_URL ++ "/cart/items/" ++ product_id)%string
                 [] h (Some (JObj [("quantity", JInt quantity)]))) ;;
  lift (json_of res).

Definition remove_from_cart (product_id : string) : M json :=
  h <- headers ;;
  res <- send (mkRequest DELETE
                 (BASE_URL ++ "/cart/items/" ++ product_id)%string
                 [] h None) ;;
  lift (json_of res).

Definition clear_cart : M json :=
  h <- headers ;;
  res <- send (mkRequest DELETE (BASE_URL ++ "/cart")%string [] h None) ;;
  lift (json_of res).

Definition get_addresses : M json :=
  h <- headers ;;
  res <- send (mkRequest GET (BASE_URL ++ "/addresses")%string [] h None) ;;
  lift (json_of res).

Definition create_address (a_name phone address_line1 city a_state pincode
  address_type : string) (address_line2 landmark : option string)
  (is_default : bool) : M json :=
  let payload := create_address_payload a_name phone address_line1 city
                   a_state pincode address_type address_line2 landmark
                   is_default in
  h <- headers ;;
  res <- send (mkRequest POST (BASE_URL ++ "/addresses")%string [] h
                 (Some (JObj payload))) ;;
  lift (json_of res).

Definition set_default_address (address_id : string) : M json :=
  h <- headers ;;
  res <- send (mkRequest PUT
                 (BASE_URL ++ "/addresses/" ++ address_id
                  ++ "/default")%string [] h None) ;;
  lift (json_of res).

Definition proceed_to_checkout (address_id : string) : M json :=
  h <- headers ;;
  res <- send (mkRequest POST (BASE_URL ++ "/checkout")%string [] h
                 (Some (JObj [("addressId", JStr address_id)]))) ;;
  lift (json_of res).

Definition set_payment_mode (order_id payment_mode : string) : M json :=
  h <- headers ;;
  res <- send (mkRequest PUT
                 (BASE_URL ++ "/orders/" ++ order_id
                  ++ "/payment-mode")%string [] h
                 (Some (JObj [("paymentMode", JStr payment_mode)]))) ;;
  lift (json_of res).

Definition process_payment (order_id : string) : M json :=
  h <- headers ;;
  res <- send (mkRequest POST
                 (BASE_URL ++ "/orders/" ++ order_id ++ "/pay")%string
                 [] h None) ;;
  lift (json_of res).

Definition get_order_history (page limit : Z) : M json :=
  let params := [("page", JInt page); ("limit", JInt limit)] in
  h <- headers ;;
  res <- send (mkRequest GET (BASE_URL ++ "/orders")%string params h None) ;;
  lift (json_of res).

Definition get_order_details (order_id : string) : M json :=
  h <- headers ;;
  res <- send (mkRequest GET (BASE_URL ++ "/orders/" ++ order_id)%string
                 [] h None) ;;
  lift (json_of res).

Definition track_order (order_id : string) : M json :=
  h <- headers ;;
  res <- send (mkRequest GET
                 (BASE_URL ++ "/orders/" ++ order_id ++ "/status")%string
                 [] h None) ;;
  lift (json_of res).

Definition cancel_order (order_id : string) (reason : option string)
  : M json :=
  let payload := cancel_order_payload reason in
  h <- headers ;;
  res <- send (mkRequest POST
                 (BASE_URL ++ "/orders/" ++ order_id ++ "/cancel")%string
                 [] h (Some (JObj payload))) ;;
  lift (json_of res).

Definition reorder (order_id : string) : M json :=
  h <- headers ;;
  res <- send (mkRequest POST
                 (BASE_URL ++ "/orders/" ++ order_id ++ "/reorder")%string
                 [] h None) ;;
  lift (json_of res).

Definition health_request : request :=
  get_request (BASE_URL ++ "/health")%string.

(** [try: ... except httpx.ConnectError: return {...}]: the only
    exception caught is a transport failure that is a connection failure. *)
Definition check_api_health : M json :=
  fun s =>
    match (res <- send health_request ;; lift (json_of res)) s with
    | (Raise HTTPError, s') =>
        if connect_error health_request (remote s) then (Ok unavailable, s')
        else (Raise HTTPError, s')
    | other => other
    end.

(** The tools that exchange one request for one reply and return
    [res.json()], as registered with [@mcp.tool()]. *)
Inductive call : Type :=
| GetCurrentUser
| GetCategories
| GetAlternativeProducts (product_id : string)
| UpdateCartItem (product_id : string) (quantity : Z)
| RemoveFromCart (product_id : string)
| ClearCart
| GetAddresses
| CreateAddress (a_name phone address_line1 city a_state pincode
                 address_type : string)
                (address_line2 landmark : option string) (is_default : bool)
| SetDefaultAddress (address_id : string)
| ProceedToCheckout (address_id : string)
| SetPaymentMode (order_id payment_mode : string)
| ProcessPayment (order_id : string)
| GetOrderHistory (page limit : Z)
| GetOrderDetails (order_id : string)
| TrackOrder (order_id : string)
| CancelOrder (order_id : string) (reason : option string)
| Reorder (order_id : string).

Definition invoke (c : call) : M json :=
  match c with
  | GetCurrentUser => get_current_user
  | GetCategories => get_categories
  | GetAlternativeProducts product_id => get_alternative_products product_id
  | UpdateCartItem product_id quantity => update_cart_item product_id quantity
  | RemoveFromCart product_id => remove_from_cart product_id
  | ClearCart => clear_cart
  | GetAddresses => get_addresses
  | CreateAddress a_name phone address_line1 city a_state pincode
      address_type address_line2 landmark is_default =>
      create_address a_name phone address_line1 city a_state pincode
        address_type address_line2 landmark is_default
  | SetDefaultAddress address_id => set_default_address address_id
  | ProceedToCheckout address_id => proceed_to_checkout address_id
  | SetPaymentMode order_id payment_mode =>
      set_payment_mode order_id payment_mode
  | ProcessPayment order_id => process_payment order_id
  | GetOrderHistory page limit => get_order_history page limit
  | GetOrderDetails order_id => get_order_details order_id
  | TrackOrder order_id => track_order order_id
  | CancelOrder order_id reason => cancel_order order_id reason
  | Reorder order_id => reorder order_id
  end.

End Session.

End Facade.

(** ** Observers used in the statements *)

Module Obs.
Import Py Http Facade.

(** [j[k1][k2]...] on nested dicts, [None] when a key is missing. *)
Fixpoint lookup_path (j : json) (path : list string) : option json :=
  match path with
  | [] => Some j
  | k :: rest =>
      match j with
      | JObj kv =>
          match dict_get kv k with
          | Some v => lookup_path v rest
          | None => None
          end
      | _ => None
      end
  end.

(** The dict of a tool result and its image elements. *)
Definition result_json (r : tool_result) : option json :=
  match r with
  | RDict j => Some j
  | RList l =>
      match filter (fun c => match c with CJson _ => true | _ => false end) l
      with
      | [CJson j] => Some j
      | _ => None
      end
  end.

Definition result_images (r : tool_result) : list ImageContent :=
  match r with
  | RDict _ => []
  | RList l =>
      flat_map (fun c => match c with CImage i => [i] | CJson _ => [] end) l
  end.

(** The specification's discount formula, in Python arithmetic:
    [round((MRP - price) / MRP * 100)] when [MRP > price], else [0]. *)
Definition spec_discount (mrp price : num) : result Z :=
  if num_gtb mrp price then
    (d <-? num_sub mrp price ;;
     q <-? num_truediv d mrp ;;
     c <-? num_mul q (NInt 100) ;;
     num_round c)%res
  else Ok 0.



(** *** Binary64 rounding, read in integers *)


Definition rmap {A B} (f : A -> B) (r : result A) : result B :=
  match r with
  | Ok a => Ok (f a)
  | Raise e => Raise e
  end.

(** *** Requests issued and remote state *)

Section Service.
Context {W : Type}.
Variable handle : request -> W -> option response * W.
Variable py_repr : json -> string.

Definition only_gets (l : list request) : Prop :=
  Forall (fun r => req_method r = GET) l.

(** A service on which GET requests are safe: they leave its state as
    it is. *)
Definition get_safe : Prop :=
  forall (r : request) (w : W), req_method r = GET -> snd (handle r w) = w.

(** From [s] to [s']: the requests [new] were issued, all of them GET;
    the token is kept, and so is the remote state of a GET-safe service. *)
Definition read_step (s s' : state W) (new : list request) : Prop :=
  issued s' = issued s ++ new
  /\ only_gets new
  /\ _auth_token s' = _auth_token s
  /\ (get_safe -> remote s' = remote s).

Definition reads_only {A} (c : M W A) : Prop :=
  forall s, exists new, read_step s (snd (c s)) new.

(** The state after one exchange. *)
Definition after (r : request) (s : state W) : state W :=
  mkState (snd (handle r (remote s))) (issued s ++ [r]) (_auth_token s).

(** The headers [_get_headers] computes in state [s]. *)
Definition headers_in (s : state W) : list (string * string) :=
  if truthy (_auth_token s)
  then [("Content-Type", "application/json");
        ("Authorization", ("Bearer " ++ py_str py_repr (_auth_token s))%string)]
  else [("Content-Type", "application/json")].

End Service.

(** *** Replies as the deriver reads them *)

(** What [fetch_orders] makes of the reply to the history request. *)
Definition orders_of_reply (reply : option response)
  : result (option (list json)) :=
  match reply with
  | None => Raise HTTPError
  | Some res =>
      (data <-? json_of res ;;
       success <-? get data "success" ;;
       if negb (truthy success) then Ok None
       else
         d <-? index data "data" ;;
         orders <-? get_default d "orders" (JArr []) ;;
         if negb (truthy orders) then Ok None
         else os <-? iter orders ;; Ok (Some os))%res
  end.

Section Replies.
Variable py_repr : json -> string.

(** What [recommend_top] makes of the reply to the refresh request. *)
Definition recommendation_of_reply (added_name top_id : json)
  (top_data : entry) (reply : option response) : result (option json) :=
  match reply with
  | None => Raise HTTPError
  | Some res =>
      (product_data <-? json_of res ;;
       ok <-? get product_data "success" ;;
       if truthy ok then
         pd <-? index product_data "data" ;;
         product <-? index pd "product" ;;
         r <-? fresh_recommendation py_repr added_name top_id top_data
                 product ;;
         Ok (Some r)
       else Ok (Some (cached_recommendation py_repr added_name top_id
                        top_data)))%res
  end.

End Replies.

(** A caught exception is an absent result. *)
Definition absent_on_raise {A} (r : result (option A)) : result (option A) :=
  match r with
  | Ok v => Ok v
  | Raise _ => Ok None
  end.

(** The response of a confirmed call whose POST was answered with JSON
    [result]: the flag and the recommendation are added when both
    [result.get("success")] and the product name are true. *)
Definition annotate (result : list (string * json))
  (recommendation : option json) : json :=
  match recommendation with
  | Some r =>
      JObj (dict_set (dict_set result "recommendation" r)
              "has_recommendation" (JBool true))
  | None => JObj (dict_set result "has_recommendation" (JBool false))
  end.

(** *** The table of co-purchased products and order histories *)

Definition keys (co : co_table) : list json := map fst co.

(** The attributes recorded with a key, without the count. *)
Definition snapshot (x : json * entry) : json * (json * json * json * json) :=
  (fst x, (name (snd x), price (snd x), image (snd x), unit (snd x))).

Definition snapshots (co : co_table)
  : list (json * (json * json * json * json)) :=
  map snapshot co.

(** No key of the table is the identifier just added. *)
Definition keys_differ (added_id : string) (co : co_table) : Prop :=
  Forall (fun k => py_eq k (JStr added_id) = false) (keys co).

(** An order line as the data model has it: a dict that names its
    product by a non-empty string, in [productId] or, when there is no
    [productId], in the [_id] of the nested [product].  A nested
    [product] next to a [productId] is a dict that names the same
    product, if any. *)
Definition line_of (item : json) (id : string) : Prop :=
  exists kv,
    item = JObj kv
    /\ id <> ""
    /\ ((dict_get kv "productId" = Some (JStr id)
         /\ (dict_get kv "product" = None
             \/ exists p,
                  dict_get kv "product" = Some (JObj p)
                  /\ (dict_get p "_id" = None
                      \/ dict_get p "_id" = Some (JStr id))))
        \/ ((dict_get kv "productId" = None
             \/ dict_get kv "productId" = Some JNull)
            /\ exists p,
                 dict_get kv "product" = Some (JObj p)
                 /\ dict_get p "_id" = Some (JStr id))).

(** An order with the identifiers of its lines, and a history. *)
Definition order_of (order : json) (ids : list string) : Prop :=
  exists kv items,
    order = JObj kv
    /\ dict_get kv "items" = Some (JArr items)
    /\ Forall2 line_of items ids.

Definition history_of (orders : list json) (idss : list (list string))
  : Prop :=
  Forall2 order_of orders idss.

(** How many lines of an order name product [k]. *)
Fixpoint occurrences (k : string) (ids : list string) : Z :=
  match ids with
  | [] => 0
  | id :: rest => (if String.eqb id k then 1 else 0) + occurrences k rest
  end.

Definition contains (added_id : string) (ids : list string) : bool :=
  existsb (fun id => String.eqb id added_id) ids.

(** The co-occurrence count of [k] with [added_id]: the lines naming [k]
    in the orders that contain [added_id]. *)
Fixpoint cooccurrences (added_id k : string) (idss : list (list string))
  : Z :=
  match idss with
  | [] => 0
  | ids :: rest =>
      (if contains added_id ids then occurrences k ids else 0)
      + cooccurrences added_id k rest
  end.

(** The lines of an order that name another product than [added_id]. *)
Definition others (added_id : string) (ids : list string) : list string :=
  filter (fun id => negb (String.eqb id added_id)) ids.

(** The products met next to [added_id], line by line, in the order of
    iteration: the other lines of the orders that contain [added_id]. *)
Definition companions (added_id : string) (idss : list (list string))
  : list string :=
  flat_map (fun ids => if contains added_id ids then others added_id ids
                       else []) idss.

(** In how many orders [k] is listed together with [added_id]. *)
Fixpoint orders_with (added_id k : string) (idss : list (list string)) : Z :=
  match idss with
  | [] => 0
  | ids :: rest =>
      (if contains added_id ids && contains k ids then 1 else 0)
      + orders_with added_id k rest
  end.

(** The products of a list in the order of their first appearance, after
    those already [seen]. *)
Definition note (seen : list string) (id : string) : list string :=
  if existsb (String.eqb id) seen then seen else seen ++ [id].

Definition first_seen (ids seen : list string) : list string :=
  fold_left note ids seen.

(** The count the table holds for the string key [k]. *)
Fixpoint tcount (co : co_table) (k : string) : Z :=
  match co with
  | [] => 0
  | (k', e) :: rest =>
      if py_eq k' (JStr k) then count e else tcount rest k
  end.

(** A table whose keys are distinct strings. *)
Definition table_ok (co : co_table) : Prop :=
  NoDup (keys co) /\ Forall (fun k => exists id, k = JStr id) (keys co).

(** *** Image replies *)

(** The content type a reply declares, as the fetch reads it: the
    header up to the first [;], stripped; [image/jpeg] without a header. *)
Definition declared_type (res : response) : string :=
  let c := match content_type res with
           | Some c => c
           | None => "image/jpeg"
           end in
  if contains_char ";" c then strip (before_char ";" c) else c.

(** The MIME type the fetch labels the image with. *)
Definition label (res : response) : string :=
  if startswith (declared_type res) "image/" then declared_type res
  else "image/jpeg".

(** What the fetch makes of the reply to the image request. *)
Definition image_of_reply (reply : option response) : option ImageContent :=
  match reply with
  | None => None
  | Some res =>
      if negb (status_code res =? 200) then None
      else if Z.of_nat (String.length (content res)) >? 1048576 then None
      else Some (mkImageContent "image" (b64encode (content res)) (label res))
  end.

(** *** The session and the pass-through tools *)

Definition login_request (email password : string) : request :=
  mkRequest POST (BASE_URL ++ "/auth/login")%string [] []
    (Some (JObj [("email", JStr email); ("password", JStr password)])).

Definition register_request (email password r_name phone : string)
  : request :=
  mkRequest POST (BASE_URL ++ "/auth/register")%string [] []
    (Some (JObj [("email", JStr email); ("password", JStr password);
                 ("name", JStr r_name); ("phone", JStr phone)])).

(** The token a reply to [login] or [register] grants: the true
    [data.token] of a JSON object whose [success] is true. *)
Definition granted_token (reply : option response) : option json :=
  match reply with
  | Some res =>
      match parsed res with
      | Some (JObj kv) =>
          match dict_get kv "success", dict_get kv "data" with
          | Some ok, Some (JObj d) =>
              if truthy ok then
                match dict_get d "token" with
                | Some t => if truthy t then Some t else None
                | None => None
                end
              else None
          | _, _ => None
          end
      | _ => None
      end
  | None => None
  end.

(** The exchange [r] of [login] or [register] from state [s], with the
    run it gives: [r] is the one request issued, the token becomes the
    granted one or stays as it was, and a value returned is the parsed
    reply. *)
Definition session_exchange {W} (handle : request -> W -> option response * W)
  (s : state W) (r : request) (run : result json * state W) : Prop :=
  issued (snd run) = issued s ++ [r]
  /\ remote (snd run) = snd (handle r (remote s))
  /\ _auth_token (snd run)
     = match granted_token (fst (handle r (remote s))) with
       | Some t => t
       | None => _auth_token s
       end
  /\ forall v, fst run = Ok v ->
       exists res,
         fst (handle r (remote s)) = Some res /\ parsed res = Some v.

(** The pass-through tools that only ask, and those that send the
    session headers. *)
Definition is_query (c : call) : bool :=
  match c with
  | GetCurrentUser | GetCategories | GetAlternativeProducts _ | GetAddresses
  | GetOrderHistory _ _ | GetOrderDetails _ | TrackOrder _ => true
  | _ => false
  end.

Definition authenticated (c : call) : bool :=
  match c with
  | GetCategories | GetAlternativeProducts _ => false
  | _ => true
  end.

(** A computation that leaves the module's [_auth_token] as it is. *)
Definition keeps_token {W A} (c : M W A) : Prop :=
  forall s, _auth_token (snd (c s)) = _auth_token s.

(** An optional text argument as the payloads carry it: left out when
    not given or empty. *)
Definition optional (arg : option string) : option json :=
  match arg with
  | Some a => if String.eqb a "" then None else Some (JStr a)
  | None => None
  end.

(** The listing request of [search_products]. *)
Definition search_request (query : string) (page limit : Z) : request :=
  mkRequest GET (BASE_URL ++ "/products/search")%string
    [("q", JStr query); ("page", JInt page); ("limit", JInt limit)] [] None.

(** The two reads of [view_cart]. *)
Definition cart_request (headers : list (string * string)) : request :=
  mkRequest GET (BASE_URL ++ "/cart")%string [] headers None.

Definition addresses_request (headers : list (string * string)) : request :=
  mkRequest GET (BASE_URL ++ "/addresses")%string [] headers None.

(** A cart line and its reshaped form: the fields are copied, and the
    total of an integer price and quantity is their product. *)
Definition line_reshaped (item line : json) : Prop :=
  get line "product_id" = get item "productId"
  /\ get line "name" = get item "name"
  /\ get line "quantity" = get item "quantity"
  /\ get line "price_per_unit" = get item "price"
  /\ forall p q,
       get item "price" = Ok (JInt p) -> get item "quantity" = Ok (JInt q) ->
       get line "total_price" = Ok (JInt (p * q)).


(** Every entry of the table has been counted at least once. *)
Definition counted (co : co_table) : Prop :=
  Forall (fun x => 1 <= count (snd x)) co.

(** A product and its summary in [formatted_products]: what is copied,
    the discount, and the stock flag. *)
Definition summarised (p f : json) : Prop :=
  get f "id" = get_or p "_id" "id"
  /\ get f "name" = get p "name"
  /\ get f "price" = get p "price"
  /\ get f "mrp" = get p "mrp"
  /\ get f "image_url" = get p "image"
  /\ get f "discount_percent" = discount_with_defaults p
  /\ (forall n, get p "stock" = Ok (JInt n) ->
               get f "in_stock" = Ok (JBool (n >? 0)))
  /\ (get p "stock" = Ok JNull -> get f "in_stock" = Ok (JBool false)).

(** An image element as the MCP host expects it. *)
Definition well_labelled (i : ImageContent) : bool :=
  String.eqb (type i) "image" && startswith (mimeType i) "image/".

(** What the image block of a discovery tool makes of [data], from state
    [s] to [s']: at most three images, each paid for by a GET request. *)
Definition attached {W} (s s' : state W) (show_images : bool) (data : json)
  (v : tool_result) : Prop :=
  exists images new,
    v = with_images images data
    /\ (List.length images <= 3)%nat
    /\ Forall (fun i => well_labelled i = true) images
    /\ issued s' = issued s ++ new
    /\ only_gets new
    /\ (List.length new <= 3)%nat
    /\ (List.length images <= List.length new)%nat
    /\ (show_images = false -> images = [] /\ new = []).

End Obs.

(** ** Concrete remote services

    Small services used to run the facade: a table of routes answers each
    request by method and URL, and the remote state counts the mutating
    requests received. *)

Module Scenario.
Import Py Http Facade.

Definition route : Type := (method * string * option response)%type.

Definition method_eqb (a b : method) : bool :=
  match a, b with
  | GET, GET | POST, POST | PUT, PUT | DELETE, DELETE => true
  | _, _ => false
  end.

Fixpoint find_route (routes : list route) (m : method) (url : string)
  : option (option response) :=
  match routes with
  | [] => None
  | (m', url', reply) :: rest =>
      if method_eqb m' m && String.eqb url' url then Some reply
      else find_route rest m url
  end.

(** A JSON reply with status 200. *)
Definition json_reply (j : json) : option response :=
  Some (mkResponse 200 (Some "application/json") "" (Some j)).

Definition envelope (ok : bool) (payload : json) : json :=
  JObj [("success", JBool ok); ("data", payload)].

Definition not_found : option response :=
  Some (mkResponse 404 (Some "application/json") ""
          (Some (JObj [("success", JBool false);
                       ("message", JStr "Not found")]))).

Definition serve (routes : list route) (r : request) (received : nat)
  : option response * nat :=
  (match find_route routes (req_method r) (req_url r) with
   | Some reply => reply
   | None => not_found
   end,
   if mutating r then S received else received).

Definition api (path : string) : string := (BASE_URL ++ path)%string.

(** The initial state: nothing received, nothing issued, not logged in. *)
Definition start : state nat := mkState O [] JNull.

Definition repr_stub (j : json) : string := "?".
Definition grouped_stub (f : spec_float) : string := "?".

(** Catalogue entries. *)
Definition product (id p_name : string) (p_price p_mrp : Z) (img : string)
  : json :=
  JObj [("_id", JStr id); ("name", JStr p_name); ("price", JInt p_price);
        ("mrp", JInt p_mrp); ("unit", JStr "1 pc"); ("rating", JInt 4);
        ("stock", JInt 12); ("image", JStr img)].

Definition product_reply (p : json) : option response :=
  json_reply (envelope true (JObj [("product", p)])).

Definition apple : json := product "A" "Apple" 75 100 "http://cdn.test/a.png".
Definition bread : json := product "B" "Bread" 40 40 "http://cdn.test/b.png".


(** Order lines and histories. *)
Definition line (id l_name : string) (l_price : Z) : json :=
  JObj [("productId", JStr id); ("name", JStr l_name);
        ("price", JInt l_price); ("quantity", JInt 1);
        ("unit", JStr "1 pc");
        ("image", JStr ("http://cdn.test/" ++ id ++ ".png")%string)].

Definition order (lines : list json) : json := JObj [("items", JArr lines)].

Definition la : json := line "A" "Apple" 75.
Definition lb : json := line "B" "Bread" 40.
Definition lc : json := line "C" "Cheese" 120.

(** A with C once, then A with B three times, and one order without A. *)
Definition history : json :=
  envelope true
    (JObj [("orders",
            JArr [order [la; lc]; order [lb; la]; order [lc; lb];
                  order [la; lb]; order [lb; la]])]).

(** A service with a catalogue, a history and a cart endpoint. *)
Definition shop_routes : list route :=
  [(GET, api "/products/A", product_reply apple);
   (GET, api "/products/B", product_reply bread);
   (GET, api "/orders", json_reply history);
   (POST, api "/cart/items",
    json_reply (envelope true (JObj [("cart", JObj [])])));
   (GET, "http://cdn.test/a.png",
    Some (mkResponse 200 (Some "image/png") "PNG" None))].

Definition shop := serve shop_routes.

(** The same history, with an empty catalogue: every product lookup is
    answered "not found". *)
Definition stale := serve [(GET, api "/orders", json_reply history)].

(** The history endpoint cannot be reached; the rest works. *)
Definition offline :=
  serve [(GET, api "/products/A", product_reply apple);
         (GET, api "/orders", None);
         (POST, api "/cart/items",
          json_reply (envelope true (JObj [("cart", JObj [])])))].

(** The cart endpoint accepts a product the catalogue does not list. *)
Definition unlisted :=
  serve [(GET, api "/orders", json_reply history);
         (POST, api "/cart/items",
          json_reply (envelope true (JObj [("cart", JObj [])])))].

(** The identifiers of the lines of [history], order by order. *)
Definition history_ids : list (list string) :=
  [["A"; "C"]; ["B"; "A"]; ["C"; "B"]; ["A"; "B"]; ["B"; "A"]].

(** A with B in three orders, and with C in one order that lists C on
    four lines. *)
Definition bulk_orders : list json :=
  [order [la; lb]; order [lb; la]; order [la; lb];
   order [la; lc; lc; lc; lc]].

Definition bulk_history : json :=
  envelope true (JObj [("orders", JArr bulk_orders)]).

Definition bulk := serve [(GET, api "/orders", json_reply bulk_history)].

Definition bulk_ids : list (list string) :=
  [["A"; "B"]; ["B"; "A"]; ["A"; "B"]; ["A"; "C"; "C"; "C"; "C"]].

(** The image host answers with an HTML page. *)
Definition html_page : response :=
  mkResponse 200 (Some "text/html; charset=utf-8")
    "<html><body>moved</body></html>" None.

Definition html_image :=
  serve [(GET, api "/products/A", product_reply apple);
         (GET, "http://cdn.test/a.png", Some html_page)].

(** A payload of 2^20 + 1 bytes. *)
Fixpoint doubled (n : nat) (s : string) : string :=
  match n with
  | O => s
  | S n' => doubled n' (s ++ s)
  end.

Definition big_payload : string := (doubled 20 "x" ++ "y")%string.

Definition huge_image :=
  serve [(GET, api "/products/A", product_reply apple);
         (GET, "http://cdn.test/a.png",
          Some (mkResponse 200 (Some "image/png") big_payload None))].

(** A cart and an address book. *)
Definition address (city : string) (is_default serviceable : bool) : json :=
  JObj [("_id", JStr "addr1"); ("name", JStr "Home");
        ("phone", JStr "9000000000"); ("addressLine1", JStr "1 Main Road");
        ("city", JStr city); ("state", JStr "MH"); ("pincode", JStr "411001");
        ("type", JStr "home"); ("isDefault", JBool is_default);
        ("isServiceable", JBool serviceable)].

Definition cart_routes (lines addresses : list json) : list route :=
  [(GET, api "/cart",
    json_reply (envelope true
      (JObj [("cart", JObj [("items", JArr lines)]);
             ("bill", JObj [("subtotal", JInt 115)])])));
   (GET, api "/addresses",
    json_reply (envelope true (JObj [("addresses", JArr addresses)])))].

(** One item in the cart; the default address is not serviceable. *)
Definition unserviceable :=
  serve (cart_routes [la] [address "Pune" true false]).

(** Two items in the cart; the default address is serviceable. *)
Definition ready := serve (cart_routes [la; lb] [address "Pune" true true]).

(** A catalogue of four products; the image host has the pictures of
    the first and of the third. *)
Definition cheese : json :=
  product "C" "Cheese" 120 150 "http://cdn.test/c.png".
Definition milk : json := product "D" "Milk" 30 32 "http://cdn.test/d.png".

Definition listing : json :=
  envelope true (JObj [("products", JArr [apple; bread; cheese; milk])]).

Definition png (body : string) : option response :=
  Some (mkResponse 200 (Some "image/png") body None).

Definition catalogue :=
  serve [(GET, api "/products/search", json_reply listing);
         (GET, api "/products/filter", json_reply listing);
         (GET, api "/products/A", product_reply apple);
         (GET, api "/products/B", product_reply bread);
         (GET, "http://cdn.test/a.png", png "PNG-A");
         (GET, "http://cdn.test/c.png", png "PNG-C");
         (GET, "http://cdn.test/d.png", png "PNG-D")].

(** An account service: a login that grants the token [t0k], and an
    address book. *)
Definition account :=
  serve [(POST, api "/auth/login",
          json_reply (envelope true
            (JObj [("token", JStr "t0k");
                   ("user", JObj [("email", JStr "asha@example.test")])])));
         (GET, api "/addresses",
          json_reply (envelope true (JObj [("addresses", JArr [])])))].


(** The cart is there, the address book is not. *)
Definition no_address_book :=
  serve [(GET, api "/cart",
          json_reply (envelope true
            (JObj [("cart", JObj [("items", JArr [la; lb])]);
                   ("bill", JObj [("subtotal", JInt 115)])])))].

(** The cart is there, the address book cannot be reached. *)
Definition address_book_down :=
  serve [(GET, api "/cart",
          json_reply (envelope true
            (JObj [("cart", JObj [("items", JArr [la; lb])]);
                   ("bill", JObj [("subtotal", JInt 115)])])));
         (GET, api "/addresses", None)].

(** A search result whose second product has a reference price and no
    price. *)
Definition unpriced : json :=
  JObj [("_id", JStr "U"); ("name", JStr "Mystery box"); ("mrp", JInt 50)].

Definition broken_catalogue :=
  serve [(GET, api "/products/search",
          json_reply (envelope true
            (JObj [("products", JArr [apple; unpriced; bread])])))].

(** A catalogue entry without a rating. *)
Definition unrated : json :=
  JObj [("_id", JStr "N"); ("name", JStr "New arrival"); ("price", JInt 60);
        ("mrp", JInt 80); ("unit", JStr "1 pc")].

Definition new_arrivals :=
  serve [(GET, api "/products/N", product_reply unrated)].

(** The cart endpoint refuses the item. *)
Definition refusal : json :=
  JObj [("success", JBool false); ("message", JStr "Out of stock")].

Definition sold_out :=
  serve [(GET, api "/products/A", product_reply apple);
         (GET, api "/orders", json_reply history);
         (POST, api "/cart/items", json_reply refusal)].

End Scenario.

(** ** Properties *)

(** *** Binary64 division, multiplication and rounding *)

Module Binary64.
Import Py Obs.













(** [float(100)], normalised to 53 digits. *)
Lemma float_of_int_100 :
  float_of_int 100 = Ok (S754_finite false 7036874417766400 (-46)).
Proof. reflexivity. Qed.




End Binary64.

(** *** The discount percent *)

Module Discount.
Import Py Http Facade Obs Binary64.

Lemma arith_num (op : num -> num -> result num) (a b : json) (x y : num) :
  as_num a = Some x -> as_num b = Some y ->
  arith op a b = rmap json_of_num (op x y).
Proof.
  intros Ha Hb. unfold arith. rewrite Ha, Hb. destruct (op x y); reflexivity.
Qed.

Lemma py_gt_num (a b : json) (x y : num) :
  as_num a = Some x -> as_num b = Some y -> py_gt a b = Ok (num_gtb x y).
Proof.
  intros Ha Hb.
  destruct a; simpl in Ha; try discriminate;
    destruct b; simpl in Hb; try discriminate;
    simpl; congruence.
Qed.

Lemma py_mul_float_int (f : spec_float) (n : Z) :
  py_mul (JFloat f) (JInt n) = rmap json_of_num (num_mul (NFloat f) (NInt n)).
Proof.
  unfold py_mul, arith; simpl. destruct (float_of_int n); reflexivity.
Qed.

Lemma num_truediv_float (x y r : num) :
  num_truediv x y = Ok r -> exists f, r = NFloat f.
Proof.
  destruct x as [a|a], y as [b|b]; simpl; intros H.
  - destruct (b =? 0); try discriminate.
    destruct (SFdiv prec emax (exact_of_int a) (exact_of_int b));
      inversion H; eauto.
  - destruct (float_of_int a) as [fa|]; simpl in H; try discriminate.
    destruct (is_zero_float b); inversion H; eauto.
  - destruct (float_of_int b) as [fb|]; simpl in H; try discriminate.
    destruct (is_zero_float fb); inversion H; eauto.
  - destruct (is_zero_float b); inversion H; eauto.
Qed.

(** The guarded expression shared by the three call sites. *)
Lemma discount_expression (jm jp : json) (m c : num) :
  as_num jm = Some m -> as_num jp = Some c ->
  (gt <-? py_gt jm jp ;;
   if (gt : bool) then
     d <-? py_sub jm jp ;;
     q <-? py_truediv d jm ;;
     x <-? py_mul q (JInt 100) ;;
     py_round x
   else Ok (JInt 0))%res
  = rmap JInt (spec_discount m c).
Proof.
  intros Hm Hc. rewrite (py_gt_num _ _ _ _ Hm Hc). simpl.
  unfold spec_discount. destruct (num_gtb m c); [|reflexivity].
  unfold py_sub, py_truediv. rewrite (arith_num _ _ _ _ _ Hm Hc).
  destruct (num_sub m c) as [d|e]; simpl; [|reflexivity].
  assert (Hd : as_num (json_of_num d) = Some d) by (destruct d; reflexivity).
  rewrite (arith_num _ _ _ _ _ Hd Hm).
  destruct (num_truediv d m) as [q|e] eqn:Hq; simpl; [|reflexivity].
  destruct (num_truediv_float _ _ _ Hq) as [f ->]. simpl json_of_num.
  rewrite py_mul_float_int.
  destruct (num_mul (NFloat f) (NInt 100)) as [x|e]; simpl; [|reflexivity].
  unfold py_round.
  assert (Hx : as_num (json_of_num x) = Some x) by (destruct x; reflexivity).
  rewrite Hx. destruct (num_round x); reflexivity.
Qed.


Lemma discount_indexed_spec (kv : list (string * json)) (jm jp : json)
  (m c : num) :
  dict_get kv "mrp" = Some jm -> dict_get kv "price" = Some jp ->
  as_num jm = Some m -> as_num jp = Some c ->
  discount_indexed (JObj kv) = rmap JInt (spec_discount m c).
Proof.
  intros Hm Hp Hnm Hnc. unfold discount_indexed. simpl.
  rewrite Hm, Hp. simpl. rewrite <- (discount_expression jm jp m c Hnm Hnc).
  destruct (py_gt jm jp) as [[|]|]; reflexivity.
Qed.











(** MRP 200 and price 85 meet the same half. *)
Example discount_200_85 : spec_discount (NInt 200) (NInt 85) = Ok 57.
Proof. reflexivity. Qed.

End Discount.

(** *** Stepping through a computation *)

Module Steps.
Import Py Http Facade.

Section Laws.
Context {W : Type}.
Variable handle : request -> W -> option response * W.

Lemma bind_ret {A B} (a : A) (k : A -> M W B) (s : state W) :
  bind (ret a) k s = k a s.
Proof. reflexivity. Qed.

Lemma bind_lift {A B} (r : result A) (k : A -> M W B) (s : state W) :
  bind (lift r) k s
  = match r with
    | Ok a => k a s
    | Raise e => (Raise e, s)
    end.
Proof. destruct r; reflexivity. Qed.

Lemma bind_ok {A B} (c : M W A) (k : A -> M W B) (s s' : state W) (b : B) :
  bind c k s = (Ok b, s') ->
  exists a s1, c s = (Ok a, s1) /\ k a s1 = (Ok b, s').
Proof.
  unfold bind. destruct (c s) as [[a|e] s1]; intros H; [eauto | discriminate].
Qed.

Lemma bind_lift_ok {A B} (r : result A) (k : A -> M W B) (s s' : state W)
  (b : B) :
  bind (lift r) k s = (Ok b, s') -> exists a, r = Ok a /\ k a s = (Ok b, s').
Proof. rewrite bind_lift. destruct r; intros H; [eauto | discriminate]. Qed.

Lemma ret_ok {A} (a b : A) (s s' : state W) :
  ret a s = (Ok b, s') -> a = b /\ s = s'.
Proof. unfold ret. intros H; inversion H; auto. Qed.

Lemma send_run (r : request) (s : state W) :
  send handle r s
  = (match fst (handle r (remote s)) with
     | Some res => Ok res
     | None => Raise HTTPError
     end,
     mkState (snd (handle r (remote s))) (issued s ++ [r]) (_auth_token s)).
Proof.
  unfold send. destruct (handle r (remote s)) as [[res|] w']; reflexivity.
Qed.

Lemma send_ok (r : request) (s s1 : state W) (res : response) :
  send handle r s = (Ok res, s1) -> fst (handle r (remote s)) = Some res.
Proof.
  rewrite send_run. destruct (fst (handle r (remote s))); intros H;
    inversion H; reflexivity.
Qed.

Lemma json_of_ok (res : response) (data : json) :
  json_of res = Ok data -> parsed res = Some data.
Proof.
  unfold json_of. destruct (parsed res); intros H; inversion H; reflexivity.
Qed.


End Laws.

(** Invert one [bind] of a hypothesis [c s = (Ok _, _)], naming the
    intermediate value and the equation of the first step. *)
Ltac invert_bind H a E :=
  lazymatch type of H with
  | bind (lift _) _ _ = (Ok _, _) =>
      apply bind_lift_ok in H; destruct H as (a & E & H)
  | bind _ _ _ = (Ok _, _) =>
      let s1 := fresh "s" in
      apply bind_ok in H; destruct H as (a & s1 & E & H)
  end.

Tactic Notation "step" hyp(H) "as" ident(a) ident(E) := invert_bind H a E.

Ltac finish_ret H :=
  apply ret_ok in H; destruct H as [? ?]; subst.

End Steps.

(** *** The cart view *)

Module CartView.
Import Py Http Facade Obs Steps.

Section View.
Context {W : Type}.
Variable handle : request -> W -> option response * W.
Variable py_repr : json -> string.

(** What [find_default] returns: [None] or a reshaped address. *)
Lemma find_default_shape (addresses : list json) (a : json) :
  find_default addresses = Ok a ->
  a = JNull \/
  exists id n ph l1 l2 lm city st pin ty sv,
    a = JObj [("id", id); ("name", n); ("phone", ph);
              ("address_line1", l1); ("address_line2", l2);
              ("landmark", lm); ("city", city); ("state", st);
              ("pincode", pin); ("type", ty); ("is_serviceable", sv)].
Proof.
  induction addresses as [|addr rest IH]; simpl; intros H.
  - inversion H; auto.
  - destruct addr; simpl in H; try discriminate.
    destruct (truthy _); [|auto].
    destruct (get_or (JObj kv) "_id" "id") as [id|]; simpl in H;
      [|discriminate].
    inversion H. right. repeat eexists.
Qed.

(** Every answer of [view_cart] is either the upstream cart reply,
    passed on because it reports no success, or the enhanced response. *)
Lemma view_cart_shape (s s' : state W) (r : json) :
  view_cart handle py_repr s = (Ok r, s') ->
  (exists v, get r "success" = Ok v /\ truthy v = false)
  \/ exists addresses items total n bill threshold to_free addr msg,
       find_default addresses = Ok addr
       /\ cart_message py_repr addr n 15 = Ok msg
       /\ r = JObj
           [("success", JBool true);
            ("data", JObj
               [("cart", JObj
                   [("items", JArr items);
                    ("total_items", total);
                    ("item_count", JInt n)]);
                ("bill", bill);
                ("delivery", JObj
                   [("estimated_mins", JInt 15);
                    ("estimated_time", JStr "~15 minutes");
                    ("free_delivery_threshold", threshold);
                    ("amount_to_free_delivery", to_free)]);
                ("selected_address", addr);
                ("has_address", JBool (negb (is_none addr)));
                ("ready_for_checkout",
                 JBool (negb (is_none addr) && (n >? 0)));
                ("message", JStr msg)])].
Proof.
  intros H. unfold view_cart in H.
  step H as hdrs Eh. step H as cart_res Ecart.
  step H as cart_data Ejson. step H as ok Eok.
  destruct (truthy ok) eqn:Hok; simpl in H.
  - step H as hdrs' Eh'. step H as address_res Eaddr.
    step H as address_data Eaj. step H as a_ok Eaok.
    step H as addr Edef.
    assert (Hd : exists addresses, find_default addresses = Ok addr).
    { destruct (truthy a_ok).
      - destruct (index address_data "data") as [ad|]; simpl in Edef;
          [|discriminate].
        destruct (get_default ad "addresses" (JArr [])) as [al|];
          simpl in Edef; [|discriminate].
        destruct (iter al) as [addrs|]; simpl in Edef; [|discriminate].
        eauto.
      - exists []. exact Edef. }
    destruct Hd as [addresses Hd].
    step H as cd Ecd. step H as cart Ec. step H as cart_items Eitems.
    step H as its Eits. step H as formatted Efmt. step H as n En.
    step H as total Etot. step H as bill Ebill. step H as bill' Ebill'.
    step H as threshold Ethr. step H as to_free Efree. step H as msg Emsg.
    finish_ret H.
    right. exists addresses, formatted, total, n, bill, threshold, to_free,
      addr, msg.
    repeat split; assumption.
  - finish_ret H. left. exists ok. split; [assumption|].
    destruct (truthy ok); [discriminate | reflexivity].
Qed.

Lemma cart_message_cases (addresses : list json) (addr : json) (n : Z)
  (msg : string) :
  find_default addresses = Ok addr ->
  cart_message py_repr addr n 15 = Ok msg ->
  msg = msg_no_address
  \/ msg = msg_unserviceable
  \/ msg = msg_empty_cart
  \/ exists city,
       lookup_path addr ["city"] = Some city
       /\ msg = (sym_check ++ " Ready for checkout! Delivery to "
                 ++ py_str py_repr city ++ " in ~15 mins.")%string.
Proof.
  intros Hd Hm. apply find_default_shape in Hd.
  destruct Hd as [-> | (id & n0 & ph & l1 & l2 & lm & city & st & pin & ty
                        & sv & ->)].
  - inversion Hm; auto.
  - unfold cart_message in Hm. simpl in Hm.
    destruct (truthy sv); simpl in Hm; [|inversion Hm; auto].
    destruct (n =? 0); inversion Hm; [auto|].
    right; right; right. exists city. split; reflexivity.
Qed.

(** The flag as the code computes it: a default address exists and the
    cart has an item. *)
Lemma ready_flag_computed (s s' : state W) (r v : json) :
  view_cart handle py_repr s = (Ok r, s') ->
  get r "success" = Ok v -> truthy v = true ->
  exists addr n,
    lookup_path r ["data"; "selected_address"] = Some addr
    /\ lookup_path r ["data"; "cart"; "item_count"] = Some (JInt n)
    /\ lookup_path r ["data"; "ready_for_checkout"]
       = Some (JBool (negb (is_none addr) && (n >? 0))).
Proof.
  intros H Hs Ht. apply view_cart_shape in H.
  destruct H as [(v' & Hv' & Hf) | H].
  - rewrite Hs in Hv'. inversion Hv'; subst. congruence.
  - destruct H as (addresses & items & total & n & bill & threshold & to_free
                   & addr & msg & _ & _ & ->).
    exists addr, n. repeat split.
Qed.

(** C10.  Whatever the cart holds, an answer of [view_cart] that reports
    success gives the delivery estimate as the constant 15: in
    [delivery.estimated_mins], in the text [delivery.estimated_time], and
    in the ready-for-checkout message, which is one of the four literal
    messages. *)
Theorem delivery_estimate_constant (s s' : state W) (r v : json) :
  view_cart handle py_repr s = (Ok r, s') ->
  get r "success" = Ok v -> truthy v = true ->
  lookup_path r ["data"; "delivery"; "estimated_mins"] = Some (JInt 15)
  /\ lookup_path r ["data"; "delivery"; "estimated_time"]
     = Some (JStr "~15 minutes")
  /\ exists msg,
       lookup_path r ["data"; "message"] = Some (JStr msg)
       /\ (msg = msg_no_address
           \/ msg = msg_unserviceable
           \/ msg = msg_empty_cart
           \/ exists city,
                lookup_path r ["data"; "selected_address"; "city"] = Some city
                /\ msg = (sym_check ++ " Ready for checkout! Delivery to "
                          ++ py_str py_repr city ++ " in ~15 mins.")%string).
Proof.
  intros H Hs Ht. apply view_cart_shape in H.
  destruct H as [(v' & Hv' & Hf) | H].
  - rewrite Hs in Hv'. inversion Hv'; subst. congruence.
  - destruct H as (addresses & items & total & n & bill & threshold & to_free
                   & addr & msg & Hd & Hm & ->).
    split; [reflexivity|]. split; [reflexivity|].
    exists msg. split; [reflexivity|].
    destruct (cart_message_cases _ _ _ _ Hd Hm)
      as [E | [E | [E | (city & Hc & E)]]]; auto.
    right; right; right. exists city. split; [|exact E].
    simpl. destruct addr; simpl in Hc; try discriminate. exact Hc.
Qed.

End View.

(** A ready cart: two items, a serviceable default address in Pune. *)
Lemma delivery_estimate_constant_witness :
  exists r s',
    view_cart Scenario.ready Scenario.repr_stub Scenario.start = (Ok r, s')
    /\ lookup_path r ["data"; "delivery"; "estimated_mins"] = Some (JInt 15)
    /\ lookup_path r ["data"; "message"]
       = Some (JStr (sym_check ++ " Ready for checkout! Delivery to Pune"
                     ++ " in ~15 mins.")%string).
Proof.
  destruct (view_cart Scenario.ready Scenario.repr_stub Scenario.start)
    as [res s'] eqn:E.
  vm_compute in E. inversion E; subst; clear E.
  eexists; eexists. split; [reflexivity|].
  split; [|reflexivity].
  eapply (delivery_estimate_constant Scenario.ready Scenario.repr_stub
            Scenario.start);
    [vm_compute; reflexivity | reflexivity | reflexivity].
Defined.

(** C1.  With one item in the cart and a default address marked not
    serviceable, [view_cart] answers [ready_for_checkout = True] next to
    the message that delivery is not available at that address. *)
Theorem view_cart_ready_ignores_serviceability :
  exists r s',
    view_cart Scenario.unserviceable Scenario.repr_stub Scenario.start
      = (Ok r, s')
    /\ lookup_path r ["data"; "cart"; "item_count"] = Some (JInt 1)
    /\ lookup_path r ["data"; "selected_address"; "is_serviceable"]
       = Some (JBool false)
    /\ lookup_path r ["data"; "ready_for_checkout"] = Some (JBool true)
    /\ lookup_path r ["data"; "message"] = Some (JStr msg_unserviceable).
Proof.
  destruct (view_cart Scenario.unserviceable Scenario.repr_stub
              Scenario.start) as [res s'] eqn:E.
  vm_compute in E. inversion E; subst; clear E.
  eexists; eexists. split; [reflexivity|].
  repeat split.
Qed.

End CartView.

(** *** Which requests a computation issues *)

Module Frame.
Import Py Http Facade Obs Steps.

Section ReadsOnly.
Context {W : Type}.
Variable handle : request -> W -> option response * W.
Variable py_repr : json -> string.
Variable grouped_of_float : spec_float -> string.

Local Abbreviation M := (Http.M W).

Lemma read_step_refl (s : state W) : read_step handle s s [].
Proof.
  unfold read_step. rewrite app_nil_r. repeat split; auto. constructor.
Qed.

Lemma read_step_trans (s1 s2 s3 : state W) (l1 l2 : list request) :
  read_step handle s1 s2 l1 -> read_step handle s2 s3 l2 ->
  read_step handle s1 s3 (l1 ++ l2).
Proof.
  intros (I1 & G1 & T1 & R1) (I2 & G2 & T2 & R2). repeat split.
  - rewrite I2, I1, app_assoc. reflexivity.
  - apply Forall_app; split; assumption.
  - congruence.
  - intros Hs. rewrite (R2 Hs). auto.
Qed.

Lemma reads_only_ret {A} (a : A) : reads_only handle (ret a).
Proof. intros s. exists []. apply read_step_refl. Qed.

Lemma reads_only_raise {A} (e : exn) : reads_only handle (raise (A:=A) e).
Proof. intros s. exists []. apply read_step_refl. Qed.

Lemma reads_only_lift {A} (r : result A) : reads_only handle (lift r).
Proof. intros s. exists []. apply read_step_refl. Qed.

Lemma reads_only_read_token : reads_only handle (read_token : M json).
Proof. intros s. exists []. apply read_step_refl. Qed.

Lemma reads_only_send (r : request) :
  req_method r = GET -> reads_only handle (send handle r).
Proof.
  intros Hr s. exists [r]. rewrite send_run. simpl. repeat split; auto.
  - constructor; [assumption | constructor].
  - intros Hs. apply Hs. assumption.
Qed.

Lemma reads_only_bind {A B} (c : M A) (k : A -> M B) :
  reads_only handle c -> (forall a, reads_only handle (k a)) ->
  reads_only handle (bind c k).
Proof.
  intros Hc Hk s. unfold bind. destruct (Hc s) as [l1 H1].
  destruct (c s) as [[a|e] s1]; simpl in H1.
  - destruct (Hk a s1) as [l2 H2]. exists (l1 ++ l2).
    eapply read_step_trans; eassumption.
  - exists l1. exact H1.
Qed.

Lemma reads_only_try {A} (body : M A) (handler : exn -> M A) :
  reads_only handle body -> (forall e, reads_only handle (handler e)) ->
  reads_only handle (try_except body handler).
Proof.
  intros Hb Hh s. unfold try_except. destruct (Hb s) as [l1 H1].
  destruct (body s) as [[a|e] s1]; simpl in H1.
  - exists l1. exact H1.
  - destruct (Hh e s1) as [l2 H2]. exists (l1 ++ l2).
    eapply read_step_trans; eassumption.
Qed.

End ReadsOnly.

(** One step of decomposing a goal [reads_only c] along [c]. *)
Ltac reads_step :=
  first
    [ apply reads_only_ret
    | apply reads_only_raise
    | apply reads_only_lift
    | apply reads_only_read_token
    | apply reads_only_send; reflexivity
    | apply reads_only_bind; [|intros ?]
    | apply reads_only_try; [|intros ?]
    | match goal with
      | |- reads_only _ (if ?b then _ else _) => destruct b
      | |- reads_only _ (match ?x with _ => _ end) => destruct x
      end ].

Ltac reads := repeat reads_step.

Section Tools.
Context {W : Type}.
Variable handle : request -> W -> option response * W.
Variable py_repr : json -> string.
Variable grouped_of_float : spec_float -> string.

Lemma reads_only_headers : reads_only handle (_get_headers (W:=W) py_repr).
Proof. unfold _get_headers. reads. Qed.

Lemma reads_only_fetch_image (url : json) :
  reads_only handle (_fetch_image_as_content handle url).
Proof. unfold _fetch_image_as_content. reads. Qed.

Lemma reads_only_fetch_images (products : list json) :
  reads_only handle (fetch_images handle products).
Proof.
  induction products as [|p rest IH]; simpl.
  - reads.
  - reads; [apply reads_only_fetch_image | exact IH].
Qed.

Lemma reads_only_deriver (added_product_id : string) (added_name : json) :
  reads_only handle
    (_get_recommendation_from_history handle py_repr added_product_id
       added_name).
Proof.
  unfold _get_recommendation_from_history, recommendation_body, fetch_orders,
    recommend_top.
  reads; apply reads_only_headers.
Qed.

Lemma reads_only_lookup_name (product_id : string) :
  reads_only handle (lookup_product_name handle product_id).
Proof. unfold lookup_product_name. reads. Qed.

Lemma reads_only_proposed (product_id : string) (quantity : Z) :
  reads_only handle
    (add_to_cart_proposed handle py_repr grouped_of_float product_id quantity).
Proof.
  unfold add_to_cart_proposed. reads; apply reads_only_fetch_image.
Qed.

Lemma reads_only_search (query : string) (page limit : Z) (show : bool) :
  reads_only handle (search_products handle query page limit show).
Proof.
  unfold search_products. reads; apply reads_only_fetch_images.
Qed.

Lemma reads_only_attach (show : bool) (data : json) :
  reads_only handle (attach_images handle show data).
Proof.
  unfold attach_images. reads; apply reads_only_fetch_images.
Qed.

Lemma reads_only_category (category_id : string) (page limit : Z)
  (show : bool) :
  reads_only handle
    (get_products_by_category handle category_id page limit show).
Proof.
  unfold get_products_by_category.
  apply reads_only_bind; [apply reads_only_send; reflexivity | intros res].
  apply reads_only_bind; [apply reads_only_lift | intros data].
  apply reads_only_attach.
Qed.

Lemma reads_only_featured (limit : Z) (show : bool) :
  reads_only handle (get_featured_products handle limit show).
Proof.
  unfold get_featured_products.
  apply reads_only_bind; [apply reads_only_send; reflexivity | intros res].
  apply reads_only_bind; [apply reads_only_lift | intros data].
  apply reads_only_attach.
Qed.

Lemma reads_only_view_cart : reads_only handle (view_cart handle py_repr).
Proof. unfold view_cart. reads; apply reads_only_headers. Qed.

End Tools.


Section Gate.
Context {W : Type}.
Variable handle : request -> W -> option response * W.
Variable py_repr : json -> string.
Variable grouped_of_float : spec_float -> string.


(** The result of an unconfirmed call: the upstream reply when it reports
    no success, otherwise the proposal, after at most one image. *)
Lemma proposed_result (product_id : string) (quantity : Z) (s s' : state W)
  (v : tool_result) :
  add_to_cart_proposed handle py_repr grouped_of_float product_id quantity s
    = (Ok v, s') ->
  (exists data ok, v = RDict data /\ get data "success" = Ok ok
                   /\ truthy ok = false)
  \/ exists message product,
       (v = RDict (proposal product_id message product)
        \/ exists i, v = RList [CImage i;
                                CJson (proposal product_id message product)]).
Proof.
  intros H. unfold add_to_cart_proposed in H.
  step H as res Er. step H as data Ed. step H as ok Eok.
  destruct (truthy ok) eqn:Hok.
  - step H as d E1. step H as product E2. step H as discount E3.
    step H as url E4. step H as image E5. step H as message E6.
    right. exists message, product.
    destruct image as [i|]; finish_ret H; eauto.
  - finish_ret H. left. eauto.
Qed.


End Gate.



End Frame.

(** *** The recommendation deriver, stage by stage *)

Module Deriver.
Import Py Http Facade Obs Steps.

Section Runs.
Context {W : Type}.
Variable handle : request -> W -> option response * W.
Variable py_repr : json -> string.

Lemma headers_eq (s : state W) :
  _get_headers py_repr s = (Ok (headers_in py_repr s), s).
Proof.
  unfold _get_headers, headers_in, bind, read_token, ret.
  destruct (truthy (_auth_token s)); reflexivity.
Qed.

Lemma fetch_orders_run (s : state W) :
  fetch_orders handle py_repr s
  = (orders_of_reply
       (fst (handle (orders_request (headers_in py_repr s)) (remote s))),
     after handle (orders_request (headers_in py_repr s)) s).
Proof.
  unfold fetch_orders. unfold bind at 1. rewrite headers_eq.
  unfold bind at 1. rewrite send_run.
  fold (after handle (orders_request (headers_in py_repr s)) s).
  destruct (fst (handle (orders_request (headers_in py_repr s)) (remote s)))
    as [res|]; [|reflexivity].
  simpl orders_of_reply.
  rewrite bind_lift. destruct (json_of res) as [data|]; [|reflexivity].
  rewrite bind_lift. simpl rbind.
  destruct (get data "success") as [ok|]; [|reflexivity]. simpl rbind.
  destruct (negb (truthy ok)); [reflexivity|].
  rewrite bind_lift. destruct (index data "data") as [d|]; [|reflexivity].
  rewrite bind_lift. simpl rbind.
  destruct (get_default d "orders" (JArr [])) as [orders|]; [|reflexivity].
  simpl rbind. destruct (negb (truthy orders)); [reflexivity|].
  rewrite bind_lift. destruct (iter orders); reflexivity.
Qed.

Lemma recommend_top_run (added_name : json) (co : co_table) (top_id : json)
  (top_data : entry) (rest : co_table) (s : state W) :
  sorted_products co = (top_id, top_data) :: rest ->
  recommend_top handle py_repr added_name co s
  = (recommendation_of_reply py_repr added_name top_id top_data
       (fst (handle (refresh_request py_repr top_id) (remote s))),
     after handle (refresh_request py_repr top_id) s).
Proof.
  intros Hs. unfold recommend_top. rewrite Hs.
  unfold bind at 1. rewrite send_run.
  fold (after handle (refresh_request py_repr top_id) s).
  destruct (fst (handle (refresh_request py_repr top_id) (remote s)))
    as [res|]; [|reflexivity].
  simpl recommendation_of_reply.
  rewrite bind_lift. destruct (json_of res) as [pd|]; [|reflexivity].
  rewrite bind_lift. simpl rbind.
  destruct (get pd "success") as [ok|]; [|reflexivity]. simpl rbind.
  destruct (truthy ok); [|reflexivity].
  rewrite bind_lift. destruct (index pd "data") as [d|]; [|reflexivity].
  rewrite bind_lift. simpl rbind.
  destruct (index d "product") as [product|]; [|reflexivity].
  rewrite bind_lift. simpl rbind.
  destruct (fresh_recommendation _ _ _ _ _); reflexivity.
Qed.

(** The deriver as the composition of its stages. *)
Lemma deriver_run (added_id : string) (added_name : json) (s : state W) :
  _get_recommendation_from_history handle py_repr added_id added_name s
  = match fetch_orders handle py_repr s with
    | (Ok (Some os), s1) =>
        match scan_orders added_id os [] with
        | Ok co =>
            if is_empty co then (Ok None, s1)
            else
              (absent_on_raise
                 (fst (recommend_top handle py_repr added_name co s1)),
               snd (recommend_top handle py_repr added_name co s1))
        | Raise _ => (Ok None, s1)
        end
    | (_, s1) => (Ok None, s1)
    end.
Proof.
  unfold _get_recommendation_from_history, try_except, recommendation_body.
  unfold bind at 1.
  destruct (fetch_orders handle py_repr s) as [[[os|]|e] s1]; try reflexivity.
  rewrite bind_lift.
  destruct (scan_orders added_id os []) as [co|e]; [|reflexivity].
  destruct (is_empty co); [reflexivity|].
  destruct (recommend_top handle py_repr added_name co s1) as [[v|e] s2];
    reflexivity.
Qed.

(** The deriver always returns: no exception reaches its caller. *)
Lemma deriver_total (added_id : string) (added_name : json) (s : state W) :
  exists v s',
    _get_recommendation_from_history handle py_repr added_id added_name s
    = (Ok v, s').
Proof.
  rewrite deriver_run.
  destruct (fetch_orders handle py_repr s) as [[[os|]|e] s1]; eauto.
  destruct (scan_orders added_id os []) as [co|e]; eauto.
  destruct (is_empty co); eauto.
  destruct (fst (recommend_top handle py_repr added_name co s1)); simpl; eauto.
Qed.

End Runs.

(** **** The table of co-purchased products *)

Section Table.

Lemma co_incr_keys (co : co_table) (k : json) :
  keys (co_incr co k) = keys co.
Proof.
  unfold keys. induction co as [|[k' e] rest IH]; simpl; [reflexivity|].
  destruct (same_or_eq k' k); simpl; [reflexivity|].
  rewrite IH. reflexivity.
Qed.

Lemma record_items_keys (added_id : string) (items : list json) :
  forall co co',
    keys_differ added_id co ->
    record_items added_id items co = Ok co' ->
    keys_differ added_id co'.
Proof.
  induction items as [|item rest IH]; simpl; intros co co' Hco H.
  - inversion H; subst; assumption.
  - destruct (item_field item "productId" "_id") as [id|]; simpl in H;
      [|discriminate].
    destruct (py_eq id (JStr added_id)) eqn:Hid; [eauto|].
    destruct (hashable id); simpl in H; [|discriminate].
    destruct (co_mem co id).
    + simpl in H. eapply IH; [|exact H].
      unfold keys_differ. rewrite co_incr_keys. exact Hco.
    + destruct (item_field item "name" "name") as [n|]; simpl in H;
        [|discriminate].
      destruct (item_field item "price" "price") as [p|]; simpl in H;
        [|discriminate].
      destruct (item_field item "image" "image") as [i|]; simpl in H;
        [|discriminate].
      destruct (item_field item "unit" "unit") as [u|]; simpl in H;
        [|discriminate].
      eapply IH; [|exact H].
      unfold keys_differ. rewrite co_incr_keys. unfold keys.
      rewrite map_app. apply Forall_app. split; [exact Hco|].
      constructor; [exact Hid | constructor].
Qed.

Lemma scan_orders_keys (added_id : string) (orders : list json) :
  forall co co',
    keys_differ added_id co ->
    scan_orders added_id orders co = Ok co' ->
    keys_differ added_id co'.
Proof.
  induction orders as [|order rest IH]; simpl; intros co co' Hco H.
  - inversion H; subst; assumption.
  - destruct (get_default order "items" (JArr [])) as [items|]; simpl in H;
      [|discriminate].
    destruct (iter items) as [its|]; simpl in H; [|discriminate].
    destruct (order_has_product added_id its) as [[|]|]; simpl in H;
      [|eauto|discriminate].
    destruct (record_items added_id its co) as [co1|] eqn:Hr; simpl in H;
      [|discriminate].
    eapply IH; [|exact H]. eapply record_items_keys; eassumption.
Qed.

(** Counting never touches a snapshot: the snapshots of the table before
    a scan are a prefix of the snapshots after it. *)
Lemma co_incr_snapshots (co : co_table) (k : json) :
  snapshots (co_incr co k) = snapshots co.
Proof.
  unfold snapshots. induction co as [|[k' e] rest IH]; simpl; [reflexivity|].
  destruct (same_or_eq k' k); simpl; [reflexivity|].
  rewrite IH. reflexivity.
Qed.

Lemma record_items_snapshots (added_id : string) (items : list json) :
  forall co co',
    record_items added_id items co = Ok co' ->
    exists extra, snapshots co' = snapshots co ++ extra.
Proof.
  induction items as [|item rest IH]; simpl; intros co co' H.
  - inversion H; subst. exists []. rewrite app_nil_r. reflexivity.
  - destruct (item_field item "productId" "_id") as [id|]; simpl in H;
      [|discriminate].
    destruct (py_eq id (JStr added_id)); [eauto|].
    destruct (hashable id); simpl in H; [|discriminate].
    destruct (co_mem co id).
    + simpl in H. apply IH in H. destruct H as [extra H].
      exists extra. rewrite H, co_incr_snapshots. reflexivity.
    + destruct (item_field item "name" "name") as [n|]; simpl in H;
        [|discriminate].
      destruct (item_field item "price" "price") as [p|]; simpl in H;
        [|discriminate].
      destruct (item_field item "image" "image") as [i|]; simpl in H;
        [|discriminate].
      destruct (item_field item "unit" "unit") as [u|]; simpl in H;
        [|discriminate].
      apply IH in H. destruct H as [extra H].
      rewrite co_incr_snapshots in H. unfold snapshots in H.
      rewrite map_app in H. rewrite <- app_assoc in H.
      eexists. exact H.
Qed.

Lemma scan_orders_snapshots (added_id : string) (orders : list json) :
  forall co co',
    scan_orders added_id orders co = Ok co' ->
    exists extra, snapshots co' = snapshots co ++ extra.
Proof.
  induction orders as [|order rest IH]; simpl; intros co co' H.
  - inversion H; subst. exists []. rewrite app_nil_r. reflexivity.
  - destruct (get_default order "items" (JArr [])) as [items|]; simpl in H;
      [|discriminate].
    destruct (iter items) as [its|]; simpl in H; [|discriminate].
    destruct (order_has_product added_id its) as [[|]|]; simpl in H;
      [|eauto|discriminate].
    destruct (record_items added_id its co) as [co1|] eqn:Hr; simpl in H;
      [|discriminate].
    apply record_items_snapshots in Hr. destruct Hr as [e1 Hr].
    apply IH in H. destruct H as [e2 H].
    exists (e1 ++ e2). rewrite H, Hr, app_assoc. reflexivity.
Qed.

Lemma scan_orders_app (added_id : string) (os1 os2 : list json) :
  forall co,
    scan_orders added_id (os1 ++ os2) co
    = (co1 <-? scan_orders added_id os1 co ;;
       scan_orders added_id os2 co1)%res.
Proof.
  induction os1 as [|order rest IH]; simpl; intros co; [reflexivity|].
  destruct (get_default order "items" (JArr [])) as [items|]; simpl;
    [|reflexivity].
  destruct (iter items) as [its|]; simpl; [|reflexivity].
  destruct (order_has_product added_id its) as [[|]|]; simpl;
    [|apply IH|reflexivity].
  destruct (record_items added_id its co) as [co1|]; simpl;
    [apply IH | reflexivity].
Qed.

(** First seen wins: the table scanned from a prefix of the history keeps
    its snapshots, in place, in the table scanned from all of it. *)
Lemma snapshots_first_seen (added_id : string) (os1 os2 : list json)
  (co1 co : co_table) :
  scan_orders added_id os1 [] = Ok co1 ->
  scan_orders added_id (os1 ++ os2) [] = Ok co ->
  exists extra, snapshots co = snapshots co1 ++ extra.
Proof.
  intros H1 H. rewrite scan_orders_app, H1 in H. simpl in H.
  exact (scan_orders_snapshots _ _ _ _ H).
Qed.

(** The sort keeps the entries. *)
Lemma insert_desc_In (x y : json * entry) (l : co_table) :
  In y (insert_desc x l) <-> y = x \/ In y l.
Proof.
  induction l as [|z l IH]; simpl.
  - intuition.
  - destruct (count (snd x) <? count (snd z)); simpl; rewrite ?IH; intuition.
Qed.

Lemma sorted_products_In (y : json * entry) (co : co_table) :
  In y (sorted_products co) <-> In y co.
Proof.
  induction co as [|x co IH]; simpl; [tauto|].
  rewrite insert_desc_In, IH. intuition.
Qed.

(** The head of the sorted list is the first entry of highest count. *)
Lemma sorted_products_head (co : co_table) :
  co <> [] ->
  exists pre top post rest,
    co = pre ++ top :: post
    /\ sorted_products co = top :: rest
    /\ (forall x, In x pre -> count (snd x) < count (snd top))
    /\ (forall x, In x post -> count (snd x) <= count (snd top)).
Proof.
  induction co as [|x co IH]; [congruence|]. intros _.
  destruct co as [|y co'].
  - exists [], x, [], []. simpl. repeat split; intros z [].
  - destruct IH as (pre & top & post & rest & Hco & Hs & Hpre & Hpost);
      [discriminate|].
    change (sorted_products (x :: y :: co'))
      with (insert_desc x (sorted_products (y :: co'))).
    rewrite Hs. simpl. destruct (count (snd x) <? count (snd top)) eqn:Hlt.
    + apply Z.ltb_lt in Hlt.
      exists (x :: pre), top, post, (insert_desc x rest).
      rewrite Hco. repeat split; auto.
      intros z [<- | Hz]; auto.
    + apply Z.ltb_ge in Hlt.
      exists [], x, (y :: co'), (top :: rest).
      repeat split; [intros z [] |].
      intros z Hz. rewrite Hco in Hz. apply in_app_or in Hz.
      destruct Hz as [Hz | [<- | Hz]].
      * apply Hpre in Hz. lia.
      * exact Hlt.
      * apply Hpost in Hz. lia.
Qed.

End Table.

(** **** What the deriver returns *)

Section Returned.
Context {W : Type}.
Variable handle : request -> W -> option response * W.
Variable py_repr : json -> string.

(** Both shapes of recommendation name the selected entry. *)
Lemma recommendation_names_top (added_name top_id : json) (top_data : entry)
  (reply : option response) (r : json) :
  recommendation_of_reply py_repr added_name top_id top_data reply
    = Ok (Some r) ->
  lookup_path r ["product"; "id"] = Some top_id
  /\ lookup_path r ["times_bought_together"] = Some (JInt (count top_data)).
Proof.
  unfold recommendation_of_reply. destruct reply as [res|]; [|discriminate].
  destruct (json_of res) as [pd|]; simpl; [|discriminate].
  destruct (get pd "success") as [ok|]; simpl; [|discriminate].
  destruct (truthy ok).
  - destruct (index pd "data") as [d|]; simpl; [|discriminate].
    destruct (index d "product") as [product|]; simpl; [|discriminate].
    unfold fresh_recommendation.
    destruct (discount_with_defaults product); simpl; [|discriminate].
    destruct (get product "name"); simpl; [|discriminate].
    destruct (get product "price"); simpl; [|discriminate].
    destruct (get product "mrp"); simpl; [|discriminate].
    destruct (get product "unit"); simpl; [|discriminate].
    destruct (get product "image"); simpl; [|discriminate].
    destruct (get_default product "stock" (JInt 0)); simpl; [|discriminate].
    destruct (py_gt _ _); simpl; [|discriminate].
    destruct (get_default product _ _); simpl; [|discriminate].
    intros H; inversion H; split; reflexivity.
  - intros H; inversion H; split; reflexivity.
Qed.

(** Whenever the deriver returns a recommendation, it went through all
    three stages, and the recommendation names the head of the sorted
    table. *)
Lemma deriver_some (added_id : string) (added_name : json)
  (s s' : state W) (r : json) :
  _get_recommendation_from_history handle py_repr added_id added_name s
    = (Ok (Some r), s') ->
  exists os s1 co top_id top_data rest,
    fetch_orders handle py_repr s = (Ok (Some os), s1)
    /\ scan_orders added_id os [] = Ok co
    /\ sorted_products co = (top_id, top_data) :: rest
    /\ lookup_path r ["product"; "id"] = Some top_id
    /\ lookup_path r ["times_bought_together"]
       = Some (JInt (count top_data)).
Proof.
  rewrite deriver_run.
  destruct (fetch_orders handle py_repr s) as [[[os|]|e] s1];
    try discriminate.
  destruct (scan_orders added_id os []) as [co|e] eqn:Hscan;
    [|discriminate].
  destruct (is_empty co) eqn:Hne; [discriminate|].
  destruct (sorted_products co) as [|[top_id top_data] rest] eqn:Hs.
  { destruct co as [|x co]; [discriminate|].
    assert (Hin : In x (sorted_products (x :: co)))
      by (apply sorted_products_In; left; reflexivity).
    rewrite Hs in Hin. destruct Hin. }
  rewrite (recommend_top_run _ _ _ _ _ _ _ _ Hs). simpl.
  intros H.
  destruct (recommendation_of_reply _ _ _ _ _) as [[r'|]|] eqn:Hr;
    simpl in H; try discriminate.
  inversion H; subst r' s'.
  apply recommendation_names_top in Hr.
  exists os, s1, co, top_id, top_data, rest. tauto.
Qed.

(** C5.  A recommendation the deriver returns never names the product
    that was just added: its [product.id] is not equal to the added
    identifier. *)
Theorem recommendation_differs_from_added (added_id : string)
  (added_name : json) (s s' : state W) (r : json) :
  _get_recommendation_from_history handle py_repr added_id added_name s
    = (Ok (Some r), s') ->
  exists id,
    lookup_path r ["product"; "id"] = Some id
    /\ py_eq id (JStr added_id) = false
    /\ id <> JStr added_id.
Proof.
  intros H. apply deriver_some in H.
  destruct H as (os & s1 & co & top_id & top_data & rest & _ & Hscan & Hs
                 & Hid & _).
  exists top_id. split; [exact Hid|].
  assert (Hk : keys_differ added_id co).
  { eapply scan_orders_keys; [|exact Hscan]. constructor. }
  assert (Hin : In (top_id, top_data) co).
  { apply sorted_products_In. rewrite Hs. left. reflexivity. }
  unfold keys_differ in Hk. rewrite Forall_forall in Hk.
  assert (He : py_eq top_id (JStr added_id) = false).
  { apply Hk. unfold keys. apply (in_map fst) in Hin. exact Hin. }
  split; [exact He|].
  intros ->. simpl in He. rewrite String.eqb_refl in He. discriminate.
Qed.

(** C7.  When the reply to the refresh request reports no success, the
    deriver returns the recommendation built from the cached snapshot of
    the selected entry: its product carries the identifier and the cached
    name, price, unit and image, and no [discount_percent].  The cached
    snapshot is the first one seen: whatever table a prefix of the history
    gives, its snapshots stay, in place, in the table of the whole. *)
Theorem cached_recommendation_on_failed_refresh (added_id : string)
  (added_name : json) (s s1 : state W) (os : list json) (co : co_table)
  (top_id : json) (top_data : entry) (rest : co_table) (res : response)
  (product_data ok : json) :
  fetch_orders handle py_repr s = (Ok (Some os), s1) ->
  scan_orders added_id os [] = Ok co ->
  sorted_products co = (top_id, top_data) :: rest ->
  fst (handle (refresh_request py_repr top_id) (remote s1)) = Some res ->
  parsed res = Some product_data ->
  get product_data "success" = Ok ok ->
  truthy ok = false ->
  exists r s',
    _get_recommendation_from_history handle py_repr added_id added_name s
      = (Ok (Some r), s')
    /\ lookup_path r ["product"]
       = Some (JObj [("id", top_id);
                     ("name", name top_data);
                     ("price", price top_data);
                     ("unit", unit top_data);
                     ("image", image top_data)])
    /\ lookup_path r ["product"; "discount_percent"] = None
    /\ lookup_path r ["times_bought_together"]
       = Some (JInt (count top_data))
    /\ (forall os1 os2 co1,
          os = os1 ++ os2 ->
          scan_orders added_id os1 [] = Ok co1 ->
          exists extra, snapshots co = snapshots co1 ++ extra).
Proof.
  intros Hf Hscan Hs Hres Hp Hok Hfalse.
  rewrite deriver_run, Hf, Hscan.
  assert (Hne : is_empty co = false).
  { destruct co; [discriminate | reflexivity]. }
  rewrite Hne, (recommend_top_run _ _ _ _ _ _ _ _ Hs), Hres. simpl.
  unfold json_of. rewrite Hp. simpl. rewrite Hok. simpl. rewrite Hfalse.
  simpl. eexists; eexists. split; [reflexivity|].
  split; [reflexivity|]. split; [reflexivity|]. split; [reflexivity|].
  intros os1 os2 co1 -> H1.
  exact (snapshots_first_seen _ _ _ _ _ H1 Hscan).
Qed.

End Returned.

(** **** Dictionaries after an update *)

Lemma dict_get_set_same (kv : list (string * json)) (k : string) (v : json) :
  dict_get (dict_set kv k v) k = Some v.
Proof.
  induction kv as [|[k' v'] rest IH]; simpl.
  - rewrite String.eqb_refl. reflexivity.
  - destruct (String.eqb k' k) eqn:E; simpl; rewrite E; auto.
Qed.

Lemma dict_get_set_other (kv : list (string * json)) (k k' : string)
  (v : json) :
  k <> k' -> dict_get (dict_set kv k v) k' = dict_get kv k'.
Proof.
  intros Hne. induction kv as [|[k0 v0] rest IH]; simpl.
  - destruct (String.eqb k k') eqn:E; [|reflexivity].
    apply String.eqb_eq in E. contradiction.
  - destruct (String.eqb k0 k) eqn:E; simpl.
    + apply String.eqb_eq in E. subst k0.
      destruct (String.eqb k k') eqn:E'; [|reflexivity].
      apply String.eqb_eq in E'. contradiction.
    + rewrite IH. reflexivity.
Qed.

(** **** The confirmed call *)

Section Confirmed.
Context {W : Type}.
Variable handle : request -> W -> option response * W.
Variable py_repr : json -> string.
Variable grouped_of_float : spec_float -> string.

Lemma confirmed_run (product_id : string) (quantity : Z) (s s1 : state W)
  (n : json) (res : response) (result : list (string * json)) (ok : json) :
  lookup_product_name handle product_id s = (Ok n, s1) ->
  fst (handle (add_item_request product_id quantity (headers_in py_repr s1))
         (remote s1)) = Some res ->
  parsed res = Some (JObj result) ->
  dict_get result "success" = Some ok ->
  let s2 := after handle
              (add_item_request product_id quantity (headers_in py_repr s1))
              s1 in
  add_to_cart handle py_repr grouped_of_float product_id quantity true s
  = if truthy ok && truthy n then
      match _get_recommendation_from_history handle py_repr product_id n s2
      with
      | (Ok recommendation, s3) =>
          (Ok (RDict (annotate result recommendation)), s3)
      | (Raise e, s3) => (Raise e, s3)
      end
    else (Ok (RDict (JObj result)), s2).
Proof.
  intros Hl Hres Hp Hok s2.
  change (add_to_cart handle py_repr grouped_of_float product_id quantity
            true s)
    with (add_to_cart_confirmed handle py_repr product_id quantity s).
  unfold add_to_cart_confirmed.
  unfold bind at 1. rewrite Hl.
  unfold bind at 1. rewrite headers_eq.
  unfold bind at 1. rewrite send_run, Hres. subst s2. unfold after.
  rewrite bind_lift. unfold json_of. rewrite Hp.
  rewrite bind_lift. simpl get. rewrite Hok.
  destruct (truthy ok && truthy n); [|reflexivity].
  unfold bind at 1.
  match goal with
  | |- context [_get_recommendation_from_history _ _ _ _ ?st] =>
      destruct (_get_recommendation_from_history handle py_repr product_id n
                  st) as [[[r|]|e] s3]
  end; reflexivity.
Qed.

Lemma get_is_dict (j v : json) (k : string) :
  get j k = Ok v -> exists kv, j = JObj kv.
Proof. destruct j; simpl; try discriminate. eauto. Qed.

Lemma truthy_get_present (j v : json) (k : string) :
  get j k = Ok v -> truthy v = true ->
  exists kv, j = JObj kv /\ dict_get kv k = Some v.
Proof.
  intros Hg Ht. destruct (get_is_dict _ _ _ Hg) as [kv ->].
  exists kv. split; [reflexivity|]. simpl in Hg.
  destruct (dict_get kv k); inversion Hg; subst; [reflexivity|].
  discriminate.
Qed.

Lemma annotate_keeps_success (result : list (string * json))
  (recommendation : option json) :
  get (annotate result recommendation) "success" = get (JObj result) "success".
Proof.
  destruct recommendation as [r|]; simpl;
    rewrite ?dict_get_set_other by discriminate; reflexivity.
Qed.

(** C8.  The deriver never raises: it always returns, and a transport
    or parse failure of the history request or of the refresh request
    makes it return [None].  A confirmed [add_to_cart] whose POST is
    answered with success returns that answer, with its [success] value,
    whatever the deriver did. *)
Theorem recommendation_failures_are_absent (product_id : string)
  (quantity : Z) :
  (forall added_name s,
     exists v s',
       _get_recommendation_from_history handle py_repr product_id
         added_name s = (Ok v, s'))
  /\ (forall added_name s,
        let reply := fst (handle (orders_request (headers_in py_repr s))
                            (remote s)) in
        reply = None \/ (exists res, reply = Some res /\ parsed res = None) ->
        fst (_get_recommendation_from_history handle py_repr product_id
               added_name s) = Ok None)
  /\ (forall added_name s os s1 co top_id top_data rest,
        fetch_orders handle py_repr s = (Ok (Some os), s1) ->
        scan_orders product_id os [] = Ok co ->
        sorted_products co = (top_id, top_data) :: rest ->
        let reply := fst (handle (refresh_request py_repr top_id)
                            (remote s1)) in
        reply = None \/ (exists res, reply = Some res /\ parsed res = None) ->
        fst (_get_recommendation_from_history handle py_repr product_id
               added_name s) = Ok None)
  /\ (forall added_name s,
        (exists e, fst (fetch_orders handle py_repr s) = Raise e)
        \/ (exists os s1,
              fetch_orders handle py_repr s = (Ok (Some os), s1)
              /\ ((exists e, scan_orders product_id os [] = Raise e)
                  \/ exists co e,
                       scan_orders product_id os [] = Ok co
                       /\ fst (recommend_top handle py_repr added_name co s1)
                          = Raise e)) ->
        fst (_get_recommendation_from_history handle py_repr product_id
               added_name s) = Ok None)
  /\ (forall s n s1 res result ok,
        lookup_product_name handle product_id s = (Ok n, s1) ->
        fst (handle (add_item_request product_id quantity
                       (headers_in py_repr s1)) (remote s1)) = Some res ->
        parsed res = Some result ->
        get result "success" = Ok ok ->
        truthy ok = true ->
        exists r s',
          add_to_cart handle py_repr grouped_of_float product_id quantity
            true s = (Ok (RDict r), s')
          /\ get r "success" = Ok ok).
Proof.
  split; [|split; [|split; [|split]]].
  - intros added_name s. apply deriver_total.
  - intros added_name s reply Hfail. rewrite deriver_run, fetch_orders_run.
    fold reply.
    destruct Hfail as [-> | (res & -> & Hp)]; simpl; [reflexivity|].
    unfold json_of. rewrite Hp. reflexivity.
  - intros added_name s os s1 co top_id top_data rest Hf Hscan Hs reply Hfail.
    rewrite deriver_run, Hf, Hscan.
    assert (Hne : is_empty co = false).
    { destruct co; [discriminate | reflexivity]. }
    rewrite Hne, (recommend_top_run _ _ _ _ _ _ _ _ Hs). fold reply.
    destruct Hfail as [-> | (res & -> & Hp)]; simpl; [reflexivity|].
    unfold json_of. rewrite Hp. reflexivity.
  - intros added_name s Hraise. rewrite deriver_run.
    destruct Hraise as [[e He] | (os & s1 & Hf & Hraise)].
    + destruct (fetch_orders handle py_repr s) as [[v|e'] s1];
        simpl in He; [discriminate | reflexivity].
    + rewrite Hf.
      destruct Hraise as [[e ->] | (co & e & -> & Hr)]; [reflexivity|].
      destruct (is_empty co); [reflexivity|]. rewrite Hr. reflexivity.
  - intros s n s1 res result ok Hl Hres Hp Hok Ht.
    destruct (truthy_get_present _ _ _ Hok Ht) as (kv & -> & Hd).
    rewrite (confirmed_run product_id quantity s s1 n res kv ok Hl Hres Hp Hd).
    destruct (truthy ok && truthy n).
    + match goal with
      | |- context [_get_recommendation_from_history _ _ _ _ ?st] =>
          destruct (deriver_total handle py_repr product_id n st)
            as (v & s3 & ->)
      end.
      eexists; eexists. split; [reflexivity|].
      rewrite annotate_keeps_success. exact Hok.
    + eexists; eexists. split; [reflexivity | exact Hok].
Qed.

(** C6 (as amended).  When the POST of a confirmed call is answered with
    success and the product name obtained beforehand is true (the looked-up
    name, or ["this item"] when the lookup raised), the response carries
    [has_recommendation]: true next to the attached recommendation when
    the deriver returned one, false when it returned none. *)
Theorem has_recommendation_flag (product_id : string) (quantity : Z)
  (s s1 : state W) (n : json) (res : response) (result ok : json) :
  lookup_product_name handle product_id s = (Ok n, s1) ->
  truthy n = true ->
  fst (handle (add_item_request product_id quantity (headers_in py_repr s1))
         (remote s1)) = Some res ->
  parsed res = Some result ->
  get result "success" = Ok ok ->
  truthy ok = true ->
  exists r s',
    add_to_cart handle py_repr grouped_of_float product_id quantity true s
      = (Ok (RDict r), s')
    /\ ((exists recommendation,
           lookup_path r ["has_recommendation"] = Some (JBool true)
           /\ lookup_path r ["recommendation"] = Some recommendation)
        \/ (lookup_path r ["has_recommendation"] = Some (JBool false)
            /\ lookup_path r ["recommendation"]
               = lookup_path result ["recommendation"])).
Proof.
  intros Hl Hn Hres Hp Hok Ht.
  destruct (truthy_get_present _ _ _ Hok Ht) as (kv & -> & Hd).
  rewrite (confirmed_run product_id quantity s s1 n res kv ok Hl Hres Hp Hd).
  rewrite Ht, Hn. simpl andb. cbv iota.
  match goal with
  | |- context [_get_recommendation_from_history _ _ _ _ ?st] =>
      destruct (deriver_total handle py_repr product_id n st)
        as (v & s3 & ->)
  end.
  eexists; eexists. split; [reflexivity|].
  destruct v as [r|]; simpl.
  - left. exists r. rewrite dict_get_set_same.
    rewrite dict_get_set_other by discriminate.
    rewrite dict_get_set_same. split; reflexivity.
  - right. rewrite dict_get_set_same.
    rewrite dict_get_set_other by discriminate. split; reflexivity.
Qed.

End Confirmed.

End Deriver.

(** *** Counting co-occurrences *)

Module Counting.
Import Py Http Facade Obs Steps Deriver.

Lemma py_eq_str (k : json) (id : string) :
  py_eq k (JStr id) = true -> k = JStr id.
Proof.
  destruct k as [|b|n|f|s|l|kv]; simpl; try discriminate.
  intros H. apply String.eqb_eq in H. congruence.
Qed.

Lemma same_or_eq_str (k : json) (id : string) :
  same_or_eq k (JStr id) = py_eq k (JStr id).
Proof. unfold same_or_eq. simpl. rewrite andb_false_r. reflexivity. Qed.

Lemma py_eq_str_str (a b : string) :
  py_eq (JStr a) (JStr b) = String.eqb a b.
Proof. reflexivity. Qed.

Lemma tcount_incr (co : co_table) (id k : string) :
  tcount (co_incr co (JStr id)) k
  = tcount co k
    + (if String.eqb id k && co_mem co (JStr id) then 1 else 0).
Proof.
  induction co as [|[k' e] rest IH]; simpl.
  - rewrite andb_false_r. reflexivity.
  - rewrite same_or_eq_str.
    destruct (py_eq k' (JStr id)) eqn:Hid; simpl.
    + apply py_eq_str in Hid. subst k'. rewrite py_eq_str_str.
      rewrite andb_true_r. destruct (String.eqb id k); lia.
    + rewrite IH. destruct (py_eq k' (JStr k)) eqn:Hk; [|reflexivity].
      apply py_eq_str in Hk. subst k'. rewrite py_eq_str_str in Hid.
      rewrite String.eqb_sym in Hid. rewrite Hid. simpl. lia.
Qed.

Lemma tcount_append_zero (co : co_table) (key : json) (e : entry)
  (k : string) :
  count e = 0 -> tcount (co ++ [(key, e)]) k = tcount co k.
Proof.
  intros He. induction co as [|[k' e'] rest IH]; simpl.
  - rewrite He. destruct (py_eq key (JStr k)); reflexivity.
  - rewrite IH. reflexivity.
Qed.

Lemma co_mem_append_self (co : co_table) (id : string) (e : entry) :
  co_mem (co ++ [(JStr id, e)]) (JStr id) = true.
Proof.
  unfold co_mem. rewrite existsb_app. simpl. rewrite same_or_eq_str.
  simpl. rewrite String.eqb_refl. apply orb_true_r.
Qed.

Lemma co_mem_false_not_in (co : co_table) (id : string) :
  co_mem co (JStr id) = false -> ~ In (JStr id) (keys co).
Proof.
  unfold co_mem, keys. intros H Hin. apply in_map_iff in Hin.
  destruct Hin as ([k e] & Hk & Hin). simpl in Hk. subst k.
  assert (Hex : existsb (fun p => same_or_eq (fst p) (JStr id)) co = true).
  { apply existsb_exists. exists (JStr id, e). split; [exact Hin|].
    simpl. rewrite same_or_eq_str. simpl. apply String.eqb_refl. }
  congruence.
Qed.

(** In a table with distinct keys every entry is the one its key finds. *)
Lemma tcount_of_entry (co : co_table) (id : string) (e : entry) :
  NoDup (keys co) -> In (JStr id, e) co -> tcount co id = count e.
Proof.
  induction co as [|[k' e'] rest IH]; simpl; intros Hnd Hin; [destruct Hin|].
  inversion Hnd as [|? ? Hnotin Hnd']; subst.
  destruct Hin as [Heq | Hin].
  - inversion Heq; subst. simpl. rewrite String.eqb_refl. reflexivity.
  - destruct (py_eq k' (JStr id)) eqn:Hk.
    + apply py_eq_str in Hk. subst k'. exfalso. apply Hnotin.
      apply (in_map fst) in Hin. exact Hin.
    + apply IH; assumption.
Qed.

Lemma tcount_positive_entry (co : co_table) (k : string) :
  tcount co k <> 0 -> exists e, In (JStr k, e) co /\ count e = tcount co k.
Proof.
  induction co as [|[k' e'] rest IH]; simpl; intros H; [congruence|].
  destruct (py_eq k' (JStr k)) eqn:Hk.
  - apply py_eq_str in Hk. subst k'. exists e'. auto.
  - destruct (IH H) as (e & Hin & He). exists e. auto.
Qed.

(** **** Well-formed lines through the scan *)

Lemma line_id (item : json) (id : string) :
  line_of item id -> item_field item "productId" "_id" = Ok (JStr id).
Proof.
  assert (Ht : forall x, x <> "" -> truthy (JStr x) = true).
  { intros x Hx. simpl. destruct (String.eqb x "") eqn:E; [|reflexivity].
    apply String.eqb_eq in E. contradiction. }
  intros (kv & -> & Hne & [[Hid _] | [Hid (p & Hp & Hpid)]]);
    unfold item_field; simpl.
  - rewrite Hid. simpl rbind. rewrite (Ht id Hne). reflexivity.
  - destruct Hid as [-> | ->]; simpl; rewrite Hp; simpl; rewrite Hpid;
      reflexivity.
Qed.

Lemma line_field (item : json) (id f f' : string) :
  line_of item id -> exists v, item_field item f f' = Ok v.
Proof.
  intros (kv & -> & _ & H). unfold item_field. simpl.
  destruct (truthy _); simpl; [eauto|].
  destruct H as [[_ [-> | (p & -> & _)]] | [_ (p & -> & _)]]; simpl; eauto.
Qed.

Lemma lines_contain (added_id : string) (items : list json)
  (ids : list string) :
  Forall2 line_of items ids ->
  order_has_product added_id items = Ok (contains added_id ids).
Proof.
  induction 1 as [|item id items ids Hl _ IH]; simpl; [reflexivity|].
  destruct Hl as (kv & -> & Hne & [[Hid Hp] | [Hid (p & Hp & Hpid)]]);
    simpl.
  - rewrite Hid. simpl.
    destruct (String.eqb id added_id) eqn:E; [reflexivity|].
    destruct Hp as [-> | (p & -> & [Hpid | Hpid])]; simpl;
      rewrite ?Hpid; simpl; rewrite ?E; exact IH.
  - destruct Hid as [-> | ->]; simpl; rewrite Hp; simpl; rewrite Hpid;
      simpl; destruct (String.eqb id added_id); [reflexivity | exact IH |
                                                 reflexivity | exact IH].
Qed.

Lemma table_ok_incr (co : co_table) (k : json) :
  table_ok co -> table_ok (co_incr co k).
Proof. unfold table_ok. rewrite co_incr_keys. auto. Qed.

Lemma table_ok_append (co : co_table) (id : string) (e : entry) :
  table_ok co -> co_mem co (JStr id) = false ->
  table_ok (co ++ [(JStr id, e)]).
Proof.
  intros [Hnd Hstr] Hmem. unfold table_ok.
  assert (Hk : keys (co ++ [(JStr id, e)]) = keys co ++ [JStr id])
    by (unfold keys; rewrite map_app; reflexivity).
  rewrite Hk. split.
  - apply (NoDup_Add (Add_app (JStr id) (keys co) [])).
    rewrite app_nil_r. split; [exact Hnd|].
    apply co_mem_false_not_in. exact Hmem.
  - apply Forall_app. split; [exact Hstr|]. constructor; eauto.
Qed.

(** The inner loop on well-formed lines: it succeeds, keeps the table
    well formed, and adds to each count the lines that name the key. *)
Lemma record_items_ok (added_id : string) (items : list json)
  (ids : list string) :
  Forall2 line_of items ids ->
  forall co,
    table_ok co ->
    exists co',
      record_items added_id items co = Ok co'
      /\ table_ok co'
      /\ forall k, k <> added_id ->
           tcount co' k = tcount co k + occurrences k ids.
Proof.
  induction 1 as [|item id items ids Hl _ IH]; intros co Hco.
  - exists co. simpl. split; [|split]; auto. intros; lia.
  - simpl record_items. rewrite (line_id _ _ Hl). simpl rbind.
    destruct (String.eqb id added_id) eqn:Hadded.
    + apply String.eqb_eq in Hadded. subst id.
      destruct (IH co Hco) as (co' & Hr & Hok & Hc).
      exists co'. split; [|split]; auto.
      intros k Hk. rewrite (Hc k Hk). simpl.
      destruct (String.eqb added_id k) eqn:E; [|lia].
      apply String.eqb_eq in E. congruence.
    + destruct (co_mem co (JStr id)) eqn:Hmem.
      * simpl rbind.
        destruct (IH (co_incr co (JStr id)) (table_ok_incr _ _ Hco))
          as (co' & Hr & Hok & Hc).
        exists co'. split; [|split]; auto.
        intros k Hk. rewrite (Hc k Hk), tcount_incr, Hmem. simpl.
        rewrite andb_true_r. lia.
      * destruct (line_field item id "name" "name" Hl) as [n ->].
        destruct (line_field item id "price" "price" Hl) as [p ->].
        destruct (line_field item id "image" "image" Hl) as [i ->].
        destruct (line_field item id "unit" "unit" Hl) as [u ->].
        simpl rbind.
        set (co1 := co ++ [(JStr id, mkEntry 0 n p i u)]).
        assert (Hco1 : table_ok co1) by (apply table_ok_append; assumption).
        destruct (IH (co_incr co1 (JStr id)) (table_ok_incr _ _ Hco1))
          as (co' & Hr & Hok & Hc).
        exists co'. split; [|split]; auto.
        intros k Hk. rewrite (Hc k Hk), tcount_incr. unfold co1.
        rewrite co_mem_append_self, tcount_append_zero by reflexivity.
        simpl. rewrite andb_true_r. lia.
Qed.

(** The outer loop on a well-formed history. *)
Lemma scan_orders_ok (added_id : string) (orders : list json)
  (idss : list (list string)) :
  history_of orders idss ->
  forall co,
    table_ok co ->
    exists co',
      scan_orders added_id orders co = Ok co'
      /\ table_ok co'
      /\ forall k, k <> added_id ->
           tcount co' k = tcount co k + cooccurrences added_id k idss.
Proof.
  induction 1 as [|order ids orders idss Ho _ IH]; intros co Hco.
  - exists co. simpl. split; [|split]; auto. intros; lia.
  - destruct Ho as (kv & items & -> & Hitems & Hlines).
    simpl scan_orders. rewrite Hitems. simpl rbind.
    rewrite (lines_contain added_id _ _ Hlines). simpl rbind.
    destruct (contains added_id ids) eqn:Hc.
    + destruct (record_items_ok added_id _ _ Hlines co Hco)
        as (co1 & -> & Hco1 & Hc1).
      simpl rbind.
      destruct (IH co1 Hco1) as (co' & Hr & Hok & Hc').
      exists co'. split; [|split]; auto.
      intros k Hk. rewrite (Hc' k Hk), (Hc1 k Hk). simpl. rewrite Hc. lia.
    + destruct (IH co Hco) as (co' & Hr & Hok & Hc').
      exists co'. split; [|split]; auto.
      intros k Hk. rewrite (Hc' k Hk). simpl. rewrite Hc. lia.
Qed.

(** **** The order in which products are met *)

Lemma existsb_eqb_In (id : string) (l : list string) :
  existsb (String.eqb id) l = true <-> In id l.
Proof.
  rewrite existsb_exists. split.
  - intros (x & Hin & E). apply String.eqb_eq in E. subst. exact Hin.
  - intros H. exists id. split; [exact H | apply String.eqb_refl].
Qed.

Lemma first_seen_cons (id : string) (ids seen : list string) :
  first_seen (id :: ids) seen = first_seen ids (note seen id).
Proof. reflexivity. Qed.

Lemma first_seen_extends (ids seen : list string) :
  exists ext, first_seen ids seen = seen ++ ext.
Proof.
  revert seen. induction ids as [|id ids IH]; intros seen.
  - exists []. symmetry. apply app_nil_r.
  - rewrite first_seen_cons. unfold note.
    destruct (existsb (String.eqb id) seen).
    + apply IH.
    + destruct (IH (seen ++ [id])) as [ext E]. exists (id :: ext).
      rewrite E, <- app_assoc. reflexivity.
Qed.

Lemma first_seen_In (ids seen : list string) (k : string) :
  In k (first_seen ids seen) <-> In k seen \/ In k ids.
Proof.
  revert seen. induction ids as [|id ids IH]; intros seen.
  - simpl. tauto.
  - rewrite first_seen_cons, IH. unfold note. simpl.
    destruct (existsb (String.eqb id) seen) eqn:E.
    + apply existsb_eqb_In in E. split; [tauto|].
      intros [H | [<- | H]]; tauto.
    + rewrite in_app_iff. simpl. tauto.
Qed.

Lemma first_seen_NoDup (ids seen : list string) :
  NoDup seen -> NoDup (first_seen ids seen).
Proof.
  revert seen. induction ids as [|id ids IH]; intros seen Hnd;
    [exact Hnd|].
  rewrite first_seen_cons. apply IH. unfold note.
  destruct (existsb (String.eqb id) seen) eqn:E; [exact Hnd|].
  apply (NoDup_Add (Add_app id seen [])). rewrite app_nil_r.
  split; [exact Hnd|]. intros Hin. apply existsb_eqb_In in Hin. congruence.
Qed.

Lemma first_seen_app (a b seen : list string) :
  first_seen (a ++ b) seen = first_seen b (first_seen a seen).
Proof. unfold first_seen. apply fold_left_app. Qed.

(** Two splits of a list at the first occurrence of [x] agree. *)
Lemma split_unique {A} (x : A) (p q p' q' : list A) :
  p ++ x :: q = p' ++ x :: q' -> ~ In x p -> ~ In x p' -> p = p'.
Proof.
  revert p'. induction p as [|a p IH]; intros [|a' p'] E Hp Hp'; simpl in *.
  - reflexivity.
  - inversion E; subst. tauto.
  - inversion E; subst. tauto.
  - inversion E; subst. f_equal. apply (IH p'); tauto.
Qed.

(** Where [B] stands in the list of first appearances, it stands in the
    list itself: what comes before its first appearance was first seen
    before it. *)
Lemma first_seen_split (l p q : list string) (B : string) :
  first_seen l [] = p ++ B :: q ->
  exists pre post,
    l = pre ++ B :: post
    /\ (forall k, In k pre -> In k p)
    /\ (forall k, In k post -> In k (p ++ B :: q)).
Proof.
  intros E.
  assert (Hnd : NoDup (p ++ B :: q)).
  { rewrite <- E. apply first_seen_NoDup. constructor. }
  assert (HB : In B l).
  { assert (H : In B (first_seen l [])).
    { rewrite E. apply in_or_app. right. left. reflexivity. }
    apply first_seen_In in H. destruct H as [[]|H]. exact H. }
  assert (Hsplit : exists pre post, l = pre ++ B :: post /\ ~ In B pre).
  { clear E Hnd. induction l as [|a l IH]; [destruct HB|].
    destruct (string_dec a B) as [->|Hne].
    - exists [], l. split; [reflexivity | intros []].
    - destruct HB as [->|HB]; [congruence|].
      destruct (IH HB) as (pre & post & -> & Hn).
      exists (a :: pre), post. split; [reflexivity|].
      intros [->|H]; [congruence | tauto]. }
  destruct Hsplit as (pre & post & -> & Hn).
  exists pre, post. split; [reflexivity|].
  rewrite first_seen_app, first_seen_cons in E.
  assert (HnB : ~ In B (first_seen pre [])).
  { intros H. apply first_seen_In in H. destruct H as [[]|H]. tauto. }
  unfold note in E.
  destruct (existsb (String.eqb B) (first_seen pre [])) eqn:Ex.
  { apply existsb_eqb_In in Ex. tauto. }
  destruct (first_seen_extends post (first_seen pre [] ++ [B])) as [ext Ee].
  rewrite Ee, <- app_assoc in E. simpl in E.
  assert (Hp : first_seen pre [] = p).
  { apply (split_unique B _ ext _ q E HnB).
    apply NoDup_remove_2 in Hnd. intros H. apply Hnd.
    apply in_or_app. left. exact H. }
  split.
  - intros k Hk. rewrite <- Hp. apply first_seen_In. right. exact Hk.
  - intros k Hk.
    assert (H : In k (first_seen (pre ++ B :: post) [])).
    { apply first_seen_In. right. apply in_or_app. right. right. exact Hk. }
    rewrite first_seen_app, first_seen_cons in H.
    unfold note in H. rewrite Ex, Ee, <- app_assoc in H. simpl in H.
    rewrite E in H. exact H.
Qed.

Lemma co_mem_keys (co : co_table) (ks : list string) (id : string) :
  keys co = map JStr ks ->
  co_mem co (JStr id) = existsb (String.eqb id) ks.
Proof.
  unfold co_mem, keys. revert ks.
  induction co as [|[k e] co IH]; intros [|k' ks] E; simpl in *;
    try discriminate; [reflexivity|].
  inversion E; subst. rewrite same_or_eq_str, py_eq_str_str.
  rewrite (String.eqb_sym k' id). f_equal. apply IH. assumption.
Qed.

Lemma keys_append (co : co_table) (k : json) (e : entry) :
  keys (co ++ [(k, e)]) = keys co ++ [k].
Proof. unfold keys. rewrite map_app. reflexivity. Qed.

(** The inner loop appends the products it had not yet met, in the order
    of the lines. *)
Lemma record_items_order (added_id : string) (items : list json)
  (ids : list string) :
  Forall2 line_of items ids ->
  forall co co' ks,
    keys co = map JStr ks ->
    record_items added_id items co = Ok co' ->
    keys co' = map JStr (first_seen (others added_id ids) ks).
Proof.
  induction 1 as [|item id items ids Hl _ IH]; intros co co' ks Hk Hr.
  - simpl in Hr. inversion Hr; subst. exact Hk.
  - simpl record_items in Hr. rewrite (line_id _ _ Hl) in Hr.
    simpl rbind in Hr. unfold others. simpl filter.
    fold (others added_id ids).
    destruct (String.eqb id added_id) eqn:Hadded; simpl negb; cbv iota.
    + exact (IH _ _ _ Hk Hr).
    + rewrite first_seen_cons. unfold note.
      rewrite (co_mem_keys co ks id Hk) in Hr.
      destruct (existsb (String.eqb id) ks).
      * simpl rbind in Hr. eapply IH; [|exact Hr].
        rewrite co_incr_keys. exact Hk.
      * destruct (line_field item id "name" "name" Hl) as [n En].
        destruct (line_field item id "price" "price" Hl) as [p Ep].
        destruct (line_field item id "image" "image" Hl) as [i Ei].
        destruct (line_field item id "unit" "unit" Hl) as [u Eu].
        rewrite En, Ep, Ei, Eu in Hr. simpl rbind in Hr.
        eapply IH; [|exact Hr].
        rewrite co_incr_keys, keys_append, Hk, map_app. reflexivity.
Qed.

(** The outer loop: the keys of the table are the companions in the
    order of their first appearance. *)
Lemma scan_orders_order (added_id : string) (orders : list json)
  (idss : list (list string)) :
  history_of orders idss ->
  forall co co' ks,
    keys co = map JStr ks ->
    scan_orders added_id orders co = Ok co' ->
    keys co' = map JStr (first_seen (companions added_id idss) ks).
Proof.
  induction 1 as [|order ids orders idss Ho _ IH]; intros co co' ks Hk Hs.
  - simpl in Hs. inversion Hs; subst. exact Hk.
  - destruct Ho as (kv & items & -> & Hitems & Hlines).
    simpl scan_orders in Hs. rewrite Hitems in Hs. simpl rbind in Hs.
    rewrite (lines_contain added_id _ _ Hlines) in Hs. simpl rbind in Hs.
    unfold companions. simpl flat_map. fold (companions added_id idss).
    destruct (contains added_id ids).
    + destruct (record_items added_id items co) as [co1|] eqn:Hr;
        simpl rbind in Hs; [|discriminate].
      rewrite first_seen_app.
      apply (IH _ _ _ (record_items_order _ _ _ Hlines _ _ _ Hk Hr) Hs).
    + simpl app. exact (IH _ _ _ Hk Hs).
Qed.

Lemma others_In (added_id k : string) (ids : list string) :
  In k (others added_id ids) <-> In k ids /\ k <> added_id.
Proof.
  unfold others. rewrite filter_In. rewrite negb_true_iff.
  rewrite String.eqb_neq. tauto.
Qed.

Lemma companions_differ (added_id k : string) (idss : list (list string)) :
  In k (companions added_id idss) -> k <> added_id.
Proof.
  unfold companions. rewrite in_flat_map. intros (ids & _ & H).
  destruct (contains added_id ids); [|destruct H].
  apply others_In in H. tauto.
Qed.

Lemma occurrences_nonneg (k : string) (ids : list string) :
  0 <= occurrences k ids.
Proof.
  induction ids as [|id ids IH]; simpl; [lia|].
  destruct (String.eqb id k); lia.
Qed.

Lemma occurrences_positive_In (k : string) (ids : list string) :
  0 < occurrences k ids -> In k ids.
Proof.
  induction ids as [|id ids IH]; simpl; [lia|].
  destruct (String.eqb id k) eqn:E.
  - apply String.eqb_eq in E. auto.
  - intros H. right. apply IH. lia.
Qed.

(** A product counted at least once is among the companions. *)
Lemma counted_is_companion (added_id k : string) (idss : list (list string)) :
  k <> added_id -> 0 < cooccurrences added_id k idss ->
  In k (companions added_id idss).
Proof.
  intros Hk. induction idss as [|ids idss IH]; simpl; [lia|]. intros H.
  unfold companions. simpl. fold (companions added_id idss).
  apply in_or_app.
  destruct (contains added_id ids).
  - destruct (Z.ltb_spec 0 (occurrences k ids)) as [Hp|Hz].
    + left. apply others_In. split; [|exact Hk].
      apply occurrences_positive_In. exact Hp.
    + right. apply IH. lia.
  - right. apply IH. lia.
Qed.

Lemma contains_In (k : string) (ids : list string) :
  contains k ids = true <-> In k ids.
Proof.
  unfold contains. rewrite existsb_exists. split.
  - intros (x & Hin & E). apply String.eqb_eq in E. subst. exact Hin.
  - intros H. exists k. split; [exact H | apply String.eqb_refl].
Qed.

(** In an order that lists no product twice, a product is on one line or
    on none. *)
Lemma occurrences_once (k : string) (ids : list string) :
  NoDup ids -> occurrences k ids = if contains k ids then 1 else 0.
Proof.
  induction 1 as [|id ids Hn Hnd IH]; [reflexivity|].
  simpl occurrences. unfold contains. simpl existsb.
  fold (contains k ids). rewrite IH.
  destruct (String.eqb id k) eqn:E; [|reflexivity].
  apply String.eqb_eq in E. subst id.
  destruct (contains k ids) eqn:C; [|reflexivity].
  apply contains_In in C. contradiction.
Qed.

(** Then the lines counted are the orders that list both products. *)
Lemma cooccurrences_orders (added_id k : string) (idss : list (list string)) :
  Forall (@NoDup string) idss ->
  cooccurrences added_id k idss = orders_with added_id k idss.
Proof.
  induction 1 as [|ids idss Hnd _ IH]; [reflexivity|].
  simpl. rewrite IH, (occurrences_once k ids Hnd).
  destruct (contains added_id ids); reflexivity.
Qed.

Section Selection.
Context {W : Type}.
Variable handle : request -> W -> option response * W.
Variable py_repr : json -> string.

Lemma entry_in_part (part : co_table) (ks : list string) (k : string) :
  map JStr ks = keys part -> In k ks ->
  exists e, In (JStr k, e) part.
Proof.
  intros E Hin. apply (in_map JStr) in Hin. rewrite E in Hin.
  unfold keys in Hin. apply in_map_iff in Hin.
  destruct Hin as ([k' e] & Hk & Hin). simpl in Hk. subst k'. eauto.
Qed.

(** On any history, well formed or not, for which the scan returns a
    table: the entry selected has the highest count and stands first
    among the entries of that count in insertion order, and the deriver
    returns the recommendation built for it from the reply to the refresh
    request (none if that raises). *)
Lemma selected_entry_first_of_highest_count (added_id : string)
  (added_name : json) (s s1 : state W) (os : list json) (co : co_table) :
  fetch_orders handle py_repr s = (Ok (Some os), s1) ->
  scan_orders added_id os [] = Ok co ->
  co <> [] ->
  exists pre top post,
    co = pre ++ top :: post
    /\ (forall x, In x pre -> count (snd x) < count (snd top))
    /\ (forall x, In x post -> count (snd x) <= count (snd top))
    /\ fst (_get_recommendation_from_history handle py_repr added_id
              added_name s)
       = absent_on_raise
           (recommendation_of_reply py_repr added_name (fst top) (snd top)
              (fst (handle (refresh_request py_repr (fst top)) (remote s1))))
    /\ (forall r,
          fst (_get_recommendation_from_history handle py_repr added_id
                 added_name s) = Ok (Some r) ->
          lookup_path r ["product"; "id"] = Some (fst top)
          /\ lookup_path r ["times_bought_together"]
             = Some (JInt (count (snd top)))).
Proof.
  intros Hf Hscan Hne.
  destruct (sorted_products_head co Hne)
    as (pre & [top_id top_data] & post & rest & Hco & Hs & Hpre & Hpost).
  exists pre, (top_id, top_data), post.
  assert (Hrun :
    fst (_get_recommendation_from_history handle py_repr added_id
           added_name s)
    = absent_on_raise
        (recommendation_of_reply py_repr added_name top_id top_data
           (fst (handle (refresh_request py_repr top_id) (remote s1))))).
  { rewrite deriver_run, Hf, Hscan.
    assert (He : is_empty co = false)
      by (destruct co; [congruence | reflexivity]).
    rewrite He, (recommend_top_run _ _ _ _ _ _ _ _ Hs). reflexivity. }
  split; [exact Hco|]. split; [exact Hpre|]. split; [exact Hpost|].
  split; [exact Hrun|].
  intros r Hr. rewrite Hrun in Hr. simpl fst in *. simpl snd in *.
  destruct (recommendation_of_reply _ _ _ _ _) as [[r'|]|] eqn:E;
    simpl in Hr; try discriminate.
  inversion Hr; subst r'.
  exact (recommendation_names_top _ _ _ _ _ _ E).
Qed.

(** On a history that fits the data model the selection reads in lines
    and orders: [B] is the companion of highest count met first. *)
Lemma selection_on_history (added_id : string)
  (added_name : json) (s s1 : state W) (os : list json)
  (idss : list (list string)) :
  fetch_orders handle py_repr s = (Ok (Some os), s1) ->
  history_of os idss ->
  companions added_id idss <> [] ->
  exists pre B post top_data,
    companions added_id idss = pre ++ B :: post
    /\ (forall k, In k pre ->
          cooccurrences added_id k idss < cooccurrences added_id B idss)
    /\ (forall k, In k post ->
          cooccurrences added_id k idss <= cooccurrences added_id B idss)
    /\ count top_data = cooccurrences added_id B idss
    /\ fst (_get_recommendation_from_history handle py_repr added_id
              added_name s)
       = absent_on_raise
           (recommendation_of_reply py_repr added_name (JStr B) top_data
              (fst (handle (refresh_request py_repr (JStr B)) (remote s1))))
    /\ (forall r,
          fst (_get_recommendation_from_history handle py_repr added_id
                 added_name s) = Ok (Some r) ->
          lookup_path r ["product"; "id"] = Some (JStr B)
          /\ lookup_path r ["times_bought_together"]
             = Some (JInt (cooccurrences added_id B idss)))
    /\ (forall B' n,
          B' <> added_id ->
          cooccurrences added_id B' idss = n ->
          0 < n ->
          (forall k, k <> B' -> k <> added_id ->
                     cooccurrences added_id k idss < n) ->
          B = B')
    /\ (Forall (@NoDup string) idss ->
        forall B' n,
          B' <> added_id ->
          orders_with added_id B' idss = n ->
          0 < n ->
          (forall k, k <> B' -> k <> added_id ->
                     orders_with added_id k idss < n) ->
          B = B' /\ cooccurrences added_id B idss = n).
Proof.
  intros Hf Hh Hne.
  destruct (scan_orders_ok added_id os idss Hh [])
    as (co & Hscan & [Hnd Hstr] & Hc); [split; constructor|].
  pose proof (scan_orders_order added_id os idss Hh [] co [] eq_refl Hscan)
    as Hkeys.
  assert (Hco_ne : co <> []).
  { intros ->. simpl in Hkeys. symmetry in Hkeys.
    apply map_eq_nil in Hkeys.
    destruct (companions added_id idss) as [|x l] eqn:E; [congruence|].
    assert (Hx : In x (first_seen (x :: l) [])).
    { apply first_seen_In. right. left. reflexivity. }
    rewrite Hkeys in Hx. destruct Hx. }
  destruct (sorted_products_head co Hco_ne)
    as (pre & [top_id top_data] & post & rest & Hco & Hs & Hpre & Hpost).
  assert (Hsplit : exists p B q,
             first_seen (companions added_id idss) [] = p ++ B :: q
             /\ map JStr p = keys pre /\ top_id = JStr B
             /\ map JStr q = keys post).
  { rewrite Hco in Hkeys. unfold keys in Hkeys. rewrite map_app in Hkeys.
    simpl in Hkeys. symmetry in Hkeys.
    apply map_eq_app in Hkeys. destruct Hkeys as (p & q0 & Hfs & Hp & Hq0).
    apply map_eq_cons in Hq0. destruct Hq0 as (B & q & -> & HB & Hq).
    exists p, B, q. auto. }
  destruct Hsplit as (p & B & q & Hfs & Hp & -> & Hq).
  destruct (first_seen_split _ _ _ _ Hfs) as (pre' & post' & HL & Hin1 & Hin2).
  assert (Hcount : forall k e,
            In k (companions added_id idss) -> In (JStr k, e) co ->
            count e = cooccurrences added_id k idss).
  { intros k e Hk Hin. apply companions_differ in Hk.
    rewrite <- (tcount_of_entry co k e Hnd Hin). rewrite (Hc k Hk).
    reflexivity. }
  assert (HBin : In B (companions added_id idss)).
  { rewrite HL. apply in_or_app. right. left. reflexivity. }
  assert (HBco : In (JStr B, top_data) co).
  { rewrite Hco. apply in_or_app. right. left. reflexivity. }
  pose proof (Hcount B top_data HBin HBco) as HcB. simpl in Hpre, Hpost.
  assert (Hbefore : forall k, In k pre' ->
            cooccurrences added_id k idss < cooccurrences added_id B idss).
  { intros k Hk. destruct (entry_in_part pre p k Hp (Hin1 k Hk)) as [e He].
    rewrite <- HcB, <- (Hcount k e).
    - exact (Hpre _ He).
    - rewrite HL. apply in_or_app. left. exact Hk.
    - rewrite Hco. apply in_or_app. left. exact He. }
  assert (Hall : forall k, In k (companions added_id idss) ->
            cooccurrences added_id k idss <= cooccurrences added_id B idss).
  { intros k Hk.
    assert (Hfk : In k (p ++ B :: q)).
    { rewrite <- Hfs. apply first_seen_In. right. exact Hk. }
    apply in_app_or in Hfk. destruct Hfk as [Hkp | [<- | Hkq]].
    - destruct (entry_in_part pre p k Hp Hkp) as [e He].
      rewrite <- HcB, <- (Hcount k e Hk).
      + pose proof (Hpre _ He). simpl in *. lia.
      + rewrite Hco. apply in_or_app. left. exact He.
    - lia.
    - destruct (entry_in_part post q k Hq Hkq) as [e He].
      rewrite <- HcB, <- (Hcount k e Hk).
      + exact (Hpost _ He).
      + rewrite Hco. apply in_or_app. right. right. exact He. }
  assert (Hrun :
    fst (_get_recommendation_from_history handle py_repr added_id
           added_name s)
    = absent_on_raise
        (recommendation_of_reply py_repr added_name (JStr B) top_data
           (fst (handle (refresh_request py_repr (JStr B)) (remote s1))))).
  { rewrite deriver_run, Hf, Hscan.
    assert (He : is_empty co = false)
      by (destruct co; [congruence | reflexivity]).
    rewrite He, (recommend_top_run _ _ _ _ _ _ _ _ Hs). reflexivity. }
  assert (Hunique : forall B' n,
            B' <> added_id -> cooccurrences added_id B' idss = n -> 0 < n ->
            (forall k, k <> B' -> k <> added_id ->
                       cooccurrences added_id k idss < n) ->
            B = B').
  { intros B' n HB' Hn Hpos Hothers.
    destruct (string_dec B B') as [E|E]; [exact E|]. exfalso.
    pose proof (Hothers B E (companions_differ _ _ _ HBin)) as Hlt.
    assert (HB'in : In B' (companions added_id idss)).
    { apply counted_is_companion; [exact HB' | lia]. }
    pose proof (Hall B' HB'in). lia. }
  exists pre', B, post', top_data.
  split; [exact HL|]. split; [exact Hbefore|].
  split.
  { intros k Hk. apply Hall. rewrite HL. apply in_or_app. right. right.
    exact Hk. }
  split; [exact HcB|]. split; [exact Hrun|].
  split.
  { intros r Hr. rewrite Hrun in Hr.
    destruct (recommendation_of_reply _ _ _ _ _) as [[r'|]|] eqn:E;
      simpl in Hr; try discriminate.
    inversion Hr; subst r'. rewrite <- HcB.
    exact (recommendation_names_top _ _ _ _ _ _ E). }
  split; [exact Hunique|].
  intros Hdup B' n HB' Hn Hpos Hothers.
  assert (E : B = B').
  { apply (Hunique B' n HB'); [|exact Hpos|].
    - rewrite cooccurrences_orders; assumption.
    - intros k Hk1 Hk2. rewrite cooccurrences_orders by assumption. auto. }
  split; [exact E|]. subst B'. rewrite cooccurrences_orders; assumption.
Qed.

(** C2 (as amended).  For every order history the deriver gets, the entry
    it selects from the table of co-purchased products has the highest
    count and stands first among the entries of that count in insertion
    order; the deriver returns the recommendation built for it from the
    reply to the refresh request (none if that raises), and a returned
    recommendation carries the entry's identifier and, as
    [times_bought_together], its count.  On a history whose lines name
    their product as the data model has it, the count of a product is the
    number of lines naming it in the orders that contain the added
    product, and the insertion order is the order in which the products
    are met: every product met before the first line of the selected
    product [B] has a strictly smaller count, and no product has a larger
    one.  A product whose count is above every other is the one selected;
    and when no order lists a product twice the counts are numbers of
    orders: if [B'] is in [n] orders with the added product and every
    other product in fewer (B in 3, C in 1), then [B'] is selected, with
    count [n]. *)
Theorem recommendation_is_first_most_frequent (added_id : string)
  (added_name : json) (s s1 : state W) (os : list json) :
  fetch_orders handle py_repr s = (Ok (Some os), s1) ->
  (forall co,
     scan_orders added_id os [] = Ok co ->
     co <> [] ->
     exists pre top post,
       co = pre ++ top :: post
       /\ (forall x, In x pre -> count (snd x) < count (snd top))
       /\ (forall x, In x post -> count (snd x) <= count (snd top))
       /\ fst (_get_recommendation_from_history handle py_repr added_id
                 added_name s)
          = absent_on_raise
              (recommendation_of_reply py_repr added_name (fst top)
                 (snd top)
                 (fst (handle (refresh_request py_repr (fst top))
                         (remote s1))))
       /\ (forall r,
             fst (_get_recommendation_from_history handle py_repr added_id
                    added_name s) = Ok (Some r) ->
             lookup_path r ["product"; "id"] = Some (fst top)
             /\ lookup_path r ["times_bought_together"]
                = Some (JInt (count (snd top)))))
  /\ (forall idss,
        history_of os idss ->
        companions added_id idss <> [] ->
        exists pre B post top_data,
          companions added_id idss = pre ++ B :: post
          /\ (forall k, In k pre ->
                cooccurrences added_id k idss
                < cooccurrences added_id B idss)
          /\ (forall k, In k post ->
                cooccurrences added_id k idss
                <= cooccurrences added_id B idss)
          /\ count top_data = cooccurrences added_id B idss
          /\ fst (_get_recommendation_from_history handle py_repr added_id
                    added_name s)
             = absent_on_raise
                 (recommendation_of_reply py_repr added_name (JStr B)
                    top_data
                    (fst (handle (refresh_request py_repr (JStr B))
                            (remote s1))))
          /\ (forall r,
                fst (_get_recommendation_from_history handle py_repr
                       added_id added_name s) = Ok (Some r) ->
                lookup_path r ["product"; "id"] = Some (JStr B)
                /\ lookup_path r ["times_bought_together"]
                   = Some (JInt (cooccurrences added_id B idss)))
          /\ (forall B' n,
                B' <> added_id ->
                cooccurrences added_id B' idss = n ->
                0 < n ->
                (forall k, k <> B' -> k <> added_id ->
                           cooccurrences added_id k idss < n) ->
                B = B')
          /\ (Forall (@NoDup string) idss ->
              forall B' n,
                B' <> added_id ->
                orders_with added_id B' idss = n ->
                0 < n ->
                (forall k, k <> B' -> k <> added_id ->
                           orders_with added_id k idss < n) ->
                B = B' /\ cooccurrences added_id B idss = n)).
Proof.
  intros Hf. split.
  - intros co Hscan Hne.
    exact (selected_entry_first_of_highest_count added_id added_name s s1
             os co Hf Hscan Hne).
  - intros idss Hh Hne.
    exact (selection_on_history added_id added_name s s1 os idss Hf Hh Hne).
Qed.

End Selection.

End Counting.

(** *** Runs on the sample services *)

Module Runs.
Import Py Http Facade Obs Steps Deriver Counting.

Lemma line_of_line (id l_name : string) (l_price : Z) :
  id <> "" -> line_of (Scenario.line id l_name l_price) id.
Proof.
  intros Hne. eexists. split; [reflexivity|]. split; [exact Hne|].
  left. split; [reflexivity|]. left. reflexivity.
Qed.

(** A line that names its product in the nested [product] only. *)
Example nested_line_is_line :
  line_of (JObj [("quantity", JInt 2);
                 ("product", JObj [("_id", JStr "B");
                                   ("name", JStr "Bread")])]) "B".
Proof.
  eexists. split; [reflexivity|]. split; [discriminate|].
  right. split; [left; reflexivity|].
  eexists. split; reflexivity.
Qed.

Lemma order_of_order (lines : list json) (ids : list string) :
  Forall2 line_of lines ids -> order_of (Scenario.order lines) ids.
Proof.
  intros H. eexists; eexists. split; [reflexivity|].
  split; [reflexivity | exact H].
Qed.

(** Solve [Forall2 line_of] and [history_of] on the sample data. *)
Ltac sample_history :=
  repeat first
    [ apply Forall2_nil
    | apply Forall2_cons
    | apply order_of_order
    | apply line_of_line; discriminate ].

Lemma history_ids_of_history :
  history_of
    [Scenario.order [Scenario.la; Scenario.lc];
     Scenario.order [Scenario.lb; Scenario.la];
     Scenario.order [Scenario.lc; Scenario.lb];
     Scenario.order [Scenario.la; Scenario.lb];
     Scenario.order [Scenario.lb; Scenario.la]]
    Scenario.history_ids.
Proof. unfold history_of, Scenario.history_ids. sample_history. Qed.

(** Fewer than three lines of the sample history name a product other
    than B next to A. *)
Lemma others_below_three (k : string) :
  k <> "B" -> k <> "A" -> cooccurrences "A" k Scenario.history_ids < 3.
Proof.
  intros HB HA.
  change (cooccurrences "A" k Scenario.history_ids)
    with (occurrences k ["A"; "C"]
          + (occurrences k ["B"; "A"]
             + (0 + (occurrences k ["A"; "B"]
                     + (occurrences k ["B"; "A"] + 0))))).
  change (occurrences k ["A"; "C"])
    with ((if String.eqb "A" k then 1 else 0)
          + ((if String.eqb "C" k then 1 else 0) + 0)).
  change (occurrences k ["B"; "A"])
    with ((if String.eqb "B" k then 1 else 0)
          + ((if String.eqb "A" k then 1 else 0) + 0)).
  change (occurrences k ["A"; "B"])
    with ((if String.eqb "A" k then 1 else 0)
          + ((if String.eqb "B" k then 1 else 0) + 0)).
  destruct (String.eqb "B" k) eqn:EB;
    [apply String.eqb_eq in EB; congruence|].
  destruct (String.eqb "A" k) eqn:EA;
    [apply String.eqb_eq in EA; congruence|].
  destruct (String.eqb "C" k); lia.
Qed.

(** No order of the sample history lists a product twice. *)
Lemma history_ids_distinct : Forall (@NoDup string) Scenario.history_ids.
Proof.
  unfold Scenario.history_ids.
  repeat constructor; simpl; intuition discriminate.
Qed.

(** Fewer than three of its orders list a product other than B next
    to A. *)
Lemma others_in_fewer_orders (k : string) :
  k <> "B" -> k <> "A" -> orders_with "A" k Scenario.history_ids < 3.
Proof.
  intros HB HA.
  rewrite <- (cooccurrences_orders "A" k _ history_ids_distinct).
  exact (others_below_three k HB HA).
Qed.

(** On the sample shop, adding A recommends B, bought together 3 times. *)
Lemma recommendation_is_first_most_frequent_witness :
  exists r,
    fst (_get_recommendation_from_history Scenario.shop Scenario.repr_stub
           "A" (JStr "Apple") Scenario.start) = Ok (Some r)
    /\ lookup_path r ["product"; "id"] = Some (JStr "B")
    /\ lookup_path r ["times_bought_together"] = Some (JInt 3).
Proof.
  edestruct (recommendation_is_first_most_frequent Scenario.shop
               Scenario.repr_stub "A" (JStr "Apple") Scenario.start)
    as [_ Hsel]; [reflexivity|].
  destruct (Hsel Scenario.history_ids history_ids_of_history)
    as (pre & B & post & top_data & _ & _ & _ & _ & _ & Hr & _ & HB);
    [discriminate|].
  destruct (HB history_ids_distinct "B" 3) as [Hid Hcount];
    [discriminate | reflexivity | lia | exact others_in_fewer_orders |].
  eexists. split; [vm_compute; reflexivity|].
  match goal with
  | |- lookup_path ?r _ = _ /\ _ =>
      destruct (Hr r) as [H1 H2]; [vm_compute; reflexivity|]
  end.
  rewrite Hid in H1. rewrite Hcount in H2. split; assumption.
Defined.

(** C2, as stated, fails: A is with B in three orders and with C in one
    order, which lists C on four lines; adding A recommends C, with
    [times_bought_together] 4. *)
Lemma repeated_lines_outvote_orders :
  history_of Scenario.bulk_orders Scenario.bulk_ids
  /\ orders_with "A" "B" Scenario.bulk_ids = 3
  /\ orders_with "A" "C" Scenario.bulk_ids = 1
  /\ exists r,
       fst (_get_recommendation_from_history Scenario.bulk Scenario.repr_stub
              "A" (JStr "Apple") Scenario.start) = Ok (Some r)
       /\ lookup_path r ["product"; "id"] = Some (JStr "C")
       /\ lookup_path r ["times_bought_together"] = Some (JInt 4).
Proof.
  split.
  { unfold history_of, Scenario.bulk_orders, Scenario.bulk_ids.
    sample_history. }
  split; [reflexivity|]. split; [reflexivity|].
  eexists. split; [vm_compute; reflexivity|]. split; reflexivity.
Qed.

(** On the sample shop the recommendation for A names B, not A. *)
Lemma recommendation_differs_from_added_witness :
  exists r id,
    fst (_get_recommendation_from_history Scenario.shop Scenario.repr_stub
           "A" (JStr "Apple") Scenario.start) = Ok (Some r)
    /\ lookup_path r ["product"; "id"] = Some id
    /\ id <> JStr "A".
Proof.
  edestruct (recommendation_differs_from_added Scenario.shop
               Scenario.repr_stub "A" (JStr "Apple") Scenario.start)
    as (id & Hid & _ & Hne); [reflexivity|].
  eexists; exists id. split; [reflexivity|]. split; assumption.
Defined.

(** With an empty catalogue the refresh of B reports no success, and
    the recommendation is built from the line first seen for B. *)
Lemma cached_recommendation_on_failed_refresh_witness :
  exists r,
    fst (_get_recommendation_from_history Scenario.stale Scenario.repr_stub
           "A" (JStr "Apple") Scenario.start) = Ok (Some r)
    /\ lookup_path r ["product"]
       = Some (JObj [("id", JStr "B"); ("name", JStr "Bread");
                     ("price", JInt 40); ("unit", JStr "1 pc");
                     ("image", JStr "http://cdn.test/B.png")])
    /\ lookup_path r ["product"; "discount_percent"] = None.
Proof.
  edestruct (cached_recommendation_on_failed_refresh Scenario.stale
               Scenario.repr_stub "A" (JStr "Apple") Scenario.start)
    as (r & s' & Hrun & Hproduct & Hdiscount & _);
    [reflexivity | reflexivity | reflexivity | reflexivity | reflexivity
     | reflexivity | reflexivity |].
  exists r. rewrite Hrun. split; [reflexivity|].
  split; [exact Hproduct | exact Hdiscount].
Defined.

(** With the history endpoint unreachable the deriver returns [None]
    and the confirmed call still returns the successful answer. *)
Lemma recommendation_failures_are_absent_witness :
  fst (_get_recommendation_from_history Scenario.offline Scenario.repr_stub
         "A" (JStr "Apple") Scenario.start) = Ok None
  /\ exists r s',
       add_to_cart Scenario.offline Scenario.repr_stub Scenario.grouped_stub
         "A" 1 true Scenario.start = (Ok (RDict r), s')
       /\ get r "success" = Ok (JBool true)
       /\ lookup_path r ["has_recommendation"] = Some (JBool false).
Proof.
  destruct (recommendation_failures_are_absent Scenario.offline
              Scenario.repr_stub Scenario.grouped_stub "A" 1)
    as (_ & Hhistory & _ & _ & Hcart).
  split.
  - apply Hhistory. left. reflexivity.
  - edestruct (Hcart Scenario.start) as (r & s' & Hrun & Hsuccess);
      [reflexivity | reflexivity | reflexivity | reflexivity | reflexivity |].
    exists r, s'. split; [exact Hrun|]. split; [exact Hsuccess|].
    vm_compute in Hrun. inversion Hrun. reflexivity.
Defined.

(** On the sample shop the confirmed call for A attaches the
    recommendation and sets the flag. *)
Lemma has_recommendation_flag_witness :
  exists r s',
    add_to_cart Scenario.shop Scenario.repr_stub Scenario.grouped_stub
      "A" 2 true Scenario.start = (Ok (RDict r), s')
    /\ lookup_path r ["has_recommendation"] = Some (JBool true).
Proof.
  edestruct (has_recommendation_flag Scenario.shop Scenario.repr_stub
               Scenario.grouped_stub "A" 2 Scenario.start)
    as (r & s' & Hrun & Hflag);
    [reflexivity | reflexivity | reflexivity | reflexivity | reflexivity
     | reflexivity |].
  exists r, s'. split; [exact Hrun|].
  destruct Hflag as [(rec & Hf & _) | [Hf _]]; [exact Hf|].
  vm_compute in Hrun. inversion Hrun; subst r. discriminate Hf.
Defined.

(** C6, as stated, fails: the catalogue answers the product lookup without
    success, the POST succeeds, and the response carries neither a
    recommendation nor the flag. *)
Lemma has_recommendation_absent_when_unnamed :
  exists r s',
    add_to_cart Scenario.unlisted Scenario.repr_stub Scenario.grouped_stub
      "A" 1 true Scenario.start = (Ok (RDict r), s')
    /\ get r "success" = Ok (JBool true)
    /\ lookup_path r ["has_recommendation"] = None
    /\ lookup_path r ["recommendation"] = None.
Proof.
  eexists; eexists. split; [vm_compute; reflexivity|].
  repeat split.
Qed.

End Runs.

(** *** Image attachment *)

Module Images.
Import Py Http Facade Obs Steps.

Section Fetch.
Context {W : Type}.
Variable handle : request -> W -> option response * W.
Variable py_repr : json -> string.
Variable grouped_of_float : spec_float -> string.

(** White space beyond ASCII is stripped too: a no-break space before the
    type and a next-line character after it. *)
Example strip_unicode_space :
  strip (String (ascii_of_N 194) (String (ascii_of_N 160) " image/png")
         ++ String (ascii_of_N 194) (String (ascii_of_N 133) " "))
  = "image/png".
Proof. reflexivity. Qed.

Lemma fetch_image_run (url : string) (s : state W) :
  url <> "" ->
  _fetch_image_as_content handle (JStr url) s
  = (Ok (image_of_reply (fst (handle (get_request url) (remote s)))),
     mkState (snd (handle (get_request url) (remote s)))
       (issued s ++ [get_request url]) (_auth_token s)).
Proof.
  intros Hne. unfold _fetch_image_as_content.
  change (truthy (JStr url)) with (negb (String.eqb url "")).
  destruct (String.eqb url "") eqn:E; [apply String.eqb_eq in E; congruence|].
  change (negb (negb false)) with false. cbv iota.
  unfold try_except, bind, lift. cbv beta iota.
  rewrite send_run.
  destruct (fst (handle (get_request url) (remote s))) as [res|];
    [|reflexivity].
  unfold image_of_reply, label, declared_type, ret.
  destruct (negb (status_code res =? 200)); [reflexivity|].
  destruct (Z.of_nat (String.length (content res)) >? 1048576);
    [reflexivity|].
  destruct (startswith _ "image/"); reflexivity.
Qed.

(** The fetch never raises. *)
Lemma fetch_image_total (image_url : json) (s : state W) :
  exists v s', _fetch_image_as_content handle image_url s = (Ok v, s').
Proof.
  unfold _fetch_image_as_content. destruct (negb (truthy image_url)).
  - eexists; eexists; reflexivity.
  - unfold try_except.
    match goal with |- context [match ?c s with _ => _ end] =>
      destruct (c s) as [[v|e] s1] end; eexists; eexists; reflexivity.
Qed.

Lemma result_json_with_images (images : list ImageContent) (data : json) :
  result_json (with_images images data) = Some data.
Proof.
  unfold with_images. destruct images as [|i images]; [reflexivity|].
  simpl. induction images as [|i' images IH]; [reflexivity|]. exact IH.
Qed.

(** The dict [search_products] returns next to the images is the dict it
    returns without them. *)
Lemma search_json_unchanged (query : string) (page limit : Z)
  (s s' : state W) (v : tool_result) :
  search_products handle query page limit true s = (Ok v, s') ->
  exists data,
    result_json v = Some data
    /\ fst (search_products handle query page limit false s)
       = Ok (RDict data).
Proof.
  intros H. unfold search_products in *.
  step H as res Eres. step H as data Edata. step H as ok Eok.
  unfold bind at 1. rewrite Eres.
  rewrite bind_lift, Edata. rewrite bind_lift, Eok.
  destruct (truthy ok).
  - step H as d Ed. step H as products Ep. step H as ps Eps.
    step H as formatted Ef. step H as d' Ed'. step H as data' Edata'.
    step H as top Etop. step H as tops Etops. step H as images Eimages.
    finish_ret H.
    rewrite bind_lift, Ed. rewrite bind_lift, Ep. rewrite bind_lift, Eps.
    rewrite bind_lift, Ef. rewrite bind_lift, Ed'.
    rewrite bind_lift, Edata'.
    exists data'. split; [apply result_json_with_images | reflexivity].
  - finish_ret H. exists data. split; reflexivity.
Qed.

(** The listing tools return the upstream reply itself next to the
    images. *)
Lemma attach_images_json (show_images : bool) (data : json)
  (s s' : state W) (v : tool_result) :
  attach_images handle show_images data s = (Ok v, s') ->
  result_json v = Some data.
Proof.
  intros H. unfold attach_images in H. destruct show_images.
  - step H as ok Eok. destruct (truthy ok).
    + step H as d Ed. step H as all_products Ea. step H as products Ep.
      step H as ps Eps. step H as images Ei. finish_ret H.
      apply result_json_with_images.
    + finish_ret H. reflexivity.
  - finish_ret H. reflexivity.
Qed.

Lemma listing_json_unchanged (s s' : state W) (v : tool_result) :
  (exists category_id page limit show,
     get_products_by_category handle category_id page limit show s
     = (Ok v, s'))
  \/ (exists category min_price max_price dietary brand in_stock sort_by
             page limit show,
        filter_products handle category min_price max_price dietary brand
          in_stock sort_by page limit show s = (Ok v, s'))
  \/ (exists limit show,
        get_featured_products handle limit show s = (Ok v, s')) ->
  exists request res data,
    fst (handle request (remote s)) = Some res
    /\ parsed res = Some data
    /\ result_json v = Some data.
Proof.
  intros [(category_id & page & limit & show & H)
         | [(category & min_price & max_price & dietary & brand & in_stock
             & sort_by & page & limit & show & H)
           | (limit & show & H)]];
    [unfold get_products_by_category in H
    | unfold filter_products in H
    | unfold get_featured_products in H];
    step H as res Eres; step H as data Edata;
    apply attach_images_json in H;
    apply send_ok in Eres; apply json_of_ok in Edata;
    (eexists; exists res, data; split; [exact Eres | split; assumption]).
Qed.

(** What the image fetch does guarantee.  It never raises.  A payload
    larger than 1 MiB, a status other than 200 or a failed request yields
    no image; a reply with status 200 within the limit yields an image
    whatever content type it declares, labelled [image/jpeg] when the
    declared type is not an image type.  The dict returned with the images
    is the one returned without them: the reshaped reply for
    [search_products], a dict for [add_to_cart], the upstream reply for
    the three listings. *)
Theorem image_attachment_degrades (url : string) (s : state W) :
  url <> "" ->
  let reply := fst (handle (get_request url) (remote s)) in
  (forall image_url s0,
     exists v s', _fetch_image_as_content handle image_url s0 = (Ok v, s'))
  /\ (forall res,
        reply = Some res ->
        Z.of_nat (String.length (content res)) > 1048576 ->
        fst (_fetch_image_as_content handle (JStr url) s) = Ok None)
  /\ (reply = None \/ (exists res, reply = Some res /\ status_code res <> 200)
      -> fst (_fetch_image_as_content handle (JStr url) s) = Ok None)
  /\ (forall res,
        reply = Some res ->
        status_code res = 200 ->
        Z.of_nat (String.length (content res)) <= 1048576 ->
        fst (_fetch_image_as_content handle (JStr url) s)
        = Ok (Some (mkImageContent "image" (b64encode (content res))
                      (if startswith (declared_type res) "image/"
                       then declared_type res else "image/jpeg"))))
  /\ (forall query page limit v s',
        search_products handle query page limit true s = (Ok v, s') ->
        exists data,
          result_json v = Some data
          /\ fst (search_products handle query page limit false s)
             = Ok (RDict data))
  /\ (forall product_id quantity v s',
        add_to_cart handle py_repr grouped_of_float product_id quantity
          false s = (Ok v, s') ->
        (exists data ok, v = RDict data /\ get data "success" = Ok ok
                         /\ truthy ok = false)
        \/ exists message product,
             result_json v = Some (proposal product_id message product))
  /\ (forall v s',
        (exists category_id page limit show,
           get_products_by_category handle category_id page limit show s
           = (Ok v, s'))
        \/ (exists category min_price max_price dietary brand in_stock
                   sort_by page limit show,
              filter_products handle category min_price max_price dietary
                brand in_stock sort_by page limit show s = (Ok v, s'))
        \/ (exists limit show,
              get_featured_products handle limit show s = (Ok v, s')) ->
        exists request res data,
          fst (handle request (remote s)) = Some res
          /\ parsed res = Some data
          /\ result_json v = Some data).
Proof.
  intros Hne reply. split; [|split; [|split; [|split; [|split; [|split]]]]].
  - intros image_url s0. apply fetch_image_total.
  - intros res Hr Hbig. rewrite (fetch_image_run url s Hne). fold reply.
    rewrite Hr. simpl.
    destruct (negb (status_code res =? 200)); [reflexivity|].
    destruct (Z.of_nat (String.length (content res)) >? 1048576) eqn:E;
      [reflexivity|].
    rewrite Z.gtb_ltb in E.
    apply Z.ltb_ge in E. lia.
  - intros Hfail. rewrite (fetch_image_run url s Hne). fold reply.
    destruct Hfail as [-> | (res & -> & Hstatus)]; [reflexivity|].
    simpl. destruct (status_code res =? 200) eqn:E; [|reflexivity].
    apply Z.eqb_eq in E. contradiction.
  - intros res Hr Hstatus Hsize. rewrite (fetch_image_run url s Hne).
    fold reply. rewrite Hr. simpl. rewrite Hstatus. simpl.
    destruct (Z.of_nat (String.length (content res)) >? 1048576) eqn:E;
      [|reflexivity].
    rewrite Z.gtb_ltb in E. apply Z.ltb_lt in E. lia.
  - intros query page limit v s' H. exact (search_json_unchanged _ _ _ _ _ _ H).
  - intros product_id quantity v s' H.
    apply (Frame.proposed_result handle py_repr grouped_of_float) in H.
    destruct H as [(data & ok & -> & Hok)
                  | (message & product & [-> | (i & ->)])];
      [left; exists data, ok; tauto
      | right; exists message, product; reflexivity ..].
  - intros v s' H. exact (listing_json_unchanged s s' v H).
Qed.

End Fetch.

(** The image host sends 2^20 + 1 bytes: no image; the proposal for A is
    returned as a dict. *)
Lemma image_attachment_degrades_witness :
  fst (_fetch_image_as_content Scenario.huge_image
         (JStr "http://cdn.test/a.png") Scenario.start) = Ok None.
Proof.
  destruct (image_attachment_degrades Scenario.huge_image
              Scenario.repr_stub Scenario.grouped_stub
              "http://cdn.test/a.png" Scenario.start)
    as (_ & Hbig & _); [discriminate|].
  eapply Hbig; [reflexivity|]. vm_compute. reflexivity.
Defined.

(** C4.  The image host answers the picture of A with status 200 and
    declares [text/html], which is not an image type; the payload is well
    below 1 MiB.  The fetch relabels it instead of dropping it: the
    proposal for A comes with one image element, the page itself in
    base64, labelled [image/jpeg], where the claim has no image element. *)
Lemma html_reply_is_attached :
  content_type Scenario.html_page = Some "text/html; charset=utf-8"
  /\ startswith (declared_type Scenario.html_page) "image/" = false
  /\ fst (Scenario.html_image (get_request "http://cdn.test/a.png") O)
     = Some Scenario.html_page
  /\ exists v image,
       fst (add_to_cart Scenario.html_image Scenario.repr_stub
              Scenario.grouped_stub "A" 1 false Scenario.start) = Ok v
       /\ result_images v = [image]
       /\ mimeType image = "image/jpeg"
       /\ data image = b64encode (content Scenario.html_page).
Proof.
  split; [reflexivity|]. split; [reflexivity|]. split; [reflexivity|].
  eexists; eexists. split; [vm_compute; reflexivity|].
  split; [reflexivity|]. split; reflexivity.
Qed.

End Images.

(** *** Steps of a run, continued *)

Module Exchange.
Import Py Http Facade Obs Steps.

Lemma rbind_ok {A B} (r : result A) (k : A -> result B) (b : B) :
  rbind r k = Ok b -> exists a, r = Ok a /\ k a = Ok b.
Proof. destruct r as [a|e]; simpl; intros H; [eauto | discriminate]. Qed.

(** Invert one [rbind] of a hypothesis [r = Ok _]. *)
Tactic Notation "rstep" hyp(H) "as" ident(a) ident(E) :=
  apply rbind_ok in H; destruct H as (a & E & H).

(** The request of the exchange a hypothesis has gone through. *)
Ltac pick_request H :=
  match type of H with
  | context [after _ ?r _] => exists r
  end.

Section Sends.
Context {W : Type}.
Variable handle : request -> W -> option response * W.

Lemma bind_send {B} (r : request) (k : response -> M W B) (s : state W) :
  bind (send handle r) k s
  = match fst (handle r (remote s)) with
    | Some res => k res (after handle r s)
    | None => (Raise HTTPError, after handle r s)
    end.
Proof.
  unfold bind. rewrite send_run. unfold after.
  destruct (fst (handle r (remote s))); reflexivity.
Qed.

Lemma first_exchange {A} (r : request) (k : response -> M W A)
  (s s' : state W) (v : A) :
  (res <- send handle r ;; k res)%http s = (Ok v, s') ->
  exists res,
    fst (handle r (remote s)) = Some res
    /\ k res (after handle r s) = (Ok v, s').
Proof.
  rewrite bind_send.
  destruct (fst (handle r (remote s))) as [res|]; [eauto | discriminate].
Qed.

End Sends.
End Exchange.

(** *** The session *)

Module Session.
Import Py Http Facade Obs Steps Exchange.

Section Tokens.
Context {W : Type}.
Variable handle : request -> W -> option response * W.
Variable py_repr : json -> string.
Variable grouped_of_float : spec_float -> string.
Variable connect_error : request -> W -> bool.

Local Abbreviation M := (Http.M W).

Ltac known :=
  repeat first
    [ rewrite bind_lift
    | progress simpl
    | match goal with
      | E : dict_get _ _ = _ |- _ => rewrite E
      | E : truthy _ = _ |- _ => rewrite E
      end ].

Ltac outcome tac :=
  known; split; [split; [|split; [|split]]|];
  [reflexivity | reflexivity | reflexivity | intros ? H; tac H
  | intros ? H; tac H].

Ltac failed := outcome ltac:(fun H => discriminate H).
Ltac granted := outcome ltac:(fun H => inversion H; subst; eauto).

(** The block shared by [login] and [register], after the exchange:
    what it does to the session, and that a reply that grants a token
    is returned. *)
Lemma grant_run (r : request) (s : state W) (k : json -> M json) :
  (forall data, k data
     = (ok <~ get data "success" ;;
        if truthy ok then
          d <~ get_default data "data" (JObj []) ;;
          tok <~ get d "token" ;;
          if truthy tok then
            d' <~ index data "data" ;;
            tok' <~ index d' "token" ;;
            _ <- write_token tok' ;;
            ret data
          else ret data
        else ret data)%http) ->
  let run := (res <- send handle r ;; data <~ json_of res ;; k data)%http s in
  session_exchange handle s r run
  /\ forall t, granted_token (fst (handle r (remote s))) = Some t ->
       truthy t = true /\ exists v, fst run = Ok v.
Proof.
  intros Hk run. subst run. unfold session_exchange. rewrite !bind_send.
  unfold granted_token.
  destruct (fst (handle r (remote s))) as [res|]; [|failed].
  rewrite !bind_lift. unfold json_of.
  destruct (parsed res) as [data|] eqn:Ep; [|failed].
  rewrite Hk. rewrite !bind_lift.
  destruct data as [| | | | | |kv]; try failed.
  simpl get. simpl get_default.
  destruct (dict_get kv "success") as [ok|] eqn:Eok; [|granted].
  destruct (truthy ok) eqn:Hok;
    [|destruct (dict_get kv "data") as [[| | | | | |dkv]|]; granted].
  rewrite ?bind_lift.
  destruct (dict_get kv "data") as [d|] eqn:Ed; [|granted].
  rewrite ?bind_lift. destruct d as [| | | | | |dkv]; try failed.
  simpl get. destruct (dict_get dkv "token") as [t|] eqn:Et; [|granted].
  destruct (truthy t) eqn:Ht; granted.
Qed.

Lemma login_run (email password : string) (s : state W) :
  session_exchange handle s (login_request email password)
    (login handle email password s)
  /\ forall t,
       granted_token (fst (handle (login_request email password) (remote s)))
         = Some t ->
       truthy t = true /\ exists v, fst (login handle email password s) = Ok v.
Proof.
  exact (grant_run (login_request email password) s (fun data => _)
           (fun data => eq_refl)).
Qed.

Lemma register_run (email password r_name phone : string) (s : state W) :
  session_exchange handle s (register_request email password r_name phone)
    (register handle email password r_name phone s).
Proof.
  exact (proj1 (grant_run (register_request email password r_name phone) s
                  (fun data => _) (fun data => eq_refl))).
Qed.

(** X1.  [login] and [register] each issue exactly one POST, without
    session headers.  Afterwards the token is [data.token] of the reply
    when the reply is a JSON object with a true [success] and a true
    [data.token]; in every other case, failures and exceptions included,
    the token is the one held before.  What they return is the parsed
    reply, as it came. *)
Theorem login_and_register_token (email password r_name phone : string)
  (s : state W) :
  req_method (login_request email password) = POST
  /\ req_headers (login_request email password) = []
  /\ session_exchange handle s (login_request email password)
       (login handle email password s)
  /\ req_method (register_request email password r_name phone) = POST
  /\ req_headers (register_request email password r_name phone) = []
  /\ session_exchange handle s
       (register_request email password r_name phone)
       (register handle email password r_name phone s).
Proof.
  split; [reflexivity|]. split; [reflexivity|].
  split; [apply login_run|].
  split; [reflexivity|]. split; [reflexivity|].
  apply register_run.
Qed.

(** **** Computations that keep the token *)

Lemma keeps_of_reads {A} (c : M A) : reads_only handle c -> keeps_token c.
Proof. intros H s. destruct (H s) as (new & _ & _ & T & _). exact T. Qed.

Lemma keeps_ret {A} (a : A) : keeps_token (ret a : M A).
Proof. intros s. reflexivity. Qed.

Lemma keeps_lift {A} (r : result A) : keeps_token (lift r : M A).
Proof. intros s. reflexivity. Qed.

Lemma keeps_send (r : request) : keeps_token (send handle r).
Proof. intros s. rewrite send_run. reflexivity. Qed.

Lemma keeps_bind {A B} (c : M A) (k : A -> M B) :
  keeps_token c -> (forall a, keeps_token (k a)) -> keeps_token (bind c k).
Proof.
  intros Hc Hk s. unfold bind. specialize (Hc s).
  destruct (c s) as [[a|e] s1]; simpl in *; [|exact Hc].
  rewrite Hk. exact Hc.
Qed.

Lemma keeps_headers : keeps_token (_get_headers (W:=W) py_repr).
Proof. intros s. rewrite Deriver.headers_eq. reflexivity. Qed.

(** One exchange with the session headers, or without them. *)
Lemma exchange_run (with_headers : bool)
  (mk : list (string * string) -> request) (s : state W) :
  let r := mk (if with_headers then headers_in py_repr s else []) in
  (if with_headers
   then (h <- _get_headers py_repr ;; res <- send handle (mk h) ;;
         lift (json_of res))%http s
   else (res <- send handle (mk []) ;; lift (json_of res))%http s)
  = (match fst (handle r (remote s)) with
     | Some res => json_of res
     | None => Raise HTTPError
     end, after handle r s).
Proof.
  intros r. subst r. destruct with_headers.
  - unfold bind at 1. rewrite Deriver.headers_eq. rewrite bind_send.
    destruct (fst (handle _ (remote s))); reflexivity.
  - rewrite bind_send. destruct (fst (handle _ (remote s))); reflexivity.
Qed.

Lemma invoke_run (c : call) (s : state W) :
  exists r,
    invoke handle py_repr c s
    = (match fst (handle r (remote s)) with
       | Some res => json_of res
       | None => Raise HTTPError
       end, after handle r s)
    /\ mutating r = negb (is_query c)
    /\ req_headers r = (if authenticated c then headers_in py_repr s else []).
Proof.
  destruct c;
    cbv [invoke get_current_user get_categories get_alternative_products
         update_cart_item remove_from_cart clear_cart get_addresses
         create_address set_default_address proceed_to_checkout
         set_payment_mode process_payment get_order_history
         get_order_details track_order cancel_order reorder];
    match goal with
    | |- context [bind (_get_headers _) (fun h => bind (send _ (@?r h)) _)] =>
        eexists; split;
        [exact (exchange_run true r s) | split; reflexivity]
    | |- context [bind (send _ ?r) _] =>
        eexists; split;
        [exact (exchange_run false (fun _ => r) s) | split; reflexivity]
    end.
Qed.

Lemma keeps_invoke (c : call) : keeps_token (invoke handle py_repr c).
Proof.
  intros s. destruct (invoke_run c s) as (r & E & _). rewrite E. reflexivity.
Qed.

Lemma reads_only_filter (category : option string)
  (min_price max_price : option spec_float) (dietary brand : option string)
  (in_stock : bool) (sort_by : string) (page limit : Z) (show : bool) :
  reads_only handle
    (filter_products handle category min_price max_price dietary brand
       in_stock sort_by page limit show).
Proof.
  unfold filter_products.
  apply Frame.reads_only_bind;
    [apply Frame.reads_only_send; reflexivity | intros res].
  apply Frame.reads_only_bind; [apply Frame.reads_only_lift | intros data].
  apply Frame.reads_only_attach.
Qed.

Lemma reads_only_product_details (product_id : string) (show_image : bool) :
  reads_only handle (get_product_details handle product_id show_image).
Proof.
  unfold get_product_details. Frame.reads; apply Frame.reads_only_fetch_image.
Qed.

Lemma reads_only_show_image (product_id : string) :
  reads_only handle (show_product_image handle product_id).
Proof.
  unfold show_product_image. Frame.reads; apply Frame.reads_only_fetch_image.
Qed.

(** The health check in terms of the reply. *)
Lemma health_run (s : state W) :
  check_api_health handle connect_error s
  = (match fst (handle health_request (remote s)) with
     | Some res => json_of res
     | None => if connect_error health_request (remote s)
               then Ok unavailable else Raise HTTPError
     end, after handle health_request s).
Proof.
  unfold check_api_health. rewrite bind_send.
  destruct (fst (handle health_request (remote s))) as [res|].
  - unfold lift, json_of. destruct (parsed res); reflexivity.
  - destruct (connect_error health_request (remote s)); reflexivity.
Qed.

Lemma reads_only_health :
  reads_only handle (check_api_health handle connect_error).
Proof.
  intros s. exists [health_request]. rewrite health_run. simpl.
  repeat split; auto.
  - constructor; [reflexivity | constructor].
  - intros Hs. apply Hs. reflexivity.
Qed.

Lemma keeps_confirmed (product_id : string) (quantity : Z) :
  keeps_token (add_to_cart_confirmed handle py_repr product_id quantity).
Proof.
  unfold add_to_cart_confirmed.
  apply keeps_bind;
    [apply keeps_of_reads, Frame.reads_only_lookup_name | intros n].
  apply keeps_bind; [apply keeps_headers | intros h].
  apply keeps_bind; [apply keeps_send | intros res].
  apply keeps_bind; [apply keeps_lift | intros result].
  apply keeps_bind; [apply keeps_lift | intros ok].
  destruct (truthy ok && truthy n); [|apply keeps_ret].
  apply keeps_bind;
    [apply keeps_of_reads, Frame.reads_only_deriver | intros rec].
  destruct rec;
    repeat (apply keeps_bind; [apply keeps_lift | intros ?]);
    apply keeps_ret.
Qed.

(** X2.  No tool other than [login] and [register] writes the session
    token: after any run of any other tool, whatever it returned or
    raised, [_auth_token] is what it was before.  In particular nothing
    logs out. *)
Theorem only_login_and_register_write_token :
  (forall c, keeps_token (invoke handle py_repr c))
  /\ (forall product_id show_image,
        keeps_token (get_product_details handle product_id show_image))
  /\ (forall product_id, keeps_token (show_product_image handle product_id))
  /\ keeps_token (check_api_health handle connect_error)
  /\ (forall query page limit show,
        keeps_token (search_products handle query page limit show))
  /\ (forall category_id page limit show,
        keeps_token
          (get_products_by_category handle category_id page limit show))
  /\ (forall category min_price max_price dietary brand in_stock sort_by page
             limit show,
        keeps_token
          (filter_products handle category min_price max_price dietary brand
             in_stock sort_by page limit show))
  /\ (forall limit show,
        keeps_token (get_featured_products handle limit show))
  /\ keeps_token (view_cart handle py_repr)
  /\ (forall product_id quantity confirmed,
        keeps_token
          (add_to_cart handle py_repr grouped_of_float product_id quantity
             confirmed)).
Proof.
  repeat match goal with |- _ /\ _ => split end; intros.
  - apply keeps_invoke.
  - apply keeps_of_reads, reads_only_product_details.
  - apply keeps_of_reads, reads_only_show_image.
  - apply keeps_of_reads, reads_only_health.
  - apply keeps_of_reads, Frame.reads_only_search.
  - apply keeps_of_reads, Frame.reads_only_category.
  - apply keeps_of_reads, reads_only_filter.
  - apply keeps_of_reads, Frame.reads_only_featured.
  - apply keeps_of_reads, Frame.reads_only_view_cart.
  - destruct confirmed; simpl.
    + apply keeps_confirmed.
    + apply keeps_of_reads, Frame.reads_only_proposed.
Qed.

(** X3.  When the reply to [login] grants a token, the next tool that
    sends the session headers carries it: the request that follows the
    login POST has the headers [Content-Type: application/json] and
    [Authorization: Bearer <token>]. *)
Theorem login_then_authorized (email password : string) (tok : json)
  (c : call) (s : state W) :
  granted_token (fst (handle (login_request email password) (remote s)))
    = Some tok ->
  authenticated c = true ->
  exists r,
    issued (snd ((_ <- login handle email password ;;
                  invoke handle py_repr c)%http s))
    = issued s ++ [login_request email password; r]
    /\ req_headers r
       = [("Content-Type", "application/json");
          ("Authorization", ("Bearer " ++ py_str py_repr tok)%string)].
Proof.
  intros Hg Hc.
  destruct (login_run email password s) as ((H1 & _ & H3 & _) & H5).
  destruct (H5 tok Hg) as (Ht & v & Hv).
  rewrite Hg in H3.
  unfold bind at 1.
  destruct (login handle email password s) as [[v'|e] s1];
    simpl in *; [|discriminate].
  destruct (invoke_run c s1) as (r & E & _ & Hh). rewrite E.
  exists r. split.
  - unfold after. simpl. rewrite H1, <- app_assoc. reflexivity.
  - rewrite Hh, Hc. unfold headers_in. rewrite H3, Ht. reflexivity.
Qed.

End Tokens.

(** On the account service: after the login, the address book is asked
    for with the granted token. *)
Lemma login_then_authorized_witness :
  exists r,
    issued (snd ((_ <- login Scenario.account "asha@example.test" "secret" ;;
                  invoke Scenario.account Scenario.repr_stub GetAddresses)%http
                   Scenario.start))
    = issued Scenario.start
        ++ [login_request "asha@example.test" "secret"; r]
    /\ req_headers r
       = [("Content-Type", "application/json");
          ("Authorization", "Bearer t0k")].
Proof.
  apply (login_then_authorized Scenario.account Scenario.repr_stub
           "asha@example.test" "secret" (JStr "t0k") GetAddresses
           Scenario.start); reflexivity.
Defined.

End Session.

(** *** The pass-through tools and the health check *)

Module Passthrough.
Import Py Http Facade Obs Steps Exchange.

Section Calls.
Context {W : Type}.
Variable handle : request -> W -> option response * W.
Variable py_repr : json -> string.
Variable connect_error : request -> W -> bool.

Lemma reads_only_query (c : call) :
  is_query c = true -> reads_only handle (invoke handle py_repr c).
Proof.
  intros Hq s. destruct (Session.invoke_run handle py_repr c s)
    as (r & E & Hm & _).
  rewrite Hq in Hm. unfold mutating in Hm.
  assert (Hg : req_method r = GET)
    by (destruct (req_method r); [reflexivity | discriminate ..]).
  exists [r]. rewrite E. simpl. repeat split; auto.
  - constructor; [exact Hg | constructor].
  - intros Hs. apply Hs. exact Hg.
Qed.

(** X4.  Each of the seventeen pass-through tools makes exactly one
    exchange and returns the parsed reply as it is, without looking at
    [success]; a transport failure raises, and so does a body that is not
    JSON.  The request is a GET for the seven query tools and a POST, PUT
    or DELETE for the others, and it carries the session headers except
    for [get_categories] and [get_alternative_products], which send
    none. *)
Theorem passthrough_exchange (c : call) (s : state W) :
  exists r,
    fst (invoke handle py_repr c s)
    = match fst (handle r (remote s)) with
      | Some res => json_of res
      | None => Raise HTTPError
      end
    /\ snd (invoke handle py_repr c s) = after handle r s
    /\ mutating r = negb (is_query c)
    /\ req_headers r = (if authenticated c then headers_in py_repr s else []).
Proof.
  destruct (Session.invoke_run handle py_repr c s) as (r & E & Hm & Hh).
  exists r. rewrite E. auto.
Qed.

(** X5.  The tools that only ask issue GET requests and nothing else,
    and keep the token: the profile, the categories, the alternatives,
    the address book, the order history, details and tracking, the
    product details and image, and the health check.  On a service where
    GET is safe they leave the remote state as it was. *)
Theorem query_tools_read_only :
  reads_only handle (get_current_user handle py_repr)
  /\ reads_only handle (get_categories handle)
  /\ (forall product_id,
        reads_only handle (get_alternative_products handle product_id))
  /\ reads_only handle (get_addresses handle py_repr)
  /\ (forall page limit,
        reads_only handle (get_order_history handle py_repr page limit))
  /\ (forall order_id,
        reads_only handle (get_order_details handle py_repr order_id))
  /\ (forall order_id, reads_only handle (track_order handle py_repr order_id))
  /\ (forall product_id show_image,
        reads_only handle (get_product_details handle product_id show_image))
  /\ (forall product_id,
        reads_only handle (show_product_image handle product_id))
  /\ reads_only handle (check_api_health handle connect_error).
Proof.
  repeat match goal with |- _ /\ _ => split end; intros.
  - exact (reads_only_query GetCurrentUser eq_refl).
  - exact (reads_only_query GetCategories eq_refl).
  - exact (reads_only_query (GetAlternativeProducts product_id) eq_refl).
  - exact (reads_only_query GetAddresses eq_refl).
  - exact (reads_only_query (GetOrderHistory page limit) eq_refl).
  - exact (reads_only_query (GetOrderDetails order_id) eq_refl).
  - exact (reads_only_query (TrackOrder order_id) eq_refl).
  - apply Session.reads_only_product_details.
  - apply Session.reads_only_show_image.
  - apply Session.reads_only_health.
Qed.

(** X6.  The health check makes one GET of [/health] without headers.
    A reply with a JSON body is returned as it is; a connection failure
    becomes the dict [{"success": False, "message": ...}].  It raises
    exactly when the transport fails in another way, or when the reply
    has no JSON body. *)
Theorem health_check_outcomes (s : state W) :
  let reply := fst (handle health_request (remote s)) in
  let run := check_api_health handle connect_error s in
  snd run = after handle health_request s
  /\ req_headers health_request = []
  /\ fst run
     = match reply with
       | Some res => json_of res
       | None => if connect_error health_request (remote s)
                 then Ok unavailable else Raise HTTPError
       end
  /\ ((exists e, fst run = Raise e)
      <-> (reply = None /\ connect_error health_request (remote s) = false)
          \/ exists res, reply = Some res /\ parsed res = None).
Proof.
  intros reply run. subst run. rewrite Session.health_run. fold reply.
  simpl. repeat split; auto.
  - intros (e & He). destruct reply as [res|].
    + right. exists res. split; [reflexivity|].
      unfold json_of in He. destruct (parsed res); [discriminate|reflexivity].
    + left. split; [reflexivity|].
      destruct (connect_error health_request (remote s));
        [discriminate|reflexivity].
  - intros [(-> & ->) | (res & -> & Hp)]; [eauto|].
    unfold json_of. rewrite Hp. eauto.
Qed.

End Calls.

(** **** Payloads *)

Lemma dict_get_with_param {A} (k k' : string) (f : A -> json)
  (given : A -> bool) (arg : option A) (params : list (string * json)) :
  dict_get (with_param k f given arg params) k'
  = if String.eqb k k'
    then match arg with
         | Some a => if given a then Some (f a) else dict_get params k'
         | None => dict_get params k'
         end
    else dict_get params k'.
Proof.
  unfold with_param. destruct (String.eqb k k') eqn:E.
  - apply String.eqb_eq in E. subst k'.
    destruct arg as [a|]; [|reflexivity].
    destruct (given a); [|reflexivity]. apply Deriver.dict_get_set_same.
  - destruct arg as [a|]; [|reflexivity].
    destruct (given a); [|reflexivity].
    apply Deriver.dict_get_set_other. intros ->.
    rewrite String.eqb_refl in E. discriminate.
Qed.

Lemma optional_nonempty (arg : option string) :
  optional arg
  = match arg with
    | Some a => if nonempty a then Some (JStr a) else None
    | None => None
    end.
Proof.
  destruct arg as [a|]; [|reflexivity]. unfold optional, nonempty.
  destruct (String.eqb a ""); reflexivity.
Qed.

Section Payloads.
Context {W : Type}.
Variable handle : request -> W -> option response * W.
Variable py_repr : json -> string.

(** X7.  [create_address] posts the eight fixed fields in their order,
    followed by [addressLine2] and [landmark] only when they are given
    and not empty; [cancel_order] posts [{"reason": ...}] for a given,
    non-empty reason and the empty object otherwise.  An optional field
    is never sent as null or as the empty string. *)
Theorem optional_fields_left_out (a_name phone address_line1 city a_state
  pincode address_type order_id : string)
  (address_line2 landmark reason : option string) (is_default : bool)
  (s : state W) :
  (exists r p,
     issued (snd (create_address handle py_repr a_name phone address_line1
                    city a_state pincode address_type address_line2 landmark
                    is_default s)) = issued s ++ [r]
     /\ req_json r = Some (JObj p)
     /\ map fst p
        = ["type"; "name"; "phone"; "addressLine1"; "city"; "state";
           "pincode"; "isDefault"]
          ++ match optional address_line2 with
             | Some _ => ["addressLine2"]
             | None => []
             end
          ++ match optional landmark with
             | Some _ => ["landmark"]
             | None => []
             end
     /\ dict_get p "addressLine2" = optional address_line2
     /\ dict_get p "landmark" = optional landmark)
  /\ exists r,
       issued (snd (cancel_order handle py_repr order_id reason s))
       = issued s ++ [r]
       /\ req_json r
          = Some (JObj match optional reason with
                       | Some v => [("reason", v)]
                       | None => []
                       end).
Proof.
  split.
  - exists (mkRequest POST (BASE_URL ++ "/addresses")%string []
              (headers_in py_repr s)
              (Some (JObj (create_address_payload a_name phone address_line1
                             city a_state pincode address_type address_line2
                             landmark is_default)))).
    eexists. split; [|split; [reflexivity|]].
    + unfold create_address. unfold bind at 1.
      rewrite Deriver.headers_eq. rewrite bind_send.
      destruct (fst (handle _ (remote s))); reflexivity.
    + unfold create_address_payload, optional, with_param, nonempty.
      destruct address_line2 as [a|], landmark as [b|];
        try destruct (String.eqb a ""); try destruct (String.eqb b "");
        simpl; repeat split; reflexivity.
  - exists (mkRequest POST
              (BASE_URL ++ "/orders/" ++ order_id ++ "/cancel")%string []
              (headers_in py_repr s)
              (Some (JObj (cancel_order_payload reason)))).
    split.
    + unfold cancel_order. unfold bind at 1.
      rewrite Deriver.headers_eq. rewrite bind_send.
      destruct (fst (handle _ (remote s))); reflexivity.
    + unfold cancel_order_payload, optional, with_param, nonempty.
      destruct reason as [a|]; [|reflexivity].
      destruct (String.eqb a ""); reflexivity.
Qed.

End Payloads.

End Passthrough.

(** *** Images and product lookups *)

Module Products.
Import Py Http Facade Obs Steps Exchange.

Section Images.
Context {W : Type}.
Variable handle : request -> W -> option response * W.
Variable py_repr : json -> string.
Variable grouped_of_float : spec_float -> string.

Local Abbreviation M := (Http.M W).

(** Without a non-empty string to fetch from there is no exchange. *)
Lemma fetch_image_none (image_url : json) (s : state W) :
  (forall u, image_url = JStr u -> u = "") ->
  _fetch_image_as_content handle image_url s = (Ok None, s).
Proof.
  intros H. unfold _fetch_image_as_content.
  destruct image_url as [| b | n | f | u | l | kv];
    try (destruct (negb (truthy _)); reflexivity).
  rewrite (H u eq_refl). reflexivity.
Qed.

Lemma label_is_image (res : response) :
  startswith (label res) "image/" = true.
Proof.
  unfold label. destruct (startswith (declared_type res) "image/") eqn:E;
    [exact E | reflexivity].
Qed.

Lemma image_of_reply_some (reply : option response) (i : ImageContent) :
  image_of_reply reply = Some i ->
  exists res,
    reply = Some res
    /\ status_code res = 200
    /\ Z.of_nat (String.length (content res)) <= 1048576
    /\ i = mkImageContent "image" (b64encode (content res)) (label res)
    /\ well_labelled i = true.
Proof.
  unfold image_of_reply. destruct reply as [res|]; [|discriminate].
  destruct (status_code res =? 200) eqn:Es; simpl; [|discriminate].
  destruct (Z.of_nat (String.length (content res)) >? 1048576) eqn:El;
    [discriminate|].
  intros H. inversion H; subst; clear H. exists res.
  apply Z.eqb_eq in Es. rewrite Z.gtb_ltb in El. apply Z.ltb_ge in El.
  repeat split; auto.
  unfold well_labelled. simpl. apply label_is_image.
Qed.

(** The two ways a fetch goes: no exchange, or one GET of the URL. *)
Lemma fetch_image_cases (image_url : json) (s : state W) :
  _fetch_image_as_content handle image_url s = (Ok None, s)
  \/ exists u,
       image_url = JStr u /\ u <> ""
       /\ _fetch_image_as_content handle image_url s
          = (Ok (image_of_reply (fst (handle (get_request u) (remote s)))),
             after handle (get_request u) s).
Proof.
  destruct image_url as [| b | n | f | u | l | kv];
    try (left; apply fetch_image_none; intros u Hu; discriminate).
  destruct (String.eqb u "") eqn:E.
  - apply String.eqb_eq in E. subst u. left. reflexivity.
  - right. exists u. split; [reflexivity|].
    assert (Hne : u <> "") by (intros ->; discriminate).
    split; [exact Hne|]. apply (Images.fetch_image_run handle u s Hne).
Qed.

Lemma fetch_image_step (image_url : json) (s s' : state W)
  (v : option ImageContent) :
  _fetch_image_as_content handle image_url s = (Ok v, s') ->
  exists new,
    issued s' = issued s ++ new
    /\ only_gets new
    /\ (List.length new <= 1)%nat
    /\ forall i, v = Some i ->
         well_labelled i = true /\ List.length new = 1%nat.
Proof.
  intros H.
  destruct (fetch_image_cases image_url s) as [E | (u & -> & Hne & E)];
    rewrite E in H; inversion H; subst; clear H.
  - exists []. rewrite app_nil_r.
    repeat split; auto; try discriminate. constructor.
  - exists [get_request u]. repeat split; auto.
    { constructor; [reflexivity | constructor]. }
    apply image_of_reply_some in H.
    destruct H as (res & _ & _ & _ & _ & Hw). exact Hw.
Qed.

Lemma fetch_images_step (products : list json) (s s' : state W)
  (images : list ImageContent) :
  fetch_images handle products s = (Ok images, s') ->
  (List.length images <= List.length products)%nat
  /\ Forall (fun i => well_labelled i = true) images
  /\ exists new,
       issued s' = issued s ++ new
       /\ only_gets new
       /\ (List.length new <= List.length products)%nat
       /\ (List.length images <= List.length new)%nat.
Proof.
  revert s s' images. induction products as [|p rest IH]; intros s s' images H.
  - simpl in H. finish_ret H. split; [auto|]. split; [constructor|].
    exists []. rewrite app_nil_r. repeat split; auto. constructor.
  - simpl in H. step H as url Eurl. step H as ic Eic. step H as imgs Erest.
    finish_ret H.
    destruct (fetch_image_step _ _ _ _ Eic) as (n1 & I1 & G1 & L1 & Hw).
    destruct (IH _ _ _ Erest) as (Hl & Hf & n2 & I2 & G2 & L2 & L3).
    split; [destruct ic; simpl; lia|].
    split; [destruct ic as [i|];
            [constructor; [apply (Hw i eq_refl) | exact Hf] | exact Hf]|].
    exists (n1 ++ n2). rewrite I2, I1, app_assoc. split; [reflexivity|].
    split; [apply Forall_app; split; assumption|].
    rewrite length_app. split; [simpl; lia|].
    destruct ic as [i|]; [destruct (Hw i eq_refl) as [_ E1]; simpl; lia | lia].
Qed.

(** [products[:3]] has at most three elements, unless it is a string,
    whose characters are no products. *)
Lemma slice3_iter (products tops : json) (ps : list json) :
  slice3 products = Ok tops -> iter tops = Ok ps ->
  (List.length ps <= 3)%nat \/ exists c rest, ps = JStr c :: rest.
Proof.
  destruct products as [| | | | u | l |]; try discriminate;
    intros H; inversion H; subst; clear H; intros H;
    inversion H; subst; clear H.
  - destruct (chars _) as [|c rest]; [left; simpl; lia | right; simpl; eauto].
  - left. destruct l as [|a [|b [|c l]]]; simpl; lia.
Qed.

Lemma fetch_images_string (c : string) (rest : list json) (s : state W) :
  fetch_images handle (JStr c :: rest) s = (Raise AttributeError, s).
Proof. reflexivity. Qed.

Lemma result_images_with_images (images : list ImageContent) (data : json) :
  result_images (with_images images data) = images.
Proof.
  unfold with_images. destruct images as [|i images]; [reflexivity|].
  simpl. f_equal. induction images as [|i' images IH]; [reflexivity|].
  simpl. f_equal. exact IH.
Qed.

Lemma attached_none (s : state W) (show_images : bool) (data : json) :
  attached s s show_images data (RDict data).
Proof.
  exists [], []. rewrite app_nil_r. simpl.
  repeat split; auto; try lia; constructor.
Qed.

Lemma attached_images (s s' : state W) (data products tops : json)
  (ps : list json) (images : list ImageContent) :
  slice3 products = Ok tops -> iter tops = Ok ps ->
  fetch_images handle ps s = (Ok images, s') ->
  attached s s' true data (with_images images data).
Proof.
  intros Hs Hi Hf.
  destruct (slice3_iter _ _ _ Hs Hi) as [Hl | (c & rest & ->)];
    [|rewrite fetch_images_string in Hf; discriminate].
  destruct (fetch_images_step _ _ _ _ Hf) as (L & F & new & I & G & Ln & Li).
  exists images, new. repeat split; auto; try lia; discriminate.
Qed.

Lemma attach_images_attached (show_images : bool) (data : json)
  (s s' : state W) (v : tool_result) :
  attach_images handle show_images data s = (Ok v, s') ->
  attached s s' show_images data v.
Proof.
  intros H. unfold attach_images in H. destruct show_images.
  - step H as ok Eok. destruct (truthy ok).
    + step H as d Ed. step H as all_products Ea. step H as products Ep.
      step H as ps Eps. step H as images Ei. finish_ret H.
      eapply attached_images; eassumption.
    + finish_ret H. apply attached_none.
  - finish_ret H. apply attached_none.
Qed.

(** The four discovery tools: one listing request, then the images. *)
Lemma discovery_attached (show : bool) (s s' : state W) (v : tool_result) :
  (exists query page limit,
     search_products handle query page limit show s = (Ok v, s'))
  \/ (exists category_id page limit,
        get_products_by_category handle category_id page limit show s
        = (Ok v, s'))
  \/ (exists category min_price max_price dietary brand in_stock sort_by
             page limit,
        filter_products handle category min_price max_price dietary brand
          in_stock sort_by page limit show s = (Ok v, s'))
  \/ (exists limit, get_featured_products handle limit show s = (Ok v, s')) ->
  exists r data,
    req_method r = GET
    /\ attached (after handle r s) s' show data v.
Proof.
  intros [(query & page & limit & H)
         | [(category_id & page & limit & H)
           | [(category & min_price & max_price & dietary & brand & in_stock
               & sort_by & page & limit & H)
             | (limit & H)]]].
  - unfold search_products in H. apply first_exchange in H.
    destruct H as (res & _ & H).
    step H as data Edata. step H as ok Eok.
    destruct (truthy ok).
    + step H as d Ed. step H as products Ep. step H as ps Eps.
      step H as formatted Ef. step H as d' Ed'. step H as data' Edata'.
      pick_request H; exists data'. split; [reflexivity|].
      destruct show.
      * step H as tops Et. step H as tps Etp. step H as images Ei.
        finish_ret H. eapply attached_images; eassumption.
      * finish_ret H. apply attached_none.
    + pick_request H; exists data. split; [reflexivity|].
      finish_ret H.
      apply attached_none.
  - unfold get_products_by_category in H. apply first_exchange in H.
    destruct H as (res & _ & H). step H as data Edata.
    pick_request H; exists data. split; [reflexivity|].
    apply attach_images_attached. exact H.
  - unfold filter_products in H. apply first_exchange in H.
    destruct H as (res & _ & H). step H as data Edata.
    pick_request H; exists data. split; [reflexivity|].
    apply attach_images_attached. exact H.
  - unfold get_featured_products in H. apply first_exchange in H.
    destruct H as (res & _ & H). step H as data Edata.
    pick_request H; exists data. split; [reflexivity|].
    apply attach_images_attached. exact H.
Qed.

(** X8.  A discovery tool ([search_products],
    [get_products_by_category], [filter_products],
    [get_featured_products]) returns either the dict alone or a list of
    images followed by the dict as last element.  There are at most
    three images, each labelled as an image, and none when [show_images]
    is off. *)
Theorem discovery_images_bounded (show : bool) (s s' : state W)
  (v : tool_result) :
  (exists query page limit,
     search_products handle query page limit show s = (Ok v, s'))
  \/ (exists category_id page limit,
        get_products_by_category handle category_id page limit show s
        = (Ok v, s'))
  \/ (exists category min_price max_price dietary brand in_stock sort_by
             page limit,
        filter_products handle category min_price max_price dietary brand
          in_stock sort_by page limit show s = (Ok v, s'))
  \/ (exists limit, get_featured_products handle limit show s = (Ok v, s')) ->
  exists images data,
    v = (if is_empty images then RDict data
         else RList (map CImage images ++ [CJson data]))
    /\ result_json v = Some data
    /\ result_images v = images
    /\ (List.length images <= 3)%nat
    /\ Forall (fun i => well_labelled i = true) images
    /\ (show = false -> images = []).
Proof.
  intros H. apply discovery_attached in H.
  destruct H as (r & data & _ & images & new & -> & L & F & _ & _ & _ & _ & N).
  exists images, data. split; [reflexivity|].
  split; [apply Images.result_json_with_images|].
  split; [apply result_images_with_images|].
  repeat split; auto. intros Hs. apply N. exact Hs.
Qed.

(** X9.  A discovery tool issues the listing request and then at most
    three more requests, all of them GET, and none when [show_images] is
    off; every image returned was paid for by one of them. *)
Theorem discovery_requests_bounded (show : bool) (s s' : state W)
  (v : tool_result) :
  (exists query page limit,
     search_products handle query page limit show s = (Ok v, s'))
  \/ (exists category_id page limit,
        get_products_by_category handle category_id page limit show s
        = (Ok v, s'))
  \/ (exists category min_price max_price dietary brand in_stock sort_by
             page limit,
        filter_products handle category min_price max_price dietary brand
          in_stock sort_by page limit show s = (Ok v, s'))
  \/ (exists limit, get_featured_products handle limit show s = (Ok v, s')) ->
  exists r new,
    issued s' = issued s ++ r :: new
    /\ only_gets (r :: new)
    /\ (List.length new <= 3)%nat
    /\ (List.length (result_images v) <= List.length new)%nat
    /\ (show = false -> new = []).
Proof.
  intros H. apply discovery_attached in H.
  destruct H as (r & data & Hr & images & new & -> & _ & _ & I & G & L & Li
                 & N).
  exists r, new. rewrite result_images_with_images.
  split; [rewrite I; unfold after; simpl; rewrite <- app_assoc; reflexivity|].
  split; [constructor; assumption|].
  repeat split; auto. intros Hs. apply N. exact Hs.
Qed.

(** X10.  A product without a picture costs no request: when the image
    reference is anything but a non-empty string (missing, null, empty,
    or not a string at all) the fetch returns no image and issues
    nothing, and a list of such products yields no images with the state
    untouched. *)
Theorem no_fetch_without_url (image_url : json) (products : list json)
  (s : state W) :
  (forall u, image_url = JStr u -> u = "") ->
  Forall (fun p => exists url,
                     get p "image" = Ok url
                     /\ forall u, url = JStr u -> u = "") products ->
  _fetch_image_as_content handle image_url s = (Ok None, s)
  /\ fetch_images handle products s = (Ok [], s).
Proof.
  intros Hu Hp. split; [apply fetch_image_none; exact Hu|].
  induction Hp as [|p rest (url & Hget & Hurl) _ IH]; [reflexivity|].
  simpl. rewrite bind_lift, Hget. unfold bind at 1.
  rewrite (fetch_image_none url s Hurl). unfold bind at 1. rewrite IH.
  reflexivity.
Qed.

(** X11.  [get_product_details] returns the parsed reply unchanged as
    its dict, alone or preceded by one image; an image is there only when
    [show_image] is set and it is labelled as an image.  Without
    [show_image] the product request is the only one issued. *)
Theorem product_details_result (product_id : string) (show_image : bool)
  (s s' : state W) (v : tool_result) :
  get_product_details handle product_id show_image s = (Ok v, s') ->
  let r := get_request (BASE_URL ++ "/products/" ++ product_id)%string in
  exists res data,
    fst (handle r (remote s)) = Some res
    /\ parsed res = Some data
    /\ result_json v = Some data
    /\ (v = RDict data
        \/ exists i, v = RList [CImage i; CJson data]
                     /\ well_labelled i = true /\ show_image = true)
    /\ (show_image = false -> v = RDict data /\ s' = after handle r s).
Proof.
  intros H r. unfold get_product_details in H. apply first_exchange in H.
  destruct H as (res & Hres & H). fold r in Hres, H.
  step H as data Edata. apply json_of_ok in Edata.
  exists res, data. split; [exact Hres|]. split; [exact Edata|].
  destruct show_image.
  - step H as ok Eok. destruct (truthy ok).
    + step H as d Ed. step H as product Ep. step H as url Eurl.
      step H as ic Eic. destruct ic as [i|]; finish_ret H.
      * split; [reflexivity|]. split; [|discriminate].
        right. exists i. split; [reflexivity|]. split; [|reflexivity].
        destruct (fetch_image_step _ _ _ _ Eic) as (new & _ & _ & _ & Hw).
        apply (Hw i eq_refl).
      * split; [reflexivity|]. split; [left; reflexivity | discriminate].
    + finish_ret H. split; [reflexivity|].
      split; [left; reflexivity | discriminate].
  - finish_ret H. split; [reflexivity|]. split; [left; reflexivity|].
    intros _. split; reflexivity.
Qed.

(** X12.  [show_product_image] never returns the upstream reply.  When
    the reply reports no success the answer is the dict
    [{"error": "Product not found"}], whatever the reply said, and no
    image is asked for; otherwise it is the image, labelled as one, or
    the dict [{"error": "Could not load product image", "image_url": ...}]
    with the product's image reference. *)
Theorem show_image_outcomes (product_id : string) (s s' : state W)
  (v : image_or_dict) :
  show_product_image handle product_id s = (Ok v, s') ->
  let r := get_request (BASE_URL ++ "/products/" ++ product_id)%string in
  exists res data ok,
    fst (handle r (remote s)) = Some res
    /\ parsed res = Some data
    /\ get data "success" = Ok ok
    /\ ((truthy ok = false
         /\ v = IDict (JObj [("error", JStr "Product not found")])
         /\ s' = after handle r s)
        \/ (truthy ok = true
            /\ exists product url,
                 lookup_path data ["data"; "product"] = Some product
                 /\ get product "image" = Ok url
                 /\ ((exists i, v = IImage i /\ well_labelled i = true)
                     \/ v = IDict
                              (JObj [("error",
                                      JStr "Could not load product image");
                                     ("image_url", url)])))).
Proof.
  intros H r. unfold show_product_image in H. apply first_exchange in H.
  destruct H as (res & Hres & H). fold r in Hres, H.
  step H as data Edata. apply json_of_ok in Edata.
  step H as ok Eok.
  exists res, data, ok. split; [exact Hres|]. split; [exact Edata|].
  split; [exact Eok|].
  destruct (truthy ok).
  - right. split; [reflexivity|].
    step H as d Ed. step H as product Ep. step H as url Eurl.
    exists product, url. split.
    { destruct data as [| | | | | |kv]; try discriminate. simpl in Ed |- *.
      destruct (dict_get kv "data") as [d0|]; [|discriminate].
      inversion Ed; subst d0.
      destruct d as [| | | | | |dkv]; try discriminate. simpl in Ep.
      destruct (dict_get dkv "product") as [p0|]; [|discriminate].
      inversion Ep; subst p0.
      destruct product; reflexivity. }
    split; [exact Eurl|].
    step H as ic Eic. destruct ic as [i|].
    + finish_ret H. left. exists i. split; [reflexivity|].
      destruct (fetch_image_step _ _ _ _ Eic) as (new & _ & _ & _ & Hw).
      apply (Hw i eq_refl).
    + step H as url' Eurl'. finish_ret H. right.
      rewrite Eurl in Eurl'. inversion Eurl'; subst. reflexivity.
  - left. finish_ret H. repeat split.
Qed.

End Images.

Lemma no_fetch_without_url_witness :
  _fetch_image_as_content Scenario.shop JNull Scenario.start
    = (Ok None, Scenario.start)
  /\ fetch_images Scenario.shop
       [JObj []; JObj [("image", JNull)]; JObj [("image", JStr "")]]
       Scenario.start
     = (Ok [], Scenario.start).
Proof.
  apply (no_fetch_without_url Scenario.shop JNull
           [JObj []; JObj [("image", JNull)]; JObj [("image", JStr "")]]
           Scenario.start).
  - intros u Hu. discriminate Hu.
  - constructor; [|constructor; [|constructor; [|constructor]]].
    + exists JNull. split; [reflexivity | intros u Hu; discriminate Hu].
    + exists JNull. split; [reflexivity | intros u Hu; discriminate Hu].
    + exists (JStr ""). split; [reflexivity|].
      intros u Hu. inversion Hu. reflexivity.
Defined.

(** The details of product A of the sample shop, with its picture. *)
Lemma product_details_result_witness :
  exists v s',
    get_product_details Scenario.shop "A" true Scenario.start = (Ok v, s')
    /\ List.length (result_images v) = 1%nat
    /\ exists res data,
         fst (Scenario.shop (get_request (BASE_URL ++ "/products/A")%string)
                (remote Scenario.start)) = Some res
         /\ parsed res = Some data
         /\ result_json v = Some data
         /\ (v = RDict data
             \/ exists i, v = RList [CImage i; CJson data]
                          /\ well_labelled i = true /\ true = true)
         /\ (true = false ->
             v = RDict data
             /\ s' = after Scenario.shop
                       (get_request (BASE_URL ++ "/products/A")%string)
                       Scenario.start).
Proof.
  eexists; eexists. split; [vm_compute; reflexivity|].
  split; [reflexivity|].
  apply (product_details_result Scenario.shop "A" true Scenario.start).
  vm_compute. reflexivity.
Defined.

Lemma show_image_outcomes_witness :
  exists v s',
    show_product_image Scenario.shop "A" Scenario.start = (Ok v, s')
    /\ exists res data ok,
         fst (Scenario.shop (get_request (BASE_URL ++ "/products/A")%string)
                (remote Scenario.start)) = Some res
         /\ parsed res = Some data
         /\ get data "success" = Ok ok
         /\ ((truthy ok = false
              /\ v = IDict (JObj [("error", JStr "Product not found")])
              /\ s' = after Scenario.shop
                        (get_request (BASE_URL ++ "/products/A")%string)
                        Scenario.start)
             \/ (truthy ok = true
                 /\ exists product url,
                      lookup_path data ["data"; "product"] = Some product
                      /\ get product "image" = Ok url
                      /\ ((exists i, v = IImage i /\ well_labelled i = true)
                          \/ v = IDict
                                   (JObj [("error",
                                           JStr "Could not load product image");
                                          ("image_url", url)])))).
Proof.
  eexists; eexists. split; [vm_compute; reflexivity|].
  apply (show_image_outcomes Scenario.shop "A" Scenario.start).
  vm_compute. reflexivity.
Defined.

(** Searching the sample catalogue with images: four products, three
    fetches, two pictures. *)
Lemma discovery_images_bounded_witness :
  exists v s',
    search_products Scenario.catalogue "a" 1 10 true Scenario.start
      = (Ok v, s')
    /\ List.length (result_images v) = 2%nat
    /\ exists images data,
         v = (if is_empty images then RDict data
              else RList (map CImage images ++ [CJson data]))
         /\ result_json v = Some data
         /\ result_images v = images
         /\ (List.length images <= 3)%nat
         /\ Forall (fun i => well_labelled i = true) images
         /\ (true = false -> images = []).
Proof.
  eexists; eexists. split; [vm_compute; reflexivity|].
  split; [reflexivity|].
  eapply (discovery_images_bounded Scenario.catalogue true Scenario.start).
  left. exists "a", 1, 10. vm_compute. reflexivity.
Defined.

Lemma discovery_requests_bounded_witness :
  exists v s',
    search_products Scenario.catalogue "a" 1 10 true Scenario.start
      = (Ok v, s')
    /\ List.length (issued s') = 4%nat
    /\ exists r new,
         issued s' = issued Scenario.start ++ r :: new
         /\ only_gets (r :: new)
         /\ (List.length new <= 3)%nat
         /\ (List.length (result_images v) <= List.length new)%nat
         /\ (true = false -> new = []).
Proof.
  eexists; eexists. split; [vm_compute; reflexivity|].
  split; [reflexivity|].
  apply (discovery_requests_bounded Scenario.catalogue true Scenario.start).
  left. exists "a", 1, 10. vm_compute. reflexivity.
Defined.

End Products.

(** *** The search results *)

Module Reshaping.
Import Py Http Facade Obs Steps Exchange.

(** What [format_product] makes of a product. *)
Lemma format_product_summarised (p f : json) :
  format_product p = Ok f -> summarised p f.
Proof.
  intros H. unfold format_product in H.
  rstep H as discount Ed. rstep H as id Eid. rstep H as p_name En.
  rstep H as p_price Ep. rstep H as p_mrp Em. rstep H as p_unit Eu.
  rstep H as rating Er. rstep H as review_count Erc. rstep H as eta Ee.
  rstep H as stock Es. rstep H as in_stock Ei. rstep H as dietary Edi.
  rstep H as brand Eb. rstep H as image_url Eim.
  inversion H; subst; clear H.
  unfold summarised. rewrite Eid, En, Ep, Em, Eim, Ed.
  do 6 (split; [reflexivity|]).
  destruct p as [| | | | | |kv]; try discriminate. simpl in Es |- *.
  destruct (dict_get kv "stock") as [v|]; inversion Es; subst stock.
  - split; intros; match goal with E : Ok _ = Ok _ |- _ =>
                       inversion E; subst end.
    + simpl in Ei. inversion Ei. reflexivity.
    + simpl in Ei. discriminate.
  - split; [discriminate|]. intros _. simpl in Ei. inversion Ei. reflexivity.
Qed.

Lemma format_products_aligned (ps fs : list json) :
  format_products ps = Ok fs ->
  Forall2 (fun p f => format_product p = Ok f) ps fs.
Proof.
  revert fs. induction ps as [|p rest IH]; simpl; intros fs H.
  - inversion H. constructor.
  - rstep H as x Ex. rstep H as xs Exs. inversion H; subst.
    constructor; [exact Ex | apply IH; exact Exs].
Qed.

Lemma format_products_raise (pre post : list json) (bad : json)
  (fs : list json) (e : exn) :
  format_products pre = Ok fs -> format_product bad = Raise e ->
  format_products (pre ++ bad :: post) = Raise e.
Proof.
  revert fs. induction pre as [|p rest IH]; simpl; intros fs Hpre Hbad.
  - rewrite Hbad. reflexivity.
  - rstep Hpre as x Ex. rstep Hpre as xs Exs. rewrite Ex. simpl.
    rewrite (IH xs Exs Hbad). reflexivity.
Qed.

Lemma unpriced_product_raises (kv : list (string * json)) (m : Z) :
  dict_get kv "mrp" = Some (JInt m) -> 0 < m -> dict_get kv "price" = None ->
  format_product (JObj kv) = Raise KeyError.
Proof.
  intros Hm Hpos Hp. unfold format_product, discount_with_defaults. simpl.
  rewrite Hm, Hp. simpl. unfold num_gtb. simpl.
  assert (E : (m ?= 0) = Gt) by (apply Z.compare_gt_iff; lia).
  rewrite E. reflexivity.
Qed.

Section Listing.
Context {W : Type}.
Variable handle : request -> W -> option response * W.

(** X13.  [search_products] passes a reply that reports no success on
    unchanged.  Otherwise its dict is the reply with one key set,
    [data.formatted_products]: the summaries of the products of
    [data.products], one for each and in the same order, with name,
    price, reference price and image reference copied, the discount
    computed, and [in_stock] true exactly for a positive stock (false
    when the product has none).  All other keys, [data.products]
    included, are kept. *)
Theorem search_reshapes_in_order (query : string) (page limit : Z)
  (show : bool) (s s' : state W) (v : tool_result) :
  search_products handle query page limit show s = (Ok v, s') ->
  exists res data ok,
    fst (handle (search_request query page limit) (remote s)) = Some res
    /\ parsed res = Some data
    /\ get data "success" = Ok ok
    /\ ((truthy ok = false /\ v = RDict data)
        \/ (truthy ok = true
            /\ exists kv d ps fs,
                 data = JObj kv
                 /\ dict_get kv "data" = Some (JObj d)
                 /\ (products <-? get_default (JObj d) "products" (JArr []) ;;
                     iter products)%res = Ok ps
                 /\ result_json v
                    = Some (JObj (dict_set kv "data"
                                    (JObj (dict_set d "formatted_products"
                                             (JArr fs)))))
                 /\ Forall2 summarised ps fs)).
Proof.
  intros H. unfold search_products in H. apply first_exchange in H.
  destruct H as (res & Hres & H).
  step H as data Edata. apply json_of_ok in Edata. step H as ok Eok.
  exists res, data, ok. split; [exact Hres|]. split; [exact Edata|].
  split; [exact Eok|].
  destruct (truthy ok).
  - right. split; [reflexivity|].
    step H as d Ed. step H as products Ep. step H as ps Eps.
    step H as formatted Ef. step H as d' Ed'. step H as data' Edata'.
    destruct data as [| | | | | |kv]; try discriminate.
    destruct d as [| | | | | |dkv]; try discriminate.
    simpl in Ed. destruct (dict_get kv "data") as [d0|] eqn:Ekv;
      [|discriminate].
    inversion Ed; subst d0. inversion Ed'; subst d'.
    inversion Edata'; subst data'.
    exists kv, dkv, ps, formatted. split; [reflexivity|].
    split; [exact Ekv|]. split; [rewrite Ep; exact Eps|].
    split.
    + destruct show.
      * step H as tops Et. step H as tps Etp. step H as images Ei. finish_ret H.
        apply Images.result_json_with_images.
      * finish_ret H. reflexivity.
    + apply format_products_aligned in Ef.
      eapply Forall2_impl; [|exact Ef].
      intros p f. apply format_product_summarised.
  - left. finish_ret H. split; reflexivity.
Qed.

(** X14.  One product with a positive reference price and no price
    fails the whole search: when the products before it are fine,
    [search_products] raises [KeyError] and returns nothing, although the
    price is first read with a default. *)
Theorem search_fails_on_unpriced_product (query : string) (page limit : Z)
  (show : bool) (s : state W) (res : response)
  (kv d bad : list (string * json)) (ok : json) (pre post fs : list json)
  (m : Z) :
  fst (handle (search_request query page limit) (remote s)) = Some res ->
  parsed res = Some (JObj kv) ->
  dict_get kv "success" = Some ok -> truthy ok = true ->
  dict_get kv "data" = Some (JObj d) ->
  dict_get d "products" = Some (JArr (pre ++ JObj bad :: post)) ->
  format_products pre = Ok fs ->
  dict_get bad "mrp" = Some (JInt m) -> 0 < m ->
  dict_get bad "price" = None ->
  fst (search_products handle query page limit show s) = Raise KeyError.
Proof.
  intros Hres Hp Hok Ht Hd Hps Hpre Hm Hpos Hprice.
  unfold search_products. rewrite bind_send.
  fold (search_request query page limit). rewrite Hres.
  rewrite bind_lift. unfold json_of. rewrite Hp.
  rewrite bind_lift. simpl get. rewrite Hok. rewrite Ht.
  rewrite bind_lift. simpl index. rewrite Hd.
  rewrite ?bind_lift. simpl get_default. rewrite Hps.
  rewrite ?bind_lift. simpl iter.
  cbv beta iota. rewrite bind_lift.
  rewrite (format_products_raise pre post (JObj bad) fs KeyError Hpre
             (unpriced_product_raises bad m Hm Hpos Hprice)).
  reflexivity.
Qed.

(** X15.  The request of [filter_products] is a GET of
    [/products/filter] whose parameters are [page], [limit] and [sortBy]
    always, [category], [dietary] and [brand] when given and not empty,
    [minPrice] and [maxPrice] when given (zero included), and [inStock]
    with the text [true] when the flag is set; the flag off sends no
    [inStock] at all. *)
Theorem filter_request_params (category : option string)
  (min_price max_price : option spec_float) (dietary brand : option string)
  (in_stock : bool) (sort_by : string) (page limit : Z) (show : bool)
  (s : state W) :
  exists r new,
    issued (snd (filter_products handle category min_price max_price dietary
                   brand in_stock sort_by page limit show s))
    = issued s ++ r :: new
    /\ req_method r = GET
    /\ req_url r = (BASE_URL ++ "/products/filter")%string
    /\ dict_get (req_params r) "page" = Some (JInt page)
    /\ dict_get (req_params r) "limit" = Some (JInt limit)
    /\ dict_get (req_params r) "sortBy" = Some (JStr sort_by)
    /\ dict_get (req_params r) "category" = optional category
    /\ dict_get (req_params r) "minPrice" = option_map JFloat min_price
    /\ dict_get (req_params r) "maxPrice" = option_map JFloat max_price
    /\ dict_get (req_params r) "dietary" = optional dietary
    /\ dict_get (req_params r) "brand" = optional brand
    /\ dict_get (req_params r) "inStock"
       = (if in_stock then Some (JStr "true") else None).
Proof.
  unfold filter_products.
  match goal with
  | |- context [bind (send handle ?r0) ?k] =>
      set (r := r0); set (rest := k); exists r
  end.
  assert (Hk : forall res s1,
             exists new, issued (snd (rest res s1)) = issued s1 ++ new).
  { intros res s1. subst rest.
    destruct (Frame.reads_only_bind handle (lift (json_of res))
                (fun data => attach_images handle show data)
                (Frame.reads_only_lift handle _)
                (fun data => Frame.reads_only_attach handle show data) s1)
      as (new & I & _).
    exists new. exact I. }
  assert (Hi : exists new,
             issued (snd (bind (send handle r) rest s)) = issued s ++ r :: new).
  { rewrite bind_send.
    destruct (fst (handle r (remote s))) as [res|]; [|exists []; reflexivity].
    destruct (Hk res (after handle r s)) as (new & I).
    exists new. rewrite I. simpl. rewrite <- app_assoc. reflexivity. }
  destruct Hi as (new & Hi). exists new. split; [exact Hi|].
  clear Hi Hk. subst r. cbn [req_method req_url req_params].
  split; [reflexivity|]. split; [reflexivity|].
  rewrite !Passthrough.optional_nonempty.
  repeat split;
    (destruct in_stock;
     rewrite ?Deriver.dict_get_set_same;
     rewrite ?Deriver.dict_get_set_other by discriminate;
     rewrite ?Passthrough.dict_get_with_param; simpl;
     repeat match goal with
            | |- context [match ?x with _ => _ end] => destruct x
            end;
     reflexivity).
Qed.

End Listing.

(** The sample catalogue: four products, four summaries. *)
Lemma search_reshapes_in_order_witness :
  exists v s',
    search_products Scenario.catalogue "a" 1 10 false Scenario.start
      = (Ok v, s')
    /\ exists res data ok,
         fst (Scenario.catalogue (search_request "a" 1 10)
                (remote Scenario.start)) = Some res
         /\ parsed res = Some data
         /\ get data "success" = Ok ok
         /\ ((truthy ok = false /\ v = RDict data)
             \/ (truthy ok = true
                 /\ exists kv d ps fs,
                      data = JObj kv
                      /\ dict_get kv "data" = Some (JObj d)
                      /\ (products <-? get_default (JObj d) "products"
                                         (JArr []) ;;
                          iter products)%res = Ok ps
                      /\ result_json v
                         = Some (JObj (dict_set kv "data"
                                         (JObj (dict_set d "formatted_products"
                                                  (JArr fs)))))
                      /\ Forall2 summarised ps fs)).
Proof.
  eexists; eexists. split; [vm_compute; reflexivity|].
  eapply (search_reshapes_in_order Scenario.catalogue "a" 1 10 false
            Scenario.start).
  vm_compute. reflexivity.
Defined.

(** The second product of the broken catalogue has no price. *)
Lemma search_fails_on_unpriced_product_witness :
  fst (search_products Scenario.broken_catalogue "box" 1 10 true
         Scenario.start) = Raise KeyError.
Proof.
  eapply (search_fails_on_unpriced_product Scenario.broken_catalogue "box" 1
            10 true Scenario.start)
    with (pre := [Scenario.apple]) (post := [Scenario.bread]) (m := 50)
         (bad := [("_id", JStr "U"); ("name", JStr "Mystery box");
                  ("mrp", JInt 50)]);
    reflexivity.
Defined.

End Reshaping.

(** *** The cart view, continued *)

Module Cart.
Import Py Http Facade Obs Steps Exchange.




Lemma format_items_reshaped (items lines : list json) :
  format_items items = Ok lines -> Forall2 line_reshaped items lines.
Proof.
  revert lines. induction items as [|item rest IH]; simpl; intros lines H.
  - inversion H. constructor.
  - rstep H as product_id Eid. rstep H as i_name En.
    rstep H as quantity Eq. rstep H as ppu Ep.
    rstep H as p0 Ep0. rstep H as q1 Eq1.
    rstep H as total Et. rstep H as i_unit Eu.
    rstep H as i_image Ei. rstep H as xs Exs.
    inversion H; subst; clear H.
    constructor; [|apply IH; exact Exs].
    unfold line_reshaped. rewrite Eid, En, Eq, Ep.
    repeat split. intros p q Hp Hq. inversion Hp; subst. inversion Hq; subst.
    destruct item as [| | | | | |kv]; try discriminate.
    simpl in Ep, Eq, Ep0, Eq1.
    destruct (dict_get kv "price") as [pv|]; [|discriminate].
    destruct (dict_get kv "quantity") as [qv|]; [|discriminate].
    inversion Ep; inversion Eq; inversion Ep0; inversion Eq1; subst.
    inversion Et; subst. reflexivity.
Qed.

Lemma iter_len (j : json) (l : list json) (n : Z) :
  iter j = Ok l -> len j = Ok n -> n = Z.of_nat (List.length l).
Proof.
  destruct j; simpl; try discriminate; intros Hi Hl;
    inversion Hi; inversion Hl; subst; rewrite ?length_map; reflexivity.
Qed.

Section View.
Context {W : Type}.
Variable handle : request -> W -> option response * W.
Variable py_repr : json -> string.

(** The run of [view_cart], read off step by step. *)
Lemma view_cart_steps (s s' : state W) (v : json) :
  view_cart handle py_repr s = (Ok v, s') ->
  let h := headers_in py_repr s in
  let s1 := after handle (cart_request h) s in
  exists cres cart_data ok,
    fst (handle (cart_request h) (remote s)) = Some cres
    /\ parsed cres = Some cart_data
    /\ get cart_data "success" = Ok ok
    /\ ((truthy ok = false /\ v = cart_data /\ s' = s1)
        \/ (truthy ok = true
            /\ s' = after handle (addresses_request h) s1
            /\ exists ares address_data a_ok addr cd cart cart_items items
                      lines n total bill bill' threshold to_free msg,
                 fst (handle (addresses_request h) (remote s1)) = Some ares
                 /\ parsed ares = Some address_data
                 /\ get address_data "success" = Ok a_ok
                 /\ (if truthy a_ok then
                       (ad <-? index address_data "data" ;;
                        addresses <-? get_default ad "addresses" (JArr []) ;;
                        addrs <-? iter addresses ;;
                        find_default addrs)%res
                     else Ok JNull) = Ok addr
                 /\ index cart_data "data" = Ok cd
                 /\ index cd "cart" = Ok cart
                 /\ get_default cart "items" (JArr []) = Ok cart_items
                 /\ iter cart_items = Ok items
                 /\ format_items items = Ok lines
                 /\ len cart_items = Ok n
                 /\ get_default cart "totalItems" (JInt n) = Ok total
                 /\ get_default cd "bill" (JObj []) = Ok bill
                 /\ index cd "bill" = Ok bill'
                 /\ get_default bill' "freeDeliveryThreshold" (JInt 199)
                    = Ok threshold
                 /\ get_default bill' "amountToFreeDelivery" (JInt 0)
                    = Ok to_free
                 /\ cart_message py_repr addr n 15 = Ok msg
                 /\ v = JObj
                     [("success", JBool true);
                      ("data", JObj
                         [("cart", JObj
                             [("items", JArr lines);
                              ("total_items", total);
                              ("item_count", JInt n)]);
                          ("bill", bill);
                          ("delivery", JObj
                             [("estimated_mins", JInt 15);
                              ("estimated_time", JStr "~15 minutes");
                              ("free_delivery_threshold", threshold);
                              ("amount_to_free_delivery", to_free)]);
                          ("selected_address", addr);
                          ("has_address", JBool (negb (is_none addr)));
                          ("ready_for_checkout",
                           JBool (negb (is_none addr) && (n >? 0)));
                          ("message", JStr msg)])])).
Proof.
  intros H h s1. unfold view_cart in H.
  unfold bind at 1 in H. rewrite Deriver.headers_eq in H. fold h in H.
  apply first_exchange in H. destruct H as (cres & Hc & H).
  fold (cart_request h) in Hc, H. fold s1 in H.
  step H as cart_data Ejson. apply json_of_ok in Ejson. step H as ok Eok.
  exists cres, cart_data, ok. split; [exact Hc|]. split; [exact Ejson|].
  split; [exact Eok|].
  destruct (truthy ok); simpl in H.
  - right. split; [reflexivity|].
    unfold bind at 1 in H. rewrite Deriver.headers_eq in H.
    change (headers_in py_repr s1) with h in H.
    apply first_exchange in H. destruct H as (ares & Ha & H).
    fold (addresses_request h) in Ha, H.
    step H as address_data Eaj. apply json_of_ok in Eaj.
    step H as a_ok Eaok. step H as addr Edef.
    step H as cd Ecd. step H as cart Ec. step H as cart_items Eitems.
    step H as its Eits. step H as formatted Efmt. step H as n En.
    step H as total Etot. step H as bill Ebill. step H as bill' Ebill'.
    step H as threshold Ethr. step H as to_free Efree. step H as msg Emsg.
    finish_ret H. split; [reflexivity|].
    exists ares, address_data, a_ok, addr, cd, cart, cart_items, its,
      formatted, n, total, bill, bill', threshold, to_free, msg.
    repeat split; assumption.
  - left. finish_ret H. repeat split.
Qed.

(** A reshaped answer comes from the second branch. *)
Lemma view_cart_success (s s' : state W) (v ok : json) :
  view_cart handle py_repr s = (Ok v, s') ->
  get v "success" = Ok ok -> truthy ok = true ->
  let h := headers_in py_repr s in
  let s1 := after handle (cart_request h) s in
  s' = after handle (addresses_request h) s1
  /\ exists cres cart_data ares address_data a_ok addr cd cart cart_items
            items lines n total bill bill' threshold to_free msg,
       fst (handle (cart_request h) (remote s)) = Some cres
       /\ parsed cres = Some cart_data
       /\ fst (handle (addresses_request h) (remote s1)) = Some ares
       /\ parsed ares = Some address_data
       /\ get address_data "success" = Ok a_ok
       /\ (if truthy a_ok then
             (ad <-? index address_data "data" ;;
              addresses <-? get_default ad "addresses" (JArr []) ;;
              addrs <-? iter addresses ;;
              find_default addrs)%res
           else Ok JNull) = Ok addr
       /\ index cart_data "data" = Ok cd
       /\ index cd "cart" = Ok cart
       /\ get_default cart "items" (JArr []) = Ok cart_items
       /\ iter cart_items = Ok items
       /\ format_items items = Ok lines
       /\ len cart_items = Ok n
       /\ get_default cart "totalItems" (JInt n) = Ok total
       /\ get_default cd "bill" (JObj []) = Ok bill
       /\ index cd "bill" = Ok bill'
       /\ get_default bill' "freeDeliveryThreshold" (JInt 199) = Ok threshold
       /\ get_default bill' "amountToFreeDelivery" (JInt 0) = Ok to_free
       /\ cart_message py_repr addr n 15 = Ok msg
       /\ v = JObj
           [("success", JBool true);
            ("data", JObj
               [("cart", JObj
                   [("items", JArr lines);
                    ("total_items", total);
                    ("item_count", JInt n)]);
                ("bill", bill);
                ("delivery", JObj
                   [("estimated_mins", JInt 15);
                    ("estimated_time", JStr "~15 minutes");
                    ("free_delivery_threshold", threshold);
                    ("amount_to_free_delivery", to_free)]);
                ("selected_address", addr);
                ("has_address", JBool (negb (is_none addr)));
                ("ready_for_checkout",
                 JBool (negb (is_none addr) && (n >? 0)));
                ("message", JStr msg)])].
Proof.
  intros H Hs Ht h s1. apply view_cart_steps in H. fold h s1 in H.
  destruct H as (cres & cart_data & ok0 & Hc & Hp & Hok
                 & [(Hf & -> & _) | (_ & Hs' & H)]).
  - rewrite Hs in Hok. inversion Hok; subst. congruence.
  - split; [exact Hs'|].
    destruct H as (ares & address_data & a_ok & addr & cd & cart & cart_items
                   & items & lines & n & total & bill & bill' & threshold
                   & to_free & msg & H).
    exists cres, cart_data, ares, address_data, a_ok, addr, cd, cart,
      cart_items, items, lines, n, total, bill, bill', threshold, to_free,
      msg.
    split; [exact Hc|]. split; [exact Hp|]. exact H.
Qed.

(** X17.  When the address book answers without success, [view_cart]
    still returns the cart, as a cart without an address: no selected
    address, [has_address] and [ready_for_checkout] false, and the
    message that no delivery address is set. *)
Theorem address_lookup_failure_means_no_address (s s' : state W)
  (v ok : json) (ares : response) (address_data a_ok : json) :
  view_cart handle py_repr s = (Ok v, s') ->
  get v "success" = Ok ok -> truthy ok = true ->
  let h := headers_in py_repr s in
  fst (handle (addresses_request h)
         (remote (after handle (cart_request h) s))) = Some ares ->
  parsed ares = Some address_data ->
  get address_data "success" = Ok a_ok -> truthy a_ok = false ->
  lookup_path v ["data"; "selected_address"] = Some JNull
  /\ lookup_path v ["data"; "has_address"] = Some (JBool false)
  /\ lookup_path v ["data"; "ready_for_checkout"] = Some (JBool false)
  /\ lookup_path v ["data"; "message"] = Some (JStr msg_no_address).
Proof.
  intros H Hs Ht h Ha Hp Hok Hf.
  destruct (view_cart_success s s' v ok H Hs Ht) as (_ & H').
  fold h in H'.
  destruct H' as (cres & cart_data & ares' & address_data' & a_ok' & addr
                  & cd & cart & cart_items & items & lines & n & total & bill
                  & bill' & threshold & to_free & msg & _ & _ & Ha' & Hp'
                  & Hok' & Hd & _ & _ & _ & _ & _ & _ & _ & _ & _ & _ & _
                  & Hm & ->).
  rewrite Ha in Ha'. inversion Ha'; subst ares'.
  rewrite Hp in Hp'. inversion Hp'; subst address_data'.
  rewrite Hok in Hok'. inversion Hok'; subst a_ok'.
  rewrite Hf in Hd. inversion Hd; subst addr.
  inversion Hm; subst msg. repeat split.
Qed.

(** X18.  The items [view_cart] returns are the lines of the upstream
    cart, one for each and in the same order, with product identifier,
    name, quantity and unit price copied and, for an integer price and
    quantity, their product as the line total; [item_count] is the
    number of lines. *)
Theorem cart_lines_reshaped (s s' : state W) (v ok : json) :
  view_cart handle py_repr s = (Ok v, s') ->
  get v "success" = Ok ok -> truthy ok = true ->
  exists cres cart_data cart cart_items items lines,
    fst (handle (cart_request (headers_in py_repr s)) (remote s)) = Some cres
    /\ parsed cres = Some cart_data
    /\ lookup_path cart_data ["data"; "cart"] = Some cart
    /\ get_default cart "items" (JArr []) = Ok cart_items
    /\ iter cart_items = Ok items
    /\ lookup_path v ["data"; "cart"; "items"] = Some (JArr lines)
    /\ Forall2 line_reshaped items lines
    /\ lookup_path v ["data"; "cart"; "item_count"]
       = Some (JInt (Z.of_nat (List.length items))).
Proof.
  intros H Hs Ht.
  destruct (view_cart_success s s' v ok H Hs Ht) as (_ & H').
  destruct H' as (cres & cart_data & ares & address_data & a_ok & addr
                  & cd & cart & cart_items & items & lines & n & total & bill
                  & bill' & threshold & to_free & msg & Hc & Hp & _ & _
                  & _ & _ & Hcd & Hcart & Hitems & Hit & Hfmt & Hn & _ & _
                  & _ & _ & _ & _ & ->).
  exists cres, cart_data, cart, cart_items, items, lines.
  split; [exact Hc|]. split; [exact Hp|].
  split.
  { destruct cart_data as [| | | | | |kv]; try discriminate. simpl in Hcd |- *.
    destruct (dict_get kv "data") as [d0|]; [|discriminate].
    inversion Hcd; subst d0.
    destruct cd as [| | | | | |dkv]; try discriminate. simpl in Hcart.
    destruct (dict_get dkv "cart") as [c0|]; [|discriminate].
    inversion Hcart; subst c0. destruct cart; reflexivity. }
  split; [exact Hitems|]. split; [exact Hit|]. split; [reflexivity|].
  split; [apply format_items_reshaped; exact Hfmt|].
  rewrite (iter_len _ _ _ Hit Hn). reflexivity.
Qed.

(** X19.  Whenever [view_cart] returns an answer that reports success,
    the cart reply had a [data.bill] and it was a dict, and the bill
    returned is that dict: the default [{}] of the first read is never
    what comes back.  The free-delivery threshold and the amount still
    missing are read from that bill, with 199 and 0 when absent. *)
Theorem bill_is_upstream (s s' : state W) (v ok : json) :
  view_cart handle py_repr s = (Ok v, s') ->
  get v "success" = Ok ok -> truthy ok = true ->
  exists cres cart_data bill,
    fst (handle (cart_request (headers_in py_repr s)) (remote s)) = Some cres
    /\ parsed cres = Some cart_data
    /\ lookup_path cart_data ["data"; "bill"] = Some (JObj bill)
    /\ lookup_path v ["data"; "bill"] = Some (JObj bill)
    /\ lookup_path v ["data"; "delivery"; "free_delivery_threshold"]
       = Some match dict_get bill "freeDeliveryThreshold" with
              | Some t => t
              | None => JInt 199
              end
    /\ lookup_path v ["data"; "delivery"; "amount_to_free_delivery"]
       = Some match dict_get bill "amountToFreeDelivery" with
              | Some t => t
              | None => JInt 0
              end.
Proof.
  intros H Hs Ht.
  destruct (view_cart_success s s' v ok H Hs Ht) as (_ & H').
  destruct H' as (cres & cart_data & ares & address_data & a_ok & addr
                  & cd & cart & cart_items & items & lines & n & total & bill
                  & bill' & threshold & to_free & msg & Hc & Hp & _ & _
                  & _ & _ & Hcd & _ & _ & _ & _ & _ & _ & Hb & Hb' & Hthr
                  & Hfree & _ & ->).
  destruct cart_data as [| | | | | |kv]; try discriminate. simpl in Hcd.
  destruct (dict_get kv "data") as [d0|] eqn:Ed; [|discriminate].
  inversion Hcd; subst d0.
  destruct cd as [| | | | | |dkv]; try discriminate. simpl in Hb, Hb'.
  destruct (dict_get dkv "bill") as [b0|] eqn:Eb; [|discriminate].
  inversion Hb; inversion Hb'; subst.
  destruct bill' as [| | | | | |bkv]; try discriminate.
  simpl in Hthr, Hfree. inversion Hthr; inversion Hfree; subst.
  exists cres, (JObj kv), bkv. split; [exact Hc|]. split; [exact Hp|].
  simpl. rewrite Ed, Eb. repeat split.
Qed.

(** X20.  A [view_cart] that returns has issued the cart request and
    then, exactly when its answer reports success, the address request,
    and nothing else; both are GET requests with the session headers in
    force at the start. *)
Theorem view_cart_two_reads (s s' : state W) (v : json) :
  view_cart handle py_repr s = (Ok v, s') ->
  let h := headers_in py_repr s in
  req_method (cart_request h) = GET
  /\ req_method (addresses_request h) = GET
  /\ exists ok,
       get v "success" = Ok ok
       /\ issued s'
          = issued s ++ (if truthy ok
                         then [cart_request h; addresses_request h]
                         else [cart_request h]).
Proof.
  intros H h. split; [reflexivity|]. split; [reflexivity|].
  apply view_cart_steps in H. fold h in H.
  destruct H as (cres & cart_data & ok0 & Hc & Hp & Hok
                 & [(Hf & -> & ->) | (_ & -> & H)]).
  - exists ok0. split; [exact Hok|]. rewrite Hf. reflexivity.
  - destruct H as (ares & address_data & a_ok & addr & cd & cart & cart_items
                   & items & lines & n & total & bill & bill' & threshold
                   & to_free & msg & _ & _ & _ & _ & _ & _ & _ & _ & _ & _
                   & _ & _ & _ & _ & _ & _ & ->).
    exists (JBool true). split; [reflexivity|].
    simpl. rewrite <- app_assoc. reflexivity.
Qed.

(** X21.  [view_cart] needs both reads: a transport failure of the
    cart request, or of the address request after a cart reply that
    reports success, raises to the caller; the cart already read is
    not returned. *)
Theorem view_cart_needs_both_reads (s : state W) :
  let h := headers_in py_repr s in
  let s1 := after handle (cart_request h) s in
  fst (handle (cart_request h) (remote s)) = None
  \/ (exists cres cart_data ok,
        fst (handle (cart_request h) (remote s)) = Some cres
        /\ parsed cres = Some cart_data
        /\ get cart_data "success" = Ok ok /\ truthy ok = true
        /\ fst (handle (addresses_request h) (remote s1)) = None) ->
  fst (view_cart handle py_repr s) = Raise HTTPError.
Proof.
  intros h s1 H. unfold view_cart.
  unfold bind at 1. rewrite Deriver.headers_eq. fold h.
  rewrite bind_send. fold (cart_request h). fold s1.
  destruct H as [-> | (cres & cart_data & ok & -> & Hp & Hok & Ht & Ha)];
    [reflexivity|].
  rewrite bind_lift. unfold json_of. rewrite Hp.
  rewrite bind_lift. rewrite Hok. rewrite Ht.
  change (negb true) with false. cbv iota.
  unfold bind at 1. rewrite Deriver.headers_eq.
  change (headers_in py_repr s1) with h.
  rewrite bind_send. fold (addresses_request h). rewrite Ha.
  reflexivity.
Qed.

End View.


(** The address book of the service is missing: the reply to the
    address request is "not found". *)
Lemma address_lookup_failure_means_no_address_witness :
  exists v s',
    view_cart Scenario.no_address_book Scenario.repr_stub Scenario.start
      = (Ok v, s')
    /\ lookup_path v ["data"; "cart"; "item_count"] = Some (JInt 2)
    /\ lookup_path v ["data"; "selected_address"] = Some JNull
    /\ lookup_path v ["data"; "has_address"] = Some (JBool false)
    /\ lookup_path v ["data"; "ready_for_checkout"] = Some (JBool false)
    /\ lookup_path v ["data"; "message"] = Some (JStr msg_no_address).
Proof.
  eexists; eexists. split; [vm_compute; reflexivity|].
  split; [reflexivity|].
  eapply (address_lookup_failure_means_no_address Scenario.no_address_book
            Scenario.repr_stub Scenario.start);
    [vm_compute; reflexivity | reflexivity ..].
Defined.

(** The ready cart: two lines, at 75 and 40. *)
Lemma cart_lines_reshaped_witness :
  exists v s',
    view_cart Scenario.ready Scenario.repr_stub Scenario.start = (Ok v, s')
    /\ exists cres cart_data cart cart_items items lines,
         fst (Scenario.ready
                (cart_request (headers_in Scenario.repr_stub Scenario.start))
                (remote Scenario.start)) = Some cres
         /\ parsed cres = Some cart_data
         /\ lookup_path cart_data ["data"; "cart"] = Some cart
         /\ get_default cart "items" (JArr []) = Ok cart_items
         /\ iter cart_items = Ok items
         /\ lookup_path v ["data"; "cart"; "items"] = Some (JArr lines)
         /\ Forall2 line_reshaped items lines
         /\ lookup_path v ["data"; "cart"; "item_count"]
            = Some (JInt (Z.of_nat (List.length items))).
Proof.
  eexists; eexists. split; [vm_compute; reflexivity|].
  eapply (cart_lines_reshaped Scenario.ready Scenario.repr_stub
            Scenario.start);
    [vm_compute; reflexivity | reflexivity ..].
Defined.

Lemma bill_is_upstream_witness :
  exists v s',
    view_cart Scenario.ready Scenario.repr_stub Scenario.start = (Ok v, s')
    /\ lookup_path v ["data"; "bill"]
       = Some (JObj [("subtotal", JInt 115)])
    /\ exists cres cart_data bill,
         fst (Scenario.ready
                (cart_request (headers_in Scenario.repr_stub Scenario.start))
                (remote Scenario.start)) = Some cres
         /\ parsed cres = Some cart_data
         /\ lookup_path cart_data ["data"; "bill"] = Some (JObj bill)
         /\ lookup_path v ["data"; "bill"] = Some (JObj bill)
         /\ lookup_path v ["data"; "delivery"; "free_delivery_threshold"]
            = Some match dict_get bill "freeDeliveryThreshold" with
                   | Some t => t
                   | None => JInt 199
                   end
         /\ lookup_path v ["data"; "delivery"; "amount_to_free_delivery"]
            = Some match dict_get bill "amountToFreeDelivery" with
                   | Some t => t
                   | None => JInt 0
                   end.
Proof.
  eexists; eexists. split; [vm_compute; reflexivity|].
  split; [reflexivity|].
  eapply (bill_is_upstream Scenario.ready Scenario.repr_stub Scenario.start);
    [vm_compute; reflexivity | reflexivity ..].
Defined.

Lemma view_cart_two_reads_witness :
  exists v s',
    view_cart Scenario.ready Scenario.repr_stub Scenario.start = (Ok v, s')
    /\ req_method (cart_request [("Content-Type", "application/json")]) = GET
    /\ req_method (addresses_request [("Content-Type", "application/json")])
       = GET
    /\ exists ok,
         get v "success" = Ok ok
         /\ issued s'
            = issued Scenario.start
                ++ (if truthy ok
                    then [cart_request [("Content-Type", "application/json")];
                          addresses_request
                            [("Content-Type", "application/json")]]
                    else [cart_request
                            [("Content-Type", "application/json")]]).
Proof.
  eexists; eexists. split; [vm_compute; reflexivity|].
  apply (view_cart_two_reads Scenario.ready Scenario.repr_stub
           Scenario.start).
  vm_compute. reflexivity.
Defined.

(** The address book cannot be reached. *)
Lemma view_cart_needs_both_reads_witness :
  fst (view_cart Scenario.address_book_down Scenario.repr_stub
         Scenario.start) = Raise HTTPError.
Proof.
  apply (view_cart_needs_both_reads Scenario.address_book_down
           Scenario.repr_stub Scenario.start).
  right. eexists; eexists; eexists.
  split; [reflexivity|]. split; [reflexivity|]. split; [reflexivity|].
  split; reflexivity.
Defined.

End Cart.

(** *** The deriver and the confirmed call, continued *)

Module History.
Import Py Http Facade Obs Steps Exchange.

(** A hashable value is the same as, or equal to, itself. *)
Lemma same_or_eq_refl (k : json) : hashable k = true -> same_or_eq k k = true.
Proof.
  destruct k as [| b | n | f | t | l | kv]; simpl; intros H;
    try discriminate; unfold same_or_eq; simpl.
  - reflexivity.
  - unfold num_eqb. simpl. rewrite Z.compare_refl. reflexivity.
  - unfold num_eqb. simpl. rewrite Z.compare_refl. reflexivity.
  - destruct f as [z | i | | sg m e]; simpl; try reflexivity.
    + destruct i; reflexivity.
    + unfold num_eqb. simpl. rewrite Z.compare_refl.
      change (Pos.compare_cont Eq m m) with (Pos.compare m m).
      rewrite Pos.compare_refl. destruct sg; reflexivity.
  - apply String.eqb_refl.
Qed.

Lemma co_incr_counted (co : co_table) (k : json) :
  counted co -> counted (co_incr co k).
Proof.
  unfold counted. induction 1 as [|[k' e] rest Hx Hrest IH]; simpl;
    [constructor|].
  simpl in Hx. destruct (same_or_eq k' k); constructor; simpl;
    try assumption; lia.
Qed.

Lemma co_incr_new (co : co_table) (k : json) (e : entry) :
  co_mem co k = false -> same_or_eq k k = true ->
  co_incr (co ++ [(k, e)]) k
  = co ++ [(k, mkEntry (count e + 1) (name e) (price e) (image e) (unit e))].
Proof.
  intros Hm Hk. induction co as [|[k' e'] rest IH]; simpl.
  - rewrite Hk. reflexivity.
  - simpl in Hm. apply orb_false_iff in Hm. destruct Hm as [H1 H2].
    rewrite H1. rewrite (IH H2). reflexivity.
Qed.

Lemma record_items_counted (added_id : string) (items : list json) :
  forall co co',
    counted co -> record_items added_id items co = Ok co' -> counted co'.
Proof.
  induction items as [|item rest IH]; simpl; intros co co' Hco H.
  - inversion H; subst; assumption.
  - rstep H as id Eid.
    destruct (py_eq id (JStr added_id)); [eauto|].
    destruct (hashable id) eqn:Hh; simpl in H; [|discriminate].
    rstep H as co1 E1. eapply IH; [|exact H].
    destruct (co_mem co id) eqn:Hm.
    + inversion E1; subst. apply co_incr_counted. exact Hco.
    + rstep E1 as n En. rstep E1 as p Ep. rstep E1 as i Ei.
      rstep E1 as u Eu. inversion E1; subst.
      rewrite (co_incr_new co id _ Hm (same_or_eq_refl id Hh)).
      apply Forall_app. split; [exact Hco|].
      constructor; [simpl; lia | constructor].
Qed.

Lemma scan_orders_counted (added_id : string) (orders : list json) :
  forall co co',
    counted co -> scan_orders added_id orders co = Ok co' -> counted co'.
Proof.
  induction orders as [|order rest IH]; simpl; intros co co' Hco H.
  - inversion H; subst; assumption.
  - rstep H as items Ei. rstep H as its Eits. rstep H as has Eh.
    destruct has; [|eauto].
    rstep H as co1 E1. eapply IH; [|exact H].
    eapply record_items_counted; eassumption.
Qed.

(** Orders that do not contain the product, and orders that contain
    nothing else, leave the table as it is. *)
Lemma record_items_only_added (added_id : string) (items : list json)
  (ids : list string) (co : co_table) :
  Forall2 line_of items ids -> Forall (fun id => id = added_id) ids ->
  record_items added_id items co = Ok co.
Proof.
  induction 1 as [|item id items ids Hl _ IH]; intros Hall; [reflexivity|].
  inversion Hall; subst. simpl.
  rewrite (Counting.line_id _ _ Hl). simpl. rewrite String.eqb_refl.
  apply IH. assumption.
Qed.

Lemma scan_orders_no_companion (added_id : string) (orders : list json)
  (idss : list (list string)) (co : co_table) :
  history_of orders idss ->
  Forall (fun ids => contains added_id ids = false
                     \/ Forall (fun id => id = added_id) ids) idss ->
  scan_orders added_id orders co = Ok co.
Proof.
  induction 1 as [|order ids orders idss Ho _ IH]; intros Hall;
    [reflexivity|].
  inversion Hall as [|? ? Hids Hrest]; subst.
  destruct Ho as (kv & items & -> & Hitems & Hlines).
  simpl scan_orders. rewrite Hitems. simpl rbind.
  rewrite (Counting.lines_contain added_id _ _ Hlines). simpl rbind.
  destruct (contains added_id ids) eqn:Hc.
  - destruct Hids as [Hf | Hall']; [discriminate|].
    rewrite (record_items_only_added added_id items ids co Hlines Hall').
    simpl rbind. apply IH. exact Hrest.
  - apply IH. exact Hrest.
Qed.

Section Requests.
Context {W : Type}.
Variable handle : request -> W -> option response * W.
Variable py_repr : json -> string.
Variable grouped_of_float : spec_float -> string.

(** X22.  A recommendation always reports that the product was bought
    together with the added one at least once:
    [times_bought_together] is an integer not below 1. *)
Theorem recommendation_count_positive (added_id : string)
  (added_name : json) (s s' : state W) (r : json) :
  _get_recommendation_from_history handle py_repr added_id added_name s
    = (Ok (Some r), s') ->
  exists n,
    lookup_path r ["times_bought_together"] = Some (JInt n) /\ 1 <= n.
Proof.
  intros H. apply Deriver.deriver_some in H.
  destruct H as (os & s1 & co & top_id & top_data & rest & _ & Hscan & Hs
                 & _ & Hn).
  exists (count top_data). split; [exact Hn|].
  assert (Hc : counted co)
    by (apply (scan_orders_counted added_id os [] co (Forall_nil _) Hscan)).
  assert (Hin : In (top_id, top_data) co).
  { apply Deriver.sorted_products_In. rewrite Hs. left. reflexivity. }
  unfold counted in Hc. rewrite Forall_forall in Hc.
  apply (Hc _ Hin).
Qed.


(** X24.  When no order of the history holds another product next to
    the added one (each order either lacks the product or holds nothing
    else), there is no recommendation: the deriver returns [None] after
    the history request, without an error and without a second
    request. *)
Theorem no_companion_no_recommendation (added_id : string)
  (added_name : json) (s s1 : state W) (os : list json)
  (idss : list (list string)) :
  fetch_orders handle py_repr s = (Ok (Some os), s1) ->
  history_of os idss ->
  Forall (fun ids => contains added_id ids = false
                     \/ Forall (fun id => id = added_id) ids) idss ->
  _get_recommendation_from_history handle py_repr added_id added_name s
    = (Ok None, s1)
  /\ issued s1 = issued s ++ [orders_request (headers_in py_repr s)].
Proof.
  intros Hf Hh Hall. split.
  - rewrite Deriver.deriver_run, Hf.
    rewrite (scan_orders_no_companion added_id os idss [] Hh Hall).
    reflexivity.
  - rewrite Deriver.fetch_orders_run in Hf. inversion Hf. reflexivity.
Qed.

(** X25.  A confirmed [add_to_cart] whose POST is answered without
    success, or whose product lookup gave no name, returns the answer to
    the POST as it is, no [has_recommendation] added, and stops there:
    the POST is the last request, after the GET requests of the lookup,
    and the order history is not asked for. *)
Theorem refused_add_is_returned_unchanged (product_id : string)
  (quantity : Z) (s s1 : state W) (n : json) (res : response)
  (result : list (string * json)) (ok : json) :
  lookup_product_name handle product_id s = (Ok n, s1) ->
  let post := add_item_request product_id quantity (headers_in py_repr s1) in
  fst (handle post (remote s1)) = Some res ->
  parsed res = Some (JObj result) ->
  dict_get result "success" = Some ok ->
  truthy ok = false \/ truthy n = false ->
  add_to_cart handle py_repr grouped_of_float product_id quantity true s
  = (Ok (RDict (JObj result)), after handle post s1)
  /\ exists pre, issued s1 = issued s ++ pre /\ only_gets pre.
Proof.
  intros Hl post Hres Hp Hok Hf. split.
  - rewrite (Deriver.confirmed_run handle py_repr grouped_of_float product_id
               quantity s s1 n res result ok Hl Hres Hp Hok).
    destruct Hf as [-> | ->]; [reflexivity|].
    rewrite andb_false_r. reflexivity.
  - destruct (Frame.reads_only_lookup_name handle product_id s)
      as (pre & I & G & _).
    rewrite Hl in I. simpl in I. exists pre. split; assumption.
Qed.

End Requests.

(** On the sample shop the companion of A was bought with it three
    times. *)
Lemma recommendation_count_positive_witness :
  exists r s',
    _get_recommendation_from_history Scenario.shop Scenario.repr_stub "A"
      (JStr "Apple") Scenario.start = (Ok (Some r), s')
    /\ lookup_path r ["times_bought_together"] = Some (JInt 3)
    /\ exists n,
         lookup_path r ["times_bought_together"] = Some (JInt n) /\ 1 <= n.
Proof.
  eexists; eexists. split; [vm_compute; reflexivity|].
  split; [reflexivity|].
  eapply (recommendation_count_positive Scenario.shop Scenario.repr_stub "A"
            (JStr "Apple") Scenario.start).
  vm_compute. reflexivity.
Defined.

(** Product Z is in no order of the sample history. *)
Lemma no_companion_no_recommendation_witness :
  exists s1,
    _get_recommendation_from_history Scenario.shop Scenario.repr_stub "Z"
      (JStr "Zucchini") Scenario.start = (Ok None, s1)
    /\ issued s1
       = issued Scenario.start
           ++ [orders_request
                 (headers_in Scenario.repr_stub Scenario.start)].
Proof.
  eexists.
  eapply (no_companion_no_recommendation Scenario.shop Scenario.repr_stub "Z"
            (JStr "Zucchini") Scenario.start);
    [reflexivity | exact Runs.history_ids_of_history |].
  repeat (constructor; [left; reflexivity|]). constructor.
Defined.

(** The cart endpoint answers "out of stock". *)
Lemma refused_add_is_returned_unchanged_witness :
  fst (add_to_cart Scenario.sold_out Scenario.repr_stub Scenario.grouped_stub
         "A" 1 true Scenario.start) = Ok (RDict Scenario.refusal)
  /\ List.length
       (issued (snd (add_to_cart Scenario.sold_out Scenario.repr_stub
                       Scenario.grouped_stub "A" 1 true Scenario.start)))
     = 2%nat.
Proof.
  edestruct (refused_add_is_returned_unchanged Scenario.sold_out
               Scenario.repr_stub Scenario.grouped_stub "A" 1 Scenario.start)
    as (E & _);
    [reflexivity | reflexivity | reflexivity | reflexivity
    | left; reflexivity |].
  rewrite E. split; reflexivity.
Defined.

End History.

(** *** The proposal *)

Module Proposal.
Import Py Http Facade Obs Steps Exchange.

Section Fields.
Context {W : Type}.
Variable handle : request -> W -> option response * W.
Variable py_repr : json -> string.
Variable grouped_of_float : spec_float -> string.

Lemma proposal_message_missing (product : list (string * json))
  (discount : json) (quantity : Z) (k : string) :
  In k ["name"; "unit"; "price"; "mrp"; "rating"] ->
  dict_get product k = None ->
  proposal_message py_repr grouped_of_float (JObj product) discount quantity
  = Raise KeyError.
Proof.
  intros Hin Hk. unfold proposal_message. simpl index.
  destruct (dict_get product "name") eqn:E1; simpl;
    [|reflexivity].
  destruct (dict_get product "unit") eqn:E2; simpl; [|reflexivity].
  destruct (dict_get product "price") eqn:E3; simpl; [|reflexivity].
  destruct (dict_get product "mrp") eqn:E4; simpl; [|reflexivity].
  destruct (dict_get product "rating") eqn:E5; simpl; [|reflexivity].
  simpl in Hin.
  destruct Hin as [<- | [<- | [<- | [<- | [<- | []]]]]]; congruence.
Qed.

(** X26.  The proposal of an unconfirmed [add_to_cart] needs the name,
    the unit and the rating of the product: for a product that is found
    and whose discount can be computed, a missing one of them makes the
    call raise [KeyError] where the search would have filled in a
    default. *)
Theorem proposal_needs_core_fields (product_id : string) (quantity : Z)
  (s : state W) (res : response) (kv d product : list (string * json))
  (ok discount : json) (k : string) :
  fst (handle (get_request (BASE_URL ++ "/products/" ++ product_id)%string)
         (remote s)) = Some res ->
  parsed res = Some (JObj kv) ->
  dict_get kv "success" = Some ok -> truthy ok = true ->
  dict_get kv "data" = Some (JObj d) ->
  dict_get d "product" = Some (JObj product) ->
  discount_indexed (JObj product) = Ok discount ->
  In k ["name"; "unit"; "rating"] -> dict_get product k = None ->
  fst (add_to_cart handle py_repr grouped_of_float product_id quantity false
         s) = Raise KeyError.
Proof.
  intros Hres Hp Hok Ht Hd Hprod Hdisc Hin Hk.
  change (add_to_cart handle py_repr grouped_of_float product_id quantity
            false s)
    with (add_to_cart_proposed handle py_repr grouped_of_float product_id
            quantity s).
  unfold add_to_cart_proposed. rewrite bind_send, Hres.
  rewrite bind_lift. unfold json_of. rewrite Hp.
  rewrite bind_lift. simpl get. rewrite Hok, Ht.
  rewrite bind_lift. simpl index. rewrite Hd.
  rewrite bind_lift. simpl index. rewrite Hprod.
  rewrite bind_lift. rewrite Hdisc.
  rewrite bind_lift. simpl get. cbv iota beta.
  unfold bind at 1.
  match goal with
  | |- context [_fetch_image_as_content handle ?u ?s0] =>
      destruct (Images.fetch_image_total handle u s0) as (ic & s2 & E);
      rewrite E
  end.
  rewrite bind_lift.
  rewrite (proposal_message_missing product discount quantity k);
    [reflexivity | | exact Hk].
  simpl in Hin |- *. tauto.
Qed.

End Fields.

(** A product without a rating. *)
Lemma proposal_needs_core_fields_witness :
  fst (add_to_cart Scenario.new_arrivals Scenario.repr_stub
         Scenario.grouped_stub "N" 1 false Scenario.start) = Raise KeyError.
Proof.
  eapply (proposal_needs_core_fields Scenario.new_arrivals Scenario.repr_stub
            Scenario.grouped_stub "N" 1 Scenario.start)
    with (k := "rating");
    [reflexivity | reflexivity | reflexivity | reflexivity | reflexivity
    | reflexivity | reflexivity | right; right; left; reflexivity
    | reflexivity].
Defined.

End Proposal.

(** *** Tools that only read *)

Module ReadOnly.
Import Py Http Facade Obs Steps.

Section Tools.
Context {W : Type}.
Variable handle : request -> W -> option response * W.
Variable py_repr : json -> string.

(** X27.  The four discovery tools and the cart view only read: in
    every run, also one that raises, the requests they issue are GET
    requests, the token is kept, and on a service where GET is safe the
    remote state is left as it was. *)
Theorem discovery_and_cart_view_read_only :
  (forall query page limit show,
     reads_only handle (search_products handle query page limit show))
  /\ (forall category_id page limit show,
        reads_only handle
          (get_products_by_category handle category_id page limit show))
  /\ (forall category min_price max_price dietary brand in_stock sort_by page
             limit show,
        reads_only handle
          (filter_products handle category min_price max_price dietary brand
             in_stock sort_by page limit show))
  /\ (forall limit show,
        reads_only handle (get_featured_products handle limit show))
  /\ reads_only handle (view_cart handle py_repr).
Proof.
  split; [intros; apply Frame.reads_only_search|].
  split; [intros; apply Frame.reads_only_category|].
  split; [intros; apply Session.reads_only_filter|].
  split; [intros; apply Frame.reads_only_featured|].
  apply Frame.reads_only_view_cart.
Qed.

End Tools.
End ReadOnly.
